(** * MoodleReplacement: a shallow embedding of [MoodleReplacement.c]

    The program keeps three global fixed-size arrays ([students], [exams],
    [grades]) with their fill counts, reads [input.txt] line by line with
    [fgets], dispatches on the first word of each line and prints one
    response per command to [output.txt].

    The embedding follows the C text function by function.  [int] values
    are integers of [Z]; C strings are values of [string]; a global array is
    a list holding one element per cell, read and written by index; the text
    written to [output] is returned by each function.  An access outside an
    array or a buffer is undefined behaviour in C and is the outcome
    [Undef] here.

    A [for] or [while] loop is a recursive function on the number of turns
    it may still take, with the loop test as the C text has it; its caller
    hands it the number of turns the loop can need; a later part of the file
    shows that this number always suffices. *)

From Stdlib Require Import ZArith Ascii String DecimalString DecimalPos.
From stdpp Require Import base list strings.

Open Scope Z_scope.

(** ** Outcomes of C code *)

Inductive outcome (A : Type) : Type :=
| Ok (a : A)      (* normal completion *)
| Undef           (* undefined behaviour: out-of-bounds access, indeterminate read *)
| OutOfFuel.      (* the loop bound handed to a loop function was too small *)

Arguments Ok {A} a.
Arguments Undef {A}.
Arguments OutOfFuel {A}.

#[global] Instance outcome_bind : MBind outcome := fun A B k m =>
  match m with
  | Ok a => k a
  | Undef => Undef
  | OutOfFuel => OutOfFuel
  end.

(** ** The constants of the program *)

Definition MAX_STUDENTS : Z := 100.
Definition MAX_EXAMS : Z := 100.
Definition MAX_NAME_LENGTH : Z := 100.
Definition MAX_FACULTY_LENGTH : Z := 100.
Definition MAX_TYPE_LENGTH : Z := 20.
Definition MAX_COMMAND_LENGTH : Z := 256.
Definition MAX_GRADES : Z := MAX_EXAMS * MAX_STUDENTS.

(** ** Arrays and strings *)

(** [a[i]] read as an rvalue. *)
Definition rd {A} (a : list A) (i : Z) : outcome A :=
  if 0 <=? i then
    match a !! Z.to_nat i with
    | Some x => Ok x
    | None => Undef
    end
  else Undef.

(** [a[i] = x]. *)
Definition wr {A} (a : list A) (i : Z) (x : A) : outcome (list A) :=
  if (0 <=? i) && (i <? Z.of_nat (length a)) then Ok (<[Z.to_nat i := x]> a)
  else Undef.

Definition strlen (s : string) : Z := Z.of_nat (String.length s).

(** [strcpy(dest, src)] into a buffer of [cap] bytes: the characters of
    [src] and the terminating zero must fit. *)
Definition strcpy (cap : Z) (src : string) : outcome string :=
  if strlen src <? cap then Ok src else Undef.

(** [strcmp(a, b) == 0]. *)
Definition streq (a b : string) : bool := bool_decide (a = b).

(** [isalpha] in the "C" locale, the only one the program runs in: the
    letters of ASCII, and no byte above 127. *)
Definition isalpha (c : ascii) : bool :=
  let n := Z.of_nat (nat_of_ascii c) in
  ((65 <=? n) && (n <=? 90)) || ((97 <=? n) && (n <=? 122)).

(** [isspace] in the "C" locale: space, \t, \n, \v, \f, \r. *)
Definition isspace (c : ascii) : bool :=
  let n := Z.of_nat (nat_of_ascii c) in
  (n =? 32) || ((9 <=? n) && (n <=? 13)).

(** [%d] of [fprintf]. *)
Definition fmt_d (z : Z) : string := NilZero.string_of_int (Z.to_int z).

Definition nl : string := String (ascii_of_nat 10) "".

(** ** The data *)

Record Student := mkStudent { s_id : Z; s_name : string; s_faculty : string }.
Record Exam := mkExam { e_id : Z; e_type : string; e_info : string }.
Record Grade := mkGrade { g_exam_id : Z; g_student_id : Z; g_grade : Z }.

(** The globals of the program. *)
Record Store := mkStore {
  students : list Student;
  exams : list Exam;
  grades : list Grade;
  student_count : Z;
  exam_count : Z;
  grade_count : Z
}.

(** Objects of static storage are zero-initialised. *)
Definition init : Store :=
  {| students := replicate (Z.to_nat MAX_STUDENTS) (mkStudent 0 "" "");
     exams := replicate (Z.to_nat MAX_EXAMS) (mkExam 0 "" "");
     grades := replicate (Z.to_nat MAX_GRADES) (mkGrade 0 0 0);
     student_count := 0; exam_count := 0; grade_count := 0 |}.

Definition set_students (st : Store) (a : list Student) (n : Z) : Store :=
  {| students := a; exams := exams st; grades := grades st;
     student_count := n; exam_count := exam_count st;
     grade_count := grade_count st |}.

Definition set_exams (st : Store) (a : list Exam) (n : Z) : Store :=
  {| students := students st; exams := a; grades := grades st;
     student_count := student_count st; exam_count := n;
     grade_count := grade_count st |}.

Definition set_grades (st : Store) (a : list Grade) (n : Z) : Store :=
  {| students := students st; exams := exams st; grades := a;
     student_count := student_count st; exam_count := exam_count st;
     grade_count := n |}.

(** ** Record Store operations *)

(** The loop of [find_student], entered with loop variable [i]. *)
Fixpoint find_student_loop (fuel : nat) (st : Store) (id i : Z) : outcome Z :=
  if i <? student_count st then
    match fuel with
    | O => OutOfFuel
    | S fuel' =>
        s ← rd (students st) i;
        if s_id s =? id then Ok i
        else find_student_loop fuel' st id (i + 1)
    end
  else Ok (-1).

Definition find_student (st : Store) (id : Z) : outcome Z :=
  find_student_loop (Z.to_nat (student_count st)) st id 0.

Fixpoint find_exam_loop (fuel : nat) (st : Store) (id i : Z) : outcome Z :=
  if i <? exam_count st then
    match fuel with
    | O => OutOfFuel
    | S fuel' =>
        e ← rd (exams st) i;
        if e_id e =? id then Ok i
        else find_exam_loop fuel' st id (i + 1)
    end
  else Ok (-1).

Definition find_exam (st : Store) (id : Z) : outcome Z :=
  find_exam_loop (Z.to_nat (exam_count st)) st id 0.

Definition valid_faculty (faculty : string) : bool :=
  streq faculty "SoftwareEngineering" ||
  streq faculty "ComputerScience" ||
  streq faculty "DataScience" ||
  streq faculty "CyberSecurity" ||
  streq faculty "InformationTechnology" ||
  streq faculty "ProgrammingLanguagesAndCompilers".

(** [for (i = 0; name[i] != '\0'; i++) if (!isalpha(name[i])) ...]. *)
Fixpoint all_alpha (name : string) : bool :=
  match name with
  | EmptyString => true
  | String c rest => if isalpha c then all_alpha rest else false
  end.

(** The three assignments to [students[student_count]] are one write of the
    whole cell. *)
Definition add_student (st : Store) (id : Z) (name faculty : string)
  : outcome (Store * string) :=
  found ← find_student st id;
  if negb (found =? -1) then
    Ok (st, "Student: " +:+ fmt_d id +:+ " already exists" +:+ nl)
  else if (MAX_NAME_LENGTH <=? strlen name) || (MAX_FACULTY_LENGTH <=? strlen faculty) then
    Ok (st, "Invalid name or faculty length" +:+ nl)
  else if negb (valid_faculty faculty) then
    Ok (st, "Invalid faculty" +:+ nl)
  else if negb (all_alpha name) then
    Ok (st, "Invalid name" +:+ nl)
  else
    name' ← strcpy MAX_NAME_LENGTH name;
    faculty' ← strcpy MAX_FACULTY_LENGTH faculty;
    a ← wr (students st) (student_count st) (mkStudent id name' faculty');
    Ok (set_students st a (student_count st + 1),
        "Student: " +:+ fmt_d id +:+ " added" +:+ nl).

Definition add_exam (st : Store) (id : Z) (type info : string)
  : outcome (Store * string) :=
  found ← find_exam st id;
  if negb (found =? -1) then
    Ok (st, "Exam: " +:+ fmt_d id +:+ " already exists" +:+ nl)
  else if (MAX_TYPE_LENGTH <=? strlen type) || (MAX_NAME_LENGTH <=? strlen info) then
    Ok (st, "Invalid type or info length" +:+ nl)
  else
    type' ← strcpy MAX_TYPE_LENGTH type;
    info' ← strcpy MAX_NAME_LENGTH info;
    a ← wr (exams st) (exam_count st) (mkExam id type' info');
    Ok (set_exams st a (exam_count st + 1),
        "Exam: " +:+ fmt_d id +:+ " added" +:+ nl).

Definition add_grade (st : Store) (exam_id student_id grade_value : Z)
  : outcome (Store * string) :=
  if (grade_value <? 0) || (100 <? grade_value) then
    Ok (st, "Invalid grade" +:+ nl)
  else
    si ← find_student st student_id;
    if si =? -1 then Ok (st, "Student not found" +:+ nl)
    else
      ei ← find_exam st exam_id;
      if ei =? -1 then Ok (st, "Exam not found" +:+ nl)
      else
        a ← wr (grades st) (grade_count st) (mkGrade exam_id student_id grade_value);
        Ok (set_grades st a (grade_count st + 1),
            "Grade " +:+ fmt_d grade_value +:+ " added for the student: "
              +:+ fmt_d student_id +:+ nl).

(** The two [strcpy] into [exams[index]] leave its [id] as it is. *)
Definition update_exam (st : Store) (id : Z) (new_type new_info : string)
  : outcome (Store * string) :=
  index ← find_exam st id;
  if index =? -1 then Ok (st, "Exam not found" +:+ nl)
  else if negb (streq new_type "WRITTEN") && negb (streq new_type "DIGITAL") then
    Ok (st, "Invalid exam type" +:+ nl)
  else
    e ← rd (exams st) index;
    type' ← strcpy MAX_TYPE_LENGTH new_type;
    info' ← strcpy MAX_NAME_LENGTH new_info;
    a ← wr (exams st) index (mkExam (e_id e) type' info');
    Ok (set_exams st a (exam_count st),
        "Exam: " +:+ fmt_d id +:+ " updated" +:+ nl).

Fixpoint update_grade_loop (fuel : nat) (st : Store)
    (exam_id student_id new_grade i : Z) : outcome (Store * string) :=
  if i <? grade_count st then
    match fuel with
    | O => OutOfFuel
    | S fuel' =>
        g ← rd (grades st) i;
        if (g_exam_id g =? exam_id) && (g_student_id g =? student_id) then
          a ← wr (grades st) i (mkGrade (g_exam_id g) (g_student_id g) new_grade);
          Ok (set_grades st a (grade_count st),
              "Grade " +:+ fmt_d new_grade +:+ " updated for the student: "
                +:+ fmt_d student_id +:+ nl)
        else update_grade_loop fuel' st exam_id student_id new_grade (i + 1)
    end
  else Ok (st, "Student not found" +:+ nl).

Definition update_grade (st : Store) (exam_id student_id new_grade : Z)
  : outcome (Store * string) :=
  if (new_grade <? 0) || (100 <? new_grade) then
    Ok (st, "Invalid grade" +:+ nl)
  else
    update_grade_loop (Z.to_nat (grade_count st)) st exam_id student_id new_grade 0.

(** [for (j = i; j < n - 1; j++) a[j] = a[j + 1];] *)
Fixpoint shift_left {A} (fuel : nat) (a : list A) (n j : Z) : outcome (list A) :=
  if j <? n - 1 then
    match fuel with
    | O => OutOfFuel
    | S fuel' =>
        x ← rd a (j + 1);
        a' ← wr a j x;
        shift_left fuel' a' n (j + 1)
    end
  else Ok a.

(** The grade-removal loop of [delete_student]; [a] and [n] are [grades]
    and [grade_count], both changed by the loop. *)
Fixpoint delete_grades_loop (fuel : nat) (a : list Grade) (n : Z) (id i : Z)
  : outcome (list Grade * Z) :=
  if i <? n then
    match fuel with
    | O => OutOfFuel
    | S fuel' =>
        g ← rd a i;
        if g_student_id g =? id then
          a' ← shift_left (Z.to_nat (n - 1 - i)) a n i;
          delete_grades_loop fuel' a' (n - 1) id (i - 1 + 1)
        else delete_grades_loop fuel' a n id (i + 1)
    end
  else Ok (a, n).

Definition delete_student (st : Store) (id : Z) : outcome (Store * string) :=
  index ← find_student st id;
  if index =? -1 then Ok (st, "Student not found" +:+ nl)
  else
    '(ga, gn) ← delete_grades_loop (Z.to_nat (grade_count st)) (grades st)
                   (grade_count st) id 0;
    sa ← shift_left (Z.to_nat (student_count st - 1 - index)) (students st)
            (student_count st) index;
    Ok ({| students := sa; exams := exams st; grades := ga;
           student_count := student_count st - 1; exam_count := exam_count st;
           grade_count := gn |},
        "Student: " +:+ fmt_d id +:+ " deleted" +:+ nl).

Definition student_line (s : Student) : string :=
  "ID: " +:+ fmt_d (s_id s) +:+ ", Name: " +:+ s_name s +:+ ", Faculty: "
    +:+ s_faculty s +:+ nl.

Definition search_student (st : Store) (id : Z) : outcome (Store * string) :=
  index ← find_student st id;
  if index =? -1 then Ok (st, "Student not found" +:+ nl)
  else
    s ← rd (students st) index;
    Ok (st, student_line s).

Fixpoint search_grade_loop (fuel : nat) (st : Store)
    (exam_id student_id student_index i : Z) : outcome (Store * string) :=
  if i <? grade_count st then
    match fuel with
    | O => OutOfFuel
    | S fuel' =>
        g ← rd (grades st) i;
        if (g_exam_id g =? exam_id) && (g_student_id g =? student_id) then
          exam_index ← find_exam st exam_id;
          if exam_index =? -1 then Ok (st, "Exam not found" +:+ nl)
          else
            s ← rd (students st) student_index;
            e ← rd (exams st) exam_index;
            Ok (st, "Exam: " +:+ fmt_d exam_id +:+ ", Student: " +:+ fmt_d student_id
                      +:+ ", Name: " +:+ s_name s +:+ ", Grade: " +:+ fmt_d (g_grade g)
                      +:+ ", Type: " +:+ e_type e +:+ ", Info: " +:+ e_info e +:+ nl)
        else search_grade_loop fuel' st exam_id student_id student_index (i + 1)
    end
  else Ok (st, "Grade not found" +:+ nl).

Definition search_grade (st : Store) (exam_id student_id : Z)
  : outcome (Store * string) :=
  student_index ← find_student st student_id;
  if student_index =? -1 then Ok (st, "Student not found" +:+ nl)
  else
    search_grade_loop (Z.to_nat (grade_count st)) st exam_id student_id student_index 0.

Fixpoint list_all_students_loop (fuel : nat) (st : Store) (i : Z) (out : string)
  : outcome (Store * string) :=
  if i <? student_count st then
    match fuel with
    | O => OutOfFuel
    | S fuel' =>
        s ← rd (students st) i;
        list_all_students_loop fuel' st (i + 1) (out +:+ student_line s)
    end
  else Ok (st, out).

Definition list_all_students (st : Store) : outcome (Store * string) :=
  list_all_students_loop (Z.to_nat (student_count st)) st 0 "".

(** ** Command Interpreter *)

(** The conversion directives of the format strings in [main]:
    [%*s], white space, [%d], and [%s] with the size of its destination. *)
Inductive directive :=
| FSkip
| FSpace
| FInt
| FStr (cap : Z).

Inductive value :=
| VInt (z : Z)
| VStr (s : string).

Fixpoint skip_space (s : string) : string :=
  match s with
  | String c rest => if isspace c then skip_space rest else s
  | EmptyString => EmptyString
  end.

(** The longest prefix without white space, and what follows it. *)
Fixpoint scan_word (s : string) : string * string :=
  match s with
  | String c rest =>
      if isspace c then (EmptyString, s)
      else let '(w, r) := scan_word rest in (String c w, r)
  | EmptyString => (EmptyString, EmptyString)
  end.

Definition digit_of (c : ascii) : option Z :=
  let n := Z.of_nat (nat_of_ascii c) in
  if (48 <=? n) && (n <=? 57) then Some (n - 48) else None.

(** The digits at the head of [s] read in base ten after [acc]; [seen]
    tells whether a digit was read. *)
Fixpoint scan_digits (s : string) (acc : Z) (seen : bool) : option (Z * string) :=
  match s with
  | String c rest =>
      match digit_of c with
      | Some d => scan_digits rest (10 * acc + d) true
      | None => if seen then Some (acc, s) else None
      end
  | EmptyString => if seen then Some (acc, s) else None
  end.

(** The subject sequence of [%d]: an optional sign and decimal digits. *)
Definition scan_int (s : string) : option (Z * string) :=
  match s with
  | String "-" rest =>
      match scan_digits rest 0 false with
      | Some (v, r) => Some (- v, r)
      | None => None
      end
  | String "+" rest => scan_digits rest 0 false
  | _ => scan_digits s 0 false
  end.

Definition INT_MIN : Z := -2147483648.
Definition INT_MAX : Z := 2147483647.

(** [sscanf(s, fmt, ...)]: the values assigned, in order.  The C return
    value is their number (or [EOF], which no call site tells apart from
    zero).  A word that does not fit its buffer and a number that does not
    fit an [int] are undefined behaviour. *)
Fixpoint sscanf (fmt : list directive) (s : string) : outcome (list value) :=
  match fmt with
  | [] => Ok []
  | FSpace :: fmt' => sscanf fmt' (skip_space s)
  | FSkip :: fmt' =>
      match scan_word (skip_space s) with
      | (EmptyString, _) => Ok []
      | (_, rest) => sscanf fmt' rest
      end
  | FInt :: fmt' =>
      match scan_int (skip_space s) with
      | None => Ok []
      | Some (z, rest) =>
          if (INT_MIN <=? z) && (z <=? INT_MAX) then
            vs ← sscanf fmt' rest; Ok (VInt z :: vs)
          else Undef
      end
  | FStr cap :: fmt' =>
      match scan_word (skip_space s) with
      | (EmptyString, _) => Ok []
      | (w, rest) =>
          if strlen w <? cap then
            vs ← sscanf fmt' rest; Ok (VStr w :: vs)
          else Undef
      end
  end.

(** ["%s"] into [char cmd[30]]. *)
Definition fmt_cmd : list directive := [FStr 30].
(** ["%*s %d %s %s"] into [name] and [faculty]. *)
Definition fmt_student : list directive :=
  [FSkip; FSpace; FInt; FSpace; FStr MAX_NAME_LENGTH; FSpace; FStr MAX_FACULTY_LENGTH].
(** ["%*s %d %s %s"] into [type] and [info]. *)
Definition fmt_exam : list directive :=
  [FSkip; FSpace; FInt; FSpace; FStr MAX_TYPE_LENGTH; FSpace; FStr MAX_NAME_LENGTH].
(** ["%*s %d %d %d"], ["%*s %d %d"] and ["%*s %d"]. *)
Definition fmt_int3 : list directive := [FSkip; FSpace; FInt; FSpace; FInt; FSpace; FInt].
Definition fmt_int2 : list directive := [FSkip; FSpace; FInt; FSpace; FInt].
Definition fmt_int1 : list directive := [FSkip; FSpace; FInt].

(** What one turn of the loop of [main] does. *)
Inductive step :=
| Continue (st : Store) (out : string)
| Break.

Definition continue (r : outcome (Store * string)) : outcome step :=
  '(st, out) ← r; Ok (Continue st out).

Definition invalid_format (st : Store) (cmd : string) : outcome step :=
  Ok (Continue st ("Invalid " +:+ cmd +:+ " command format" +:+ nl)).

(** The body of the [while] loop of [main] for one [command] buffer.  When
    the first [sscanf] converts nothing, [cmd] is read uninitialised. *)
Definition process_line (st : Store) (command : string) : outcome step :=
  vs ← sscanf fmt_cmd command;
  match vs with
  | [VStr cmd] =>
      if streq cmd "ADD_STUDENT" then
        vs ← sscanf fmt_student command;
        match vs with
        | [VInt id1; VStr name; VStr faculty] => continue (add_student st id1 name faculty)
        | _ => invalid_format st "ADD_STUDENT"
        end
      else if streq cmd "ADD_EXAM" then
        vs ← sscanf fmt_exam command;
        match vs with
        | [VInt id1; VStr type; VStr info] => continue (add_exam st id1 type info)
        | _ => invalid_format st "ADD_EXAM"
        end
      else if streq cmd "ADD_GRADE" then
        vs ← sscanf fmt_int3 command;
        match vs with
        | [VInt id1; VInt id2; VInt grade] => continue (add_grade st id1 id2 grade)
        | _ => invalid_format st "ADD_GRADE"
        end
      else if streq cmd "UPDATE_EXAM" then
        vs ← sscanf fmt_exam command;
        match vs with
        | [VInt id1; VStr type; VStr info] => continue (update_exam st id1 type info)
        | _ => invalid_format st "UPDATE_EXAM"
        end
      else if streq cmd "UPDATE_GRADE" then
        vs ← sscanf fmt_int3 command;
        match vs with
        | [VInt id1; VInt id2; VInt grade] => continue (update_grade st id1 id2 grade)
        | _ => invalid_format st "UPDATE_GRADE"
        end
      else if streq cmd "DELETE_STUDENT" then
        vs ← sscanf fmt_int1 command;
        match vs with
        | [VInt id1] => continue (delete_student st id1)
        | _ => invalid_format st "DELETE_STUDENT"
        end
      else if streq cmd "SEARCH_STUDENT" then
        vs ← sscanf fmt_int1 command;
        match vs with
        | [VInt id1] => continue (search_student st id1)
        | _ => invalid_format st "SEARCH_STUDENT"
        end
      else if streq cmd "SEARCH_GRADE" then
        vs ← sscanf fmt_int2 command;
        match vs with
        | [VInt id1; VInt id2] => continue (search_grade st id1 id2)
        | _ => invalid_format st "SEARCH_GRADE"
        end
      else if streq cmd "LIST_ALL_STUDENTS" then
        continue (list_all_students st)
      else if streq cmd "END" then
        Ok Break
      else
        Ok (Continue st ("Unknown command: " +:+ cmd +:+ nl))
  | _ => Undef
  end.

(** [fgets(buf, size, input)] on the unread part of the file: at most
    [n = size - 1] characters, ending after the first newline. *)
Fixpoint fgets_chars (n : nat) (input : string) : string * string :=
  match n, input with
  | S n', String c rest =>
      if Ascii.eqb c (ascii_of_nat 10) then (String c EmptyString, rest)
      else let '(l, r) := fgets_chars n' rest in (String c l, r)
  | _, _ => (EmptyString, input)
  end.

Definition fgets (size : Z) (input : string) : option (string * string) :=
  match input with
  | EmptyString => None
  | _ => Some (fgets_chars (Z.to_nat (size - 1)) input)
  end.

(** A buffer read as a C string ends at its first zero byte. *)
Fixpoint c_str (buf : string) : string :=
  match buf with
  | String c rest => if Ascii.eqb c zero then EmptyString else String c (c_str rest)
  | EmptyString => EmptyString
  end.

(** The [while (fgets(...))] loop of [main]: [out] is what has been written
    to [output] so far. *)
Fixpoint main_loop (fuel : nat) (st : Store) (out : string) (input : string)
  : outcome (Store * string) :=
  match fgets MAX_COMMAND_LENGTH input with
  | None => Ok (st, out)
  | Some (command, rest) =>
      match fuel with
      | O => OutOfFuel
      | S fuel' =>
          r ← process_line st (c_str command);
          match r with
          | Break => Ok (st, out)
          | Continue st' o => main_loop fuel' st' (out +:+ o) rest
          end
      end
  end.

(** [main] on the contents of [input.txt], both files opened: the final
    globals and the contents of [output.txt]. *)
Definition main (input : string) : outcome (Store * string) :=
  main_loop (String.length input) init "" input.

(** ** Whole runs *)

(** An input file given by its lines, and the output of a run. *)
Definition lines (l : list string) : string :=
  foldr (fun s acc => s +:+ nl +:+ acc) "" l.

Definition output_of (r : outcome (Store * string)) : outcome string :=
  '(_, out) ← r; Ok out.

(** ** The store seen as three sequences *)

(** The cells of an array in use: the first [n]. *)
Definition live {A} (a : list A) (n : Z) : list A := take (Z.to_nat n) a.

Definition live_students (st : Store) : list Student :=
  live (students st) (student_count st).
Definition live_exams (st : Store) : list Exam :=
  live (exams st) (exam_count st).
Definition live_grades (st : Store) : list Grade :=
  live (grades st) (grade_count st).

Definition student_ids (st : Store) : list Z := s_id <$> live_students st.
Definition exam_ids (st : Store) : list Z := e_id <$> live_exams st.

(** The arrays have their declared sizes, which is what their C types say,
    and the counts lie inside them, which holds in every store the program
    reaches. *)
Record bounds (st : Store) : Prop := mkBounds {
  b_students_len : Z.of_nat (length (students st)) = MAX_STUDENTS;
  b_exams_len : Z.of_nat (length (exams st)) = MAX_EXAMS;
  b_grades_len : Z.of_nat (length (grades st)) = MAX_GRADES;
  b_student_count : 0 <= student_count st <= MAX_STUDENTS;
  b_exam_count : 0 <= exam_count st <= MAX_EXAMS;
  b_grade_count : 0 <= grade_count st <= MAX_GRADES
}.

(** The invariants of the data model: unique keys, and every grade refers
    to a stored student and a stored exam. *)
Record wf (st : Store) : Prop := mkWf {
  wf_bounds : bounds st;
  wf_students : NoDup (student_ids st);
  wf_exams : NoDup (exam_ids st);
  wf_grade_student : forall g, g ∈ live_grades st -> g_student_id g ∈ student_ids st;
  wf_grade_exam : forall g, g ∈ live_grades st -> g_exam_id g ∈ exam_ids st
}.

(** The first position of [id] in [l], counted from [i]; [-1] if none. *)
Fixpoint index_of (id : Z) (l : list Z) (i : Z) : Z :=
  match l with
  | [] => -1
  | x :: l' => if x =? id then i else index_of id l' (i + 1)
  end.

(** The grades [delete_student] keeps. *)
Definition other_student (id : Z) (g : Grade) : Prop := g_student_id g <> id.

#[global] Instance other_student_dec id g : Decision (other_student id g).
Proof. unfold other_student. apply _. Defined.

(** The grades [update_grade] and [search_grade] look for. *)
Definition matches (exam_id student_id : Z) (g : Grade) : Prop :=
  g_exam_id g = exam_id /\ g_student_id g = student_id.

#[global] Instance matches_dec e s g : Decision (matches e s g).
Proof. unfold matches. apply _. Defined.

(** The first position from [i] on whose element satisfies [P]. *)
Fixpoint first_from {A} (P : A -> Prop) `{!forall x, Decision (P x)}
    (l : list A) (i : Z) : option (Z * A) :=
  match l with
  | [] => None
  | x :: l' => if decide (P x) then Some (i, x) else first_from P l' (i + 1)
  end.

(** The Record Store operations as values, and their execution. *)
Inductive op :=
| AddStudent (id : Z) (name faculty : string)
| AddExam (id : Z) (type info : string)
| AddGrade (exam_id student_id grade_value : Z)
| UpdateExam (id : Z) (new_type new_info : string)
| UpdateGrade (exam_id student_id new_grade : Z)
| DeleteStudent (id : Z)
| SearchStudent (id : Z)
| SearchGrade (exam_id student_id : Z)
| ListAllStudents.

Definition exec (st : Store) (o : op) : outcome (Store * string) :=
  match o with
  | AddStudent id name faculty => add_student st id name faculty
  | AddExam id type info => add_exam st id type info
  | AddGrade e s v => add_grade st e s v
  | UpdateExam id t i => update_exam st id t i
  | UpdateGrade e s v => update_grade st e s v
  | DeleteStudent id => delete_student st id
  | SearchStudent id => search_student st id
  | SearchGrade e s => search_grade st e s
  | ListAllStudents => list_all_students st
  end.

(** A sequence of operations, each run on the store the previous one left. *)
Fixpoint run (st : Store) (ops : list op) : outcome (Store * string) :=
  match ops with
  | [] => Ok (st, "")
  | o :: ops' =>
      '(st1, out1) ← exec st o;
      '(st2, out2) ← run st1 ops';
      Ok (st2, out1 +:+ out2)
  end.

(** The stores the program can be in. *)
Inductive reachable : Store -> Prop :=
| reach_init : reachable init
| reach_step st o st' out :
    reachable st -> exec st o = Ok (st', out) -> reachable st'.

(** ** The interpreter seen line by line *)

(** The first word of a buffer, as [main] reads it into [cmd]. *)
Definition command_word (command : string) : outcome string :=
  vs ← sscanf fmt_cmd command;
  match vs with
  | [VStr cmd] => Ok cmd
  | _ => Undef
  end.

(** The lines of the input as [fgets] hands them to [main], one per call. *)
Fixpoint read_lines (fuel : nat) (input : string) : list string :=
  match fgets MAX_COMMAND_LENGTH input with
  | None => []
  | Some (command, rest) =>
      match fuel with
      | O => []
      | S fuel' => command :: read_lines fuel' rest
      end
  end.

Definition input_lines (input : string) : list string :=
  read_lines (String.length input) input.

(** The commands of a list of lines run in order, up to the first one that
    ends the loop. *)
Fixpoint run_lines (st : Store) (out : string) (ls : list string)
  : outcome (Store * string) :=
  match ls with
  | [] => Ok (st, out)
  | l :: ls' =>
      r ← process_line st (c_str l);
      match r with
      | Break => Ok (st, out)
      | Continue st' o => run_lines st' (out +:+ o) ls'
      end
  end.

(** [responds st ls st' outs]: from [st] the lines [ls] are answered one
    after the other with [outs] and leave [st']. *)
Inductive responds : Store -> list string -> Store -> list string -> Prop :=
| responds_nil st : responds st [] st []
| responds_cons st l st1 o ls st2 os :
    process_line st (c_str l) = Ok (Continue st1 o) ->
    responds st1 ls st2 os ->
    responds st (l :: ls) st2 (o :: os).

Definition concat_strings (l : list string) : string :=
  foldr String.append "" l.

(** The format and the number of conversions [main] asks for, per verb. *)
Definition formats : list (string * (list directive * nat)) :=
  [("ADD_STUDENT", (fmt_student, 3%nat)); ("ADD_EXAM", (fmt_exam, 3%nat));
   ("ADD_GRADE", (fmt_int3, 3%nat)); ("UPDATE_EXAM", (fmt_exam, 3%nat));
   ("UPDATE_GRADE", (fmt_int3, 3%nat)); ("DELETE_STUDENT", (fmt_int1, 1%nat));
   ("SEARCH_STUDENT", (fmt_int1, 1%nat)); ("SEARCH_GRADE", (fmt_int2, 2%nat))].

Definition verbs : list string :=
  ["ADD_STUDENT"; "ADD_EXAM"; "ADD_GRADE"; "UPDATE_EXAM"; "UPDATE_GRADE";
   "DELETE_STUDENT"; "SEARCH_STUDENT"; "SEARCH_GRADE"; "LIST_ALL_STUDENTS"; "END"].

(** *** The input grammar in the words of the specification *)

(** The white-space separated tokens of a line; [cur] is the token being
    read. *)
Fixpoint tokens_from (cur : string) (s : string) : list string :=
  match s with
  | EmptyString => match cur with EmptyString => [] | _ => [cur] end
  | String c rest =>
      if isspace c then
        match cur with
        | EmptyString => tokens_from EmptyString rest
        | _ => cur :: tokens_from EmptyString rest
        end
      else tokens_from (cur +:+ String c EmptyString) rest
  end.

Definition tokens (line : string) : list string := tokens_from EmptyString line.

Inductive arg_type := TInt | TToken.

(** [ADD_STUDENT <int:id> <token:name> <token:faculty>] and so on. *)
Definition grammar : list (string * list arg_type) :=
  [("ADD_STUDENT", [TInt; TToken; TToken]); ("ADD_EXAM", [TInt; TToken; TToken]);
   ("ADD_GRADE", [TInt; TInt; TInt]); ("UPDATE_EXAM", [TInt; TToken; TToken]);
   ("UPDATE_GRADE", [TInt; TInt; TInt]); ("DELETE_STUDENT", [TInt]);
   ("SEARCH_STUDENT", [TInt]); ("SEARCH_GRADE", [TInt; TInt])].

(** A token that is an integer: an optional sign, digits, nothing more. *)
Definition is_int_token (t : string) : bool :=
  match scan_int t with
  | Some (_, EmptyString) => true
  | _ => false
  end.

(** As many tokens as required, each of the expected type. *)
Fixpoint args_ok (tys : list arg_type) (args : list string) : bool :=
  match tys, args with
  | [], _ => true
  | TInt :: tys', a :: args' => is_int_token a && args_ok tys' args'
  | TToken :: tys', a :: args' => args_ok tys' args'
  | _ :: _, [] => false
  end.

(** The sentence of the specification about malformed commands, for one
    store and one line. *)
Definition spec_format_error (st : Store) (line : string) : Prop :=
  forall cmd args tys,
    tokens line = cmd :: args -> (cmd, tys) ∈ grammar -> args_ok tys args = false ->
    process_line st line =
      Ok (Continue st ("Invalid " +:+ cmd +:+ " command format" +:+ nl)).

(** A line of the input file that [fgets] reads in one call: it ends with
    its only newline and fits the command buffer. *)
Fixpoint has_newline (s : string) : bool :=
  match s with
  | EmptyString => false
  | String c rest => Ascii.eqb c (ascii_of_nat 10) || has_newline rest
  end.

Definition fits_buffer (l : string) : Prop :=
  exists body, l = body +:+ nl /\ has_newline body = false /\
               strlen l < MAX_COMMAND_LENGTH.

(** ** Stores used as concrete instances *)

(** The store after [ADD_STUDENT 1 John ComputerScience]. *)
Definition st_john : Store :=
  set_students init (<[0%nat := mkStudent 1 "John" "ComputerScience"]> (students init)) 1.

(** ... then [ADD_EXAM 10 WRITTEN Midterm]. *)
Definition st_exam : Store :=
  set_exams st_john (<[0%nat := mkExam 10 "WRITTEN" "Midterm"]> (exams st_john)) 1.

(** ... then [ADD_GRADE 10 1 85]. *)
Definition st_grade : Store :=
  set_grades st_exam (<[0%nat := mkGrade 10 1 85]> (grades st_exam)) 1.

(** A store whose three arrays are full. *)
Definition st_full : Store :=
  {| students := (fun i => mkStudent i "A" "DataScience") <$> seqZ 0 MAX_STUDENTS;
     exams := (fun i => mkExam i "WRITTEN" "x") <$> seqZ 0 MAX_EXAMS;
     grades := (fun i => mkGrade (i / 100) (i mod 100) 50) <$> seqZ 0 MAX_GRADES;
     student_count := MAX_STUDENTS; exam_count := MAX_EXAMS;
     grade_count := MAX_GRADES |}.

(** ** What the stored records hold *)

(** The line [search_grade] prints for a grade, its student and its exam. *)
Definition grade_line (exam_id student_id : Z) (s : Student) (g : Grade) (e : Exam)
  : string :=
  "Exam: " +:+ fmt_d exam_id +:+ ", Student: " +:+ fmt_d student_id
    +:+ ", Name: " +:+ s_name s +:+ ", Grade: " +:+ fmt_d (g_grade g)
    +:+ ", Type: " +:+ e_type e +:+ ", Info: " +:+ e_info e +:+ nl.

(** What the tests of the add and update functions let into the arrays. *)
Definition student_ok (s : Student) : Prop :=
  strlen (s_name s) < MAX_NAME_LENGTH /\ all_alpha (s_name s) = true /\
  valid_faculty (s_faculty s) = true.

Definition exam_ok (e : Exam) : Prop :=
  strlen (e_type e) < MAX_TYPE_LENGTH /\ strlen (e_info e) < MAX_NAME_LENGTH.

Definition grade_ok (g : Grade) : Prop := 0 <= g_grade g <= 100.

Record content_ok (st : Store) : Prop := mkContentOk {
  c_students : Forall student_ok (live_students st);
  c_exams : Forall exam_ok (live_exams st);
  c_grades : Forall grade_ok (live_grades st)
}.

(** ** Command lines written out *)

Fixpoint no_space (w : string) : bool :=
  match w with
  | EmptyString => true
  | String c rest => negb (isspace c) && no_space rest
  end.

(** A word as [%s] reads one: not empty and without white space. *)
Definition is_word (w : string) : Prop := w <> "" /\ no_space w = true.

(** What may follow an argument on a line: nothing, or white space first. *)
Definition ends_arg (rest : string) : Prop :=
  match rest with
  | EmptyString => True
  | String c _ => isspace c = true
  end.

Definition is_int (z : Z) : Prop := INT_MIN <= z <= INT_MAX.

(** The number that the digits [d] make after the digits that made [acc]. *)
Fixpoint uint_val (d : Decimal.uint) (acc : Z) : Z :=
  match d with
  | Decimal.Nil => acc
  | Decimal.D0 d => uint_val d (10 * acc + 0)
  | Decimal.D1 d => uint_val d (10 * acc + 1)
  | Decimal.D2 d => uint_val d (10 * acc + 2)
  | Decimal.D3 d => uint_val d (10 * acc + 3)
  | Decimal.D4 d => uint_val d (10 * acc + 4)
  | Decimal.D5 d => uint_val d (10 * acc + 5)
  | Decimal.D6 d => uint_val d (10 * acc + 6)
  | Decimal.D7 d => uint_val d (10 * acc + 7)
  | Decimal.D8 d => uint_val d (10 * acc + 8)
  | Decimal.D9 d => uint_val d (10 * acc + 9)
  end.

Fixpoint all_space (s : string) : bool :=
  match s with
  | EmptyString => true
  | String c rest => isspace c && all_space rest
  end.

(** The store after ADD_STUDENT 1 John ComputerScience, ADD_EXAM 10 WRITTEN
    Midterm, ADD_GRADE 10 1 85 and ADD_STUDENT 2 Ann DataScience. *)
Definition st_two : Store :=
  set_students st_grade
    (<[1%nat := mkStudent 2 "Ann" "DataScience"]> (students st_grade)) 2.

(** * Properties *)

(** ** Arrays *)

Section Arrays.
Context {A : Type}.
Implicit Types (a : list A) (i n : Z) (x : A).

Lemma rd_Ok a i x :
  0 <= i -> a !! Z.to_nat i = Some x -> rd a i = Ok x.
Proof.
  intros Hi Hx. unfold rd.
  destruct (Z.leb_spec 0 i); [|lia]. by rewrite Hx.
Qed.

Lemma wr_Ok a i x :
  0 <= i < Z.of_nat (length a) -> wr a i x = Ok (<[Z.to_nat i := x]> a).
Proof.
  intros Hi. unfold wr.
  destruct (Z.leb_spec 0 i); [|lia].
  destruct (Z.ltb_spec i (Z.of_nat (length a))); [done|lia].
Qed.

Lemma wr_Undef a i x :
  Z.of_nat (length a) <= i -> wr a i x = Undef.
Proof.
  intros Hi. unfold wr.
  destruct (Z.ltb_spec i (Z.of_nat (length a))); [lia|].
  by rewrite andb_false_r.
Qed.

Lemma wr_inv a i x a' :
  wr a i x = Ok a' ->
  0 <= i < Z.of_nat (length a) /\ a' = <[Z.to_nat i := x]> a.
Proof.
  unfold wr.
  destruct (Z.leb_spec 0 i); [|done].
  destruct (Z.ltb_spec i (Z.of_nat (length a))); [|done].
  intros [= <-]. done.
Qed.

Lemma live_length a n :
  0 <= n <= Z.of_nat (length a) -> Z.of_nat (length (live a n)) = n.
Proof. intros Hn. unfold live. rewrite length_take. lia. Qed.

Lemma live_lookup a n (j : nat) :
  (Z.of_nat j < n) -> live a n !! j = a !! j.
Proof. intros Hj. unfold live. apply lookup_take_lt. lia. Qed.

Lemma live_insert_lt a n (j : nat) x :
  Z.of_nat j < n -> live (<[j := x]> a) n = <[j := x]> (live a n).
Proof. intros Hj. unfold live. rewrite take_insert_lt; [done|lia]. Qed.

(** Writing the cell just after the live ones and counting it appends. *)
Lemma live_snoc a n x :
  0 <= n < Z.of_nat (length a) ->
  live (<[Z.to_nat n := x]> a) (n + 1) = live a n ++ [x].
Proof.
  intros Hn. unfold live.
  replace (Z.to_nat (n + 1)) with (S (Z.to_nat n)) by lia.
  assert (Hlt : (Z.to_nat n < length a)%nat) by lia.
  destruct (lookup_lt_is_Some_2 a _ Hlt) as [y Hy].
  rewrite (take_S_r _ _ x).
  - rewrite take_insert_ge; [done|lia].
  - apply list_lookup_insert_eq. done.
Qed.

End Arrays.

(** ** Searching by key *)

Lemma index_of_range id l i :
  index_of id l i = -1 \/ i <= index_of id l i < i + Z.of_nat (length l).
Proof.
  revert i. induction l as [|x l IH]; intros i; simpl; [by left|].
  destruct (x =? id); [right; lia|].
  destruct (IH (i + 1)) as [->|?]; [by left|right; lia].
Qed.

Lemma index_of_absent id l i :
  0 <= i -> index_of id l i = -1 <-> id ∉ l.
Proof.
  revert i. induction l as [|x l IH]; intros i Hi; simpl.
  - split; [intros _; apply not_elem_of_nil|done].
  - rewrite not_elem_of_cons. destruct (Z.eqb_spec x id) as [->|Hne].
    + split; [lia|intros [? _]; done].
    + rewrite IH by lia. split; [by intros ?; split|by intros [_ ?]].
Qed.

(** Where [index_of] points there is the key, and not before. *)
Lemma index_of_found id l i r :
  0 <= i -> index_of id l i = r -> r <> -1 ->
  i <= r /\ l !! Z.to_nat (r - i) = Some id /\
  forall j : nat, (j < Z.to_nat (r - i))%nat -> l !! j <> Some id.
Proof.
  revert i. induction l as [|x l IH]; intros i Hi; simpl; [congruence|].
  destruct (Z.eqb_spec x id) as [->|Hne].
  - intros <- _. replace (Z.to_nat (i - i)) with 0%nat by lia.
    split; [lia|]. split; [done|]. intros j Hj. lia.
  - intros Hr Hr1. destruct (IH (i + 1) ltac:(lia) Hr Hr1) as (Hle & Hl & Hb).
    split; [lia|].
    replace (Z.to_nat (r - i)) with (S (Z.to_nat (r - (i + 1)))) by lia.
    split; [done|]. intros [|j] Hj; simpl; [congruence|]. apply Hb. lia.
Qed.

Lemma drop_live_cons {A} (a : list A) (n i : Z) :
  0 <= i < n -> n <= Z.of_nat (length a) ->
  exists x, a !! Z.to_nat i = Some x /\
    drop (Z.to_nat i) (live a n) = x :: drop (Z.to_nat (i + 1)) (live a n).
Proof.
  intros Hi Hn.
  assert (Hlt : (Z.to_nat i < length a)%nat) by lia.
  destruct (lookup_lt_is_Some_2 a _ Hlt) as [x Hx].
  exists x. split; [done|].
  replace (Z.to_nat (i + 1)) with (S (Z.to_nat i)) by lia.
  apply drop_S. rewrite live_lookup; [done|lia].
Qed.

Lemma drop_live_nil {A} (a : list A) (n i : Z) :
  0 <= i -> n <= i -> drop (Z.to_nat i) (live a n) = [].
Proof.
  intros Hi Hn. apply drop_ge. unfold live. rewrite length_take. lia.
Qed.

Lemma find_student_loop_eq st id fuel i :
  0 <= i -> student_count st <= Z.of_nat (length (students st)) ->
  (Z.to_nat (student_count st - i) <= fuel)%nat ->
  find_student_loop fuel st id i =
    Ok (index_of id (s_id <$> drop (Z.to_nat i) (live_students st)) i).
Proof.
  revert i. induction fuel as [|fuel IH]; intros i Hi Hn Hf;
    simpl; destruct (Z.ltb_spec i (student_count st)) as [Hlt|Hge];
    try lia;
    try (unfold live_students; rewrite drop_live_nil by lia; done).
  destruct (drop_live_cons (students st) (student_count st) i) as (s & Hs & Hd);
    [lia..|].
  unfold live_students. rewrite Hd, (rd_Ok _ _ s) by done. simpl.
  destruct (s_id s =? id); [done|]. apply IH; lia.
Qed.

Lemma find_student_eq st id :
  student_count st <= Z.of_nat (length (students st)) ->
  find_student st id = Ok (index_of id (student_ids st) 0).
Proof.
  intros Hn. unfold find_student. rewrite find_student_loop_eq by lia. done.
Qed.

Lemma find_exam_loop_eq st id fuel i :
  0 <= i -> exam_count st <= Z.of_nat (length (exams st)) ->
  (Z.to_nat (exam_count st - i) <= fuel)%nat ->
  find_exam_loop fuel st id i =
    Ok (index_of id (e_id <$> drop (Z.to_nat i) (live_exams st)) i).
Proof.
  revert i. induction fuel as [|fuel IH]; intros i Hi Hn Hf;
    simpl; destruct (Z.ltb_spec i (exam_count st)) as [Hlt|Hge];
    try lia;
    try (unfold live_exams; rewrite drop_live_nil by lia; done).
  destruct (drop_live_cons (exams st) (exam_count st) i) as (e & He & Hd);
    [lia..|].
  unfold live_exams. rewrite Hd, (rd_Ok _ _ e) by done. simpl.
  destruct (e_id e =? id); [done|]. apply IH; lia.
Qed.

Lemma find_exam_eq st id :
  exam_count st <= Z.of_nat (length (exams st)) ->
  find_exam st id = Ok (index_of id (exam_ids st) 0).
Proof.
  intros Hn. unfold find_exam. rewrite find_exam_loop_eq by lia. done.
Qed.

(** ** Compaction *)

(** [shift_left] closes the gap at [j]: it drops the element there and
    moves those up to [n] one cell down. *)
Lemma shift_left_spec {A} (l2 : list A) : forall fuel l1 x rest,
  (length l2 <= fuel)%nat ->
  exists last,
    shift_left fuel (l1 ++ x :: l2 ++ rest)
      (Z.of_nat (length l1 + 1 + length l2)) (Z.of_nat (length l1))
    = Ok (l1 ++ l2 ++ last :: rest).
Proof.
  induction l2 as [|y l2 IH]; intros fuel l1 x rest Hf.
  - exists x. destruct fuel; simpl;
      (destruct (Z.ltb_spec (Z.of_nat (length l1))
                 (Z.of_nat (length l1 + 1 + 0) - 1)); [lia|done]).
  - destruct fuel as [|fuel]; [simpl in Hf; lia|].
    destruct (IH fuel (l1 ++ [y]) y rest) as [last Hlast]; [simpl in Hf; lia|].
    exists last. simpl.
    destruct (Z.ltb_spec (Z.of_nat (length l1))
                (Z.of_nat (length l1 + 1 + S (length l2)) - 1)); [|lia].
    rewrite (rd_Ok _ _ y); [|lia|].
    2:{ replace (Z.to_nat (Z.of_nat (length l1) + 1)) with (length l1 + 1)%nat by lia.
        rewrite lookup_app_r by lia.
        replace (length l1 + 1 - length l1)%nat with 1%nat by lia. done. }
    simpl. rewrite wr_Ok by (rewrite length_app; simpl; lia). simpl.
    rewrite Nat2Z.id.
    replace (length l1) with (length l1 + 0)%nat at 1 by lia.
    rewrite insert_app_r. simpl.
    rewrite length_app in Hlast. simpl in Hlast.
    replace (Z.of_nat (length l1) + 1) with (Z.of_nat (length l1 + 1)) by lia.
    replace (length l1 + 1 + S (length l2))%nat
      with (length l1 + 1 + 1 + length l2)%nat by lia.
    rewrite <- !app_assoc in Hlast. simpl in Hlast.
    rewrite Hlast. done.
Qed.

(** The same for an array given with the position and the count. *)
Lemma shift_left_live {A} (a : list A) (n j : Z) fuel :
  0 <= j < n -> n <= Z.of_nat (length a) ->
  (Z.to_nat (n - 1 - j) <= fuel)%nat ->
  exists a',
    shift_left fuel a n j = Ok a' /\
    length a' = length a /\
    live a' (n - 1) = take (Z.to_nat j) a ++ drop (Z.to_nat (j + 1)) (live a n).
Proof.
  intros Hj Hn Hf.
  assert (Hlt : (Z.to_nat j < length a)%nat) by lia.
  destruct (lookup_lt_is_Some_2 a _ Hlt) as [x Hx].
  set (l1 := take (Z.to_nat j) a).
  set (l2 := drop (Z.to_nat (j + 1)) (live a n)).
  set (rest := drop (Z.to_nat n) a).
  assert (Hl1 : length l1 = Z.to_nat j) by (unfold l1; rewrite length_take; lia).
  assert (Hl2 : length l2 = Z.to_nat (n - 1 - j)).
  { unfold l2, live. rewrite length_drop, length_take. lia. }
  assert (Ha : a = l1 ++ x :: l2 ++ rest).
  { unfold l1, l2, rest, live.
    rewrite <- (take_drop (Z.to_nat n) a) at 1.
    rewrite <- (take_drop (Z.to_nat j) (take (Z.to_nat n) a)) at 1.
    rewrite take_take. replace (Z.to_nat j `min` Z.to_nat n)%nat with (Z.to_nat j) by lia.
    rewrite <- app_assoc. f_equal.
    replace (Z.to_nat (j + 1)) with (S (Z.to_nat j)) by lia.
    rewrite (drop_S _ x (Z.to_nat j)); [done|].
    rewrite lookup_take_lt by lia. done. }
  clearbody l1 l2 rest. subst a.
  destruct (shift_left_spec l2 fuel l1 x rest) as [last Hlast]; [lia|].
  exists (l1 ++ l2 ++ last :: rest).
  replace n with (Z.of_nat (length l1 + 1 + length l2)) at 1 by lia.
  replace j with (Z.of_nat (length l1)) at 1 by lia.
  split; [done|]. split.
  - rewrite !length_app. simpl. rewrite !length_app. simpl. lia.
  - unfold live. rewrite app_assoc.
    rewrite take_app_length'; [done|]. rewrite length_app. lia.
Qed.

(** The grade loop of [delete_student] keeps, in order, the grades of the
    other students. *)
Lemma delete_grades_loop_spec id (todo : list Grade) : forall fuel kept rest,
  (length todo <= fuel)%nat ->
  Forall (other_student id) kept ->
  exists a',
    delete_grades_loop fuel (kept ++ todo ++ rest)
      (Z.of_nat (length kept + length todo)) id (Z.of_nat (length kept))
    = Ok (a', Z.of_nat (length (kept ++ filter (other_student id) todo))) /\
    length a' = length (kept ++ todo ++ rest) /\
    take (length (kept ++ filter (other_student id) todo)) a'
      = kept ++ filter (other_student id) todo.
Proof.
  remember (length todo) as m eqn:Hm. revert todo Hm.
  induction m as [|m IH]; intros todo Hm fuel kept rest Hf Hk.
  - destruct todo; [|done]. simpl. rewrite app_nil_r.
    exists (kept ++ rest). split; [|split].
    + replace (length kept + 0)%nat with (length kept) by lia.
      destruct fuel; simpl;
        (destruct (Z.ltb_spec (Z.of_nat (length kept)) (Z.of_nat (length kept)));
         [lia|done]).
    + done.
    + by rewrite take_app_length.
  - destruct todo as [|g todo]; [done|]. simpl in Hm.
    assert (m = length todo) as -> by lia. clear Hm.
    destruct fuel as [|fuel]; [lia|]. simpl.
    replace (Z.of_nat (length kept + S (length todo)))
      with (Z.of_nat (length kept + 1 + length todo)) by lia.
    destruct (Z.ltb_spec (Z.of_nat (length kept))
                (Z.of_nat (length kept + 1 + length todo))); [|lia].
    rewrite (rd_Ok _ _ g); [|lia|].
    2:{ rewrite Nat2Z.id, lookup_app_r by lia.
        by replace (length kept - length kept)%nat with 0%nat by lia. }
    simpl. destruct (Z.eqb_spec (g_student_id g) id) as [Heq|Hne].
    + destruct (shift_left_spec todo
                  (Z.to_nat (Z.of_nat (length kept + 1 + length todo) - 1
                               - Z.of_nat (length kept))) kept g rest)
        as [last Hlast]; [lia|].
      rewrite Hlast. simpl.
      destruct (IH todo eq_refl fuel kept (last :: rest) ltac:(lia) Hk)
        as (a' & Hrun & Hlen & Htake).
      exists a'.
      replace (Z.of_nat (length kept + 1 + length todo) - 1)
        with (Z.of_nat (length kept + length todo)) by lia.
      replace (Z.of_nat (length kept) - 1 + 1) with (Z.of_nat (length kept)) by lia.
      rewrite filter_cons_False by (unfold other_student; tauto).
      split; [done|]. split; [|done].
      rewrite Hlen, !length_app. simpl. rewrite !length_app. simpl. lia.
    + destruct (IH todo eq_refl fuel (kept ++ [g]) rest ltac:(lia))
        as (a' & Hrun & Hlen & Htake).
      { apply Forall_app. split; [done|]. by apply Forall_singleton. }
      exists a'. rewrite filter_cons_True by done.
      replace (kept ++ g :: filter (other_student id) todo)
        with ((kept ++ [g]) ++ filter (other_student id) todo)
        by (by rewrite <- app_assoc).
      replace (kept ++ g :: todo ++ rest) with ((kept ++ [g]) ++ todo ++ rest)
        by (by rewrite <- app_assoc).
      replace (Z.of_nat (length kept) + 1) with (Z.of_nat (length (kept ++ [g])))
        by (rewrite length_app; simpl; lia).
      replace (Z.of_nat (length kept + 1 + length todo))
        with (Z.of_nat (length (kept ++ [g]) + length todo))
        by (rewrite length_app; simpl; lia).
      done.
Qed.

Lemma delete_grades_loop_live id (a : list Grade) (n : Z) fuel :
  0 <= n <= Z.of_nat (length a) -> (Z.to_nat n <= fuel)%nat ->
  exists a',
    delete_grades_loop fuel a n id 0
      = Ok (a', Z.of_nat (length (filter (other_student id) (live a n)))) /\
    length a' = length a /\
    live a' (Z.of_nat (length (filter (other_student id) (live a n))))
      = filter (other_student id) (live a n).
Proof.
  intros Hn Hf.
  destruct (delete_grades_loop_spec id (live a n) fuel [] (drop (Z.to_nat n) a))
    as (a' & Hrun & Hlen & Htake).
  { unfold live. rewrite length_take. lia. }
  { constructor. }
  simpl in Hrun, Hlen, Htake.
  assert (Hl : Z.of_nat (length (live a n)) = n) by (by apply live_length).
  rewrite Hl in Hrun. unfold live in Hrun, Hlen at 1. rewrite take_drop in Hrun, Hlen.
  exists a'. split; [done|]. split; [done|].
  unfold live at 1. rewrite Nat2Z.id. done.
Qed.

(** ** The operations on the three sequences *)

Lemma bounds_init : bounds init.
Proof. split; vm_compute; try done; split; congruence. Qed.

Lemma find_student_bounds st id :
  bounds st -> find_student st id = Ok (index_of id (student_ids st) 0).
Proof.
  intros [Hl _ _ Hc _ _]. apply find_student_eq. lia.
Qed.

Lemma find_exam_bounds st id :
  bounds st -> find_exam st id = Ok (index_of id (exam_ids st) 0).
Proof.
  intros [_ Hl _ _ Hc _]. apply find_exam_eq. lia.
Qed.

(** A key that [index_of] finds belongs to a live cell of the array. *)
Lemma index_of_student st id r :
  bounds st -> index_of id (student_ids st) 0 = r -> r <> -1 ->
  0 <= r < student_count st /\
  exists s, students st !! Z.to_nat r = Some s /\ s_id s = id /\
            live_students st !! Z.to_nat r = Some s.
Proof.
  intros Hb Hr Hr1.
  destruct (index_of_found _ _ _ _ (Z.le_refl 0) Hr Hr1) as (Hle & Hl & _).
  destruct (index_of_range id (student_ids st) 0) as [?|Hrange]; [congruence|].
  rewrite Hr in Hrange. unfold student_ids in Hrange. rewrite length_fmap in Hrange.
  unfold live_students in Hrange. destruct Hb.
  rewrite live_length in Hrange by lia.
  split; [lia|]. rewrite Z.sub_0_r in Hl. unfold student_ids in Hl.
  rewrite list_lookup_fmap in Hl.
  destruct (live_students st !! Z.to_nat r) as [s|] eqn:Hs; [|done].
  exists s. injection Hl as Hl. split; [|done].
  unfold live_students in Hs. rewrite live_lookup in Hs by lia. done.
Qed.

Lemma index_of_exam st id r :
  bounds st -> index_of id (exam_ids st) 0 = r -> r <> -1 ->
  0 <= r < exam_count st /\
  exists e, exams st !! Z.to_nat r = Some e /\ e_id e = id /\
            live_exams st !! Z.to_nat r = Some e.
Proof.
  intros Hb Hr Hr1.
  destruct (index_of_found _ _ _ _ (Z.le_refl 0) Hr Hr1) as (Hle & Hl & _).
  destruct (index_of_range id (exam_ids st) 0) as [?|Hrange]; [congruence|].
  rewrite Hr in Hrange. unfold exam_ids in Hrange. rewrite length_fmap in Hrange.
  unfold live_exams in Hrange. destruct Hb.
  rewrite live_length in Hrange by lia.
  split; [lia|]. rewrite Z.sub_0_r in Hl. unfold exam_ids in Hl.
  rewrite list_lookup_fmap in Hl.
  destruct (live_exams st !! Z.to_nat r) as [e|] eqn:He; [|done].
  exists e. injection Hl as Hl. split; [|done].
  unfold live_exams in He. rewrite live_lookup in He by lia. done.
Qed.

Lemma add_student_added st id name faculty :
  bounds st -> id ∉ student_ids st ->
  strlen name < MAX_NAME_LENGTH -> strlen faculty < MAX_FACULTY_LENGTH ->
  valid_faculty faculty = true -> all_alpha name = true ->
  student_count st < MAX_STUDENTS ->
  add_student st id name faculty =
    Ok (set_students st
          (<[Z.to_nat (student_count st) := mkStudent id name faculty]> (students st))
          (student_count st + 1),
        "Student: " +:+ fmt_d id +:+ " added" +:+ nl).
Proof.
  intros Hb Hid Hn Hf Hvf Hal Hc. unfold add_student.
  rewrite find_student_bounds by done.
  apply (index_of_absent id _ 0) in Hid; [|lia]. rewrite Hid. simpl.
  destruct (Z.leb_spec MAX_NAME_LENGTH (strlen name)); [lia|].
  destruct (Z.leb_spec MAX_FACULTY_LENGTH (strlen faculty)); [lia|].
  simpl. rewrite Hvf, Hal. simpl. unfold strcpy.
  destruct (Z.ltb_spec (strlen name) MAX_NAME_LENGTH); [|lia].
  destruct (Z.ltb_spec (strlen faculty) MAX_FACULTY_LENGTH); [|lia].
  simpl. destruct Hb. rewrite wr_Ok by lia. done.
Qed.

(** Whatever [add_student] answers, it either leaves the store alone or
    appends the new student. *)
Lemma add_student_inv st id name faculty st' out :
  bounds st -> add_student st id name faculty = Ok (st', out) ->
  st' = st \/
  ((id ∉ student_ids st) /\ student_count st < MAX_STUDENTS /\
   st' = set_students st
           (<[Z.to_nat (student_count st) := mkStudent id name faculty]> (students st))
           (student_count st + 1)).
Proof.
  intros Hb. unfold add_student. rewrite find_student_bounds by done. simpl.
  destruct (Z.eqb_spec (index_of id (student_ids st) 0) (-1)) as [Hi|Hi]; simpl;
    [|intros [= <- _]; by left].
  destruct (_ || _); [intros [= <- _]; by left|].
  destruct (valid_faculty faculty); simpl; [|intros [= <- _]; by left].
  destruct (all_alpha name); simpl; [|intros [= <- _]; by left].
  unfold strcpy. destruct (strlen name <? _); [|done].
  destruct (strlen faculty <? _); [|done]. simpl.
  destruct (wr _ _ _) as [a| |] eqn:Hw; [|done..]. simpl.
  apply wr_inv in Hw as [Hr ->]. intros [= <- _]. right.
  apply index_of_absent in Hi; [|lia]. destruct Hb. split; [done|]. split; [lia|done].
Qed.

Lemma add_exam_added st id type info :
  bounds st -> id ∉ exam_ids st ->
  strlen type < MAX_TYPE_LENGTH -> strlen info < MAX_NAME_LENGTH ->
  exam_count st < MAX_EXAMS ->
  add_exam st id type info =
    Ok (set_exams st
          (<[Z.to_nat (exam_count st) := mkExam id type info]> (exams st))
          (exam_count st + 1),
        "Exam: " +:+ fmt_d id +:+ " added" +:+ nl).
Proof.
  intros Hb Hid Ht Hi Hc. unfold add_exam.
  rewrite find_exam_bounds by done.
  apply (index_of_absent id _ 0) in Hid; [|lia]. rewrite Hid. simpl.
  destruct (Z.leb_spec MAX_TYPE_LENGTH (strlen type)); [lia|].
  destruct (Z.leb_spec MAX_NAME_LENGTH (strlen info)); [lia|].
  simpl. unfold strcpy.
  destruct (Z.ltb_spec (strlen type) MAX_TYPE_LENGTH); [|lia].
  destruct (Z.ltb_spec (strlen info) MAX_NAME_LENGTH); [|lia].
  simpl. destruct Hb. rewrite wr_Ok by lia. done.
Qed.

Lemma add_exam_inv st id type info st' out :
  bounds st -> add_exam st id type info = Ok (st', out) ->
  st' = st \/
  ((id ∉ exam_ids st) /\ exam_count st < MAX_EXAMS /\
   st' = set_exams st
           (<[Z.to_nat (exam_count st) := mkExam id type info]> (exams st))
           (exam_count st + 1)).
Proof.
  intros Hb. unfold add_exam. rewrite find_exam_bounds by done. simpl.
  destruct (Z.eqb_spec (index_of id (exam_ids st) 0) (-1)) as [Hi|Hi]; simpl;
    [|intros [= <- _]; by left].
  destruct (_ || _); [intros [= <- _]; by left|].
  unfold strcpy. destruct (strlen type <? _); [|done].
  destruct (strlen info <? _); [|done]. simpl.
  destruct (wr _ _ _) as [a| |] eqn:Hw; [|done..]. simpl.
  apply wr_inv in Hw as [Hr ->]. intros [= <- _]. right.
  apply index_of_absent in Hi; [|lia]. destruct Hb. split; [done|]. split; [lia|done].
Qed.

Lemma add_grade_inv st e s v st' out :
  bounds st -> add_grade st e s v = Ok (st', out) ->
  st' = st \/
  (0 <= v <= 100 /\ s ∈ student_ids st /\ e ∈ exam_ids st /\
   grade_count st < MAX_GRADES /\
   st' = set_grades st
           (<[Z.to_nat (grade_count st) := mkGrade e s v]> (grades st))
           (grade_count st + 1)).
Proof.
  intros Hb. unfold add_grade.
  destruct (Z.ltb_spec v 0); simpl; [intros [= <- _]; by left|].
  destruct (Z.ltb_spec 100 v); simpl; [intros [= <- _]; by left|].
  rewrite find_student_bounds, find_exam_bounds by done. simpl.
  destruct (Z.eqb_spec (index_of s (student_ids st) 0) (-1)) as [Hs|Hs]; simpl;
    [intros [= <- _]; by left|].
  destruct (Z.eqb_spec (index_of e (exam_ids st) 0) (-1)) as [He|He]; simpl;
    [intros [= <- _]; by left|].
  destruct (wr _ _ _) as [a| |] eqn:Hw; [|done..]. simpl.
  apply wr_inv in Hw as [Hr ->]. intros [= <- _]. right.
  rewrite index_of_absent in Hs, He by lia.
  destruct Hb. split; [lia|].
  split; [by destruct (decide (s ∈ student_ids st))|].
  split; [by destruct (decide (e ∈ exam_ids st))|]. split; [lia|done].
Qed.

Lemma update_exam_inv st id t i st' out :
  bounds st -> update_exam st id t i = Ok (st', out) ->
  st' = st \/
  exists r e,
    index_of id (exam_ids st) 0 = r /\ 0 <= r < exam_count st /\
    exams st !! Z.to_nat r = Some e /\ e_id e = id /\
    (t = "WRITTEN" \/ t = "DIGITAL") /\ strlen i < MAX_NAME_LENGTH /\
    st' = set_exams st (<[Z.to_nat r := mkExam id t i]> (exams st)) (exam_count st) /\
    out = "Exam: " +:+ fmt_d id +:+ " updated" +:+ nl.
Proof.
  intros Hb. unfold update_exam. rewrite find_exam_bounds by done. simpl.
  destruct (Z.eqb_spec (index_of id (exam_ids st) 0) (-1)) as [Hi|Hi]; simpl;
    [intros [= <- _]; by left|].
  destruct (index_of_exam st id _ Hb eq_refl Hi) as (Hr & e & He & Hid & _).
  unfold streq.
  destruct (negb (bool_decide (t = "WRITTEN")) && negb (bool_decide (t = "DIGITAL")))
    eqn:Ht; [intros [= <- _]; by left|].
  rewrite (rd_Ok _ _ e) by (done || lia). simpl. unfold strcpy.
  destruct (strlen t <? _); [|done]. simpl.
  destruct (Z.ltb_spec (strlen i) MAX_NAME_LENGTH); [|done]. simpl.
  destruct (wr _ _ _) as [a| |] eqn:Hw; [|done..]. simpl.
  apply wr_inv in Hw as [_ ->]. intros [= <- <-]. right.
  exists (index_of id (exam_ids st) 0), e. rewrite Hid.
  repeat split; try done; try lia.
  apply andb_false_iff in Ht as [Ht|Ht]; apply negb_false_iff, bool_decide_eq_true in Ht;
    [by left|by right].
Qed.

Lemma matches_eqb e s g :
  (g_exam_id g =? e) && (g_student_id g =? s) = bool_decide (matches e s g).
Proof.
  unfold matches. destruct (Z.eqb_spec (g_exam_id g) e), (Z.eqb_spec (g_student_id g) s);
    simpl; symmetry; (apply bool_decide_eq_true; done) || (apply bool_decide_eq_false; tauto).
Qed.

Lemma first_from_Some {A} (P : A -> Prop) `{!forall x, Decision (P x)} l i r x :
  0 <= i -> first_from P l i = Some (r, x) ->
  i <= r < i + Z.of_nat (length l) /\ l !! Z.to_nat (r - i) = Some x /\ P x /\
  forall (j : nat) y, (j < Z.to_nat (r - i))%nat -> l !! j = Some y -> ~ P y.
Proof.
  revert i. induction l as [|y l IH]; intros i Hi; simpl; [done|].
  destruct (decide (P y)) as [Hy|Hy].
  - intros [= <- <-]. replace (Z.to_nat (i - i)) with 0%nat by lia.
    split; [lia|]. split; [done|]. split; [done|]. intros j z Hj. lia.
  - intros Hf. destruct (IH (i + 1) ltac:(lia) Hf) as (Hr & Hx & HP & Hb).
    split; [lia|].
    replace (Z.to_nat (r - i)) with (S (Z.to_nat (r - (i + 1)))) by lia.
    split; [done|]. split; [done|].
    intros [|j] z Hj; simpl; [by intros [= <-]|]. apply Hb. lia.
Qed.

Lemma first_from_None {A} (P : A -> Prop) `{!forall x, Decision (P x)} l i :
  first_from P l i = None <-> Forall (fun x => ~ P x) l.
Proof.
  revert i. induction l as [|y l IH]; intros i; simpl.
  - split; [constructor|done].
  - destruct (decide (P y)) as [Hy|Hy].
    + split; [done|]. intros HF. by apply Forall_cons in HF as [? _].
    + rewrite IH. rewrite Forall_cons. tauto.
Qed.

Lemma update_grade_loop_eq st e s v fuel i :
  0 <= i -> grade_count st <= Z.of_nat (length (grades st)) ->
  (Z.to_nat (grade_count st - i) <= fuel)%nat ->
  update_grade_loop fuel st e s v i =
    match first_from (matches e s) (drop (Z.to_nat i) (live_grades st)) i with
    | Some (r, g) =>
        Ok (set_grades st (<[Z.to_nat r := mkGrade e s v]> (grades st)) (grade_count st),
            "Grade " +:+ fmt_d v +:+ " updated for the student: " +:+ fmt_d s +:+ nl)
    | None => Ok (st, "Student not found" +:+ nl)
    end.
Proof.
  revert i. induction fuel as [|fuel IH]; intros i Hi Hn Hf;
    simpl; destruct (Z.ltb_spec i (grade_count st)) as [Hlt|Hge];
    try lia;
    try (unfold live_grades; rewrite drop_live_nil by lia; done).
  destruct (drop_live_cons (grades st) (grade_count st) i) as (g & Hg & Hd);
    [lia..|].
  unfold live_grades. rewrite Hd, (rd_Ok _ _ g) by done. simpl.
  rewrite matches_eqb. destruct (decide (matches e s g)) as [[He Hs]|Hm].
  - rewrite bool_decide_eq_true_2 by done. rewrite wr_Ok by lia. simpl.
    rewrite He, Hs. done.
  - rewrite bool_decide_eq_false_2 by done. apply IH; lia.
Qed.

Lemma update_grade_eq st e s v :
  bounds st -> 0 <= v <= 100 ->
  update_grade st e s v =
    match first_from (matches e s) (live_grades st) 0 with
    | Some (r, g) =>
        Ok (set_grades st (<[Z.to_nat r := mkGrade e s v]> (grades st)) (grade_count st),
            "Grade " +:+ fmt_d v +:+ " updated for the student: " +:+ fmt_d s +:+ nl)
    | None => Ok (st, "Student not found" +:+ nl)
    end.
Proof.
  intros Hb Hv. unfold update_grade.
  destruct (Z.ltb_spec v 0); [lia|]. destruct (Z.ltb_spec 100 v); [lia|]. simpl.
  destruct Hb. rewrite update_grade_loop_eq by lia. done.
Qed.

Lemma update_grade_invalid st e s v :
  v < 0 \/ 100 < v -> update_grade st e s v = Ok (st, "Invalid grade" +:+ nl).
Proof.
  intros Hv. unfold update_grade.
  destruct (Z.ltb_spec v 0); [done|]. destruct (Z.ltb_spec 100 v); [done|]. lia.
Qed.

Lemma add_grade_invalid st e s v :
  v < 0 \/ 100 < v -> add_grade st e s v = Ok (st, "Invalid grade" +:+ nl).
Proof.
  intros Hv. unfold add_grade.
  destruct (Z.ltb_spec v 0); [done|]. destruct (Z.ltb_spec 100 v); [done|]. lia.
Qed.

Lemma update_grade_inv st e s v st' out :
  bounds st -> update_grade st e s v = Ok (st', out) ->
  st' = st \/
  exists r g,
    0 <= r < grade_count st /\ live_grades st !! Z.to_nat r = Some g /\
    matches e s g /\ 0 <= v <= 100 /\
    st' = set_grades st (<[Z.to_nat r := mkGrade e s v]> (grades st)) (grade_count st).
Proof.
  intros Hb. destruct (decide (v < 0 \/ 100 < v)) as [Hv|Hv].
  - rewrite update_grade_invalid by done. intros [= <- _]. by left.
  - rewrite update_grade_eq by (done || lia).
    destruct (first_from _ _ _) as [[r g]|] eqn:Hf; [|intros [= <- _]; by left].
    intros [= <- _]. right. exists r, g.
    apply first_from_Some in Hf as (Hr & Hg & Hm & _); [|lia].
    rewrite Z.sub_0_r in Hg. unfold live_grades in Hr. destruct Hb.
    rewrite live_length in Hr by lia.
    split; [lia|]. split; [done|]. split; [done|]. split; [lia|done].
Qed.

Lemma delete_student_absent st id :
  bounds st -> id ∉ student_ids st ->
  delete_student st id = Ok (st, "Student not found" +:+ nl).
Proof.
  intros Hb Hid. unfold delete_student. rewrite find_student_bounds by done.
  apply (index_of_absent id _ 0) in Hid; [|lia]. rewrite Hid. done.
Qed.

Lemma delete_student_present st id :
  bounds st -> id ∈ student_ids st ->
  exists st' r,
    delete_student st id = Ok (st', "Student: " +:+ fmt_d id +:+ " deleted" +:+ nl) /\
    bounds st' /\
    index_of id (student_ids st) 0 = Z.of_nat r /\
    live_students st' = take r (live_students st) ++ drop (S r) (live_students st) /\
    live_grades st' = filter (other_student id) (live_grades st) /\
    exams st' = exams st /\ exam_count st' = exam_count st.
Proof.
  intros Hb Hid. unfold delete_student. rewrite find_student_bounds by done.
  simpl. destruct (Z.eqb_spec (index_of id (student_ids st) 0) (-1)) as [Hi|Hi].
  { apply index_of_absent in Hi; [done|lia]. }
  destruct (index_of_student st id _ Hb eq_refl Hi) as (Hr & _).
  set (r := index_of id (student_ids st) 0) in *.
  destruct Hb as [Hsl Hel Hgl Hsc Hec Hgc].
  destruct (delete_grades_loop_live id (grades st) (grade_count st)
              (Z.to_nat (grade_count st))) as (ga & Hga & Hgalen & Hgalive);
    [lia..|].
  rewrite Hga. simpl.
  destruct (shift_left_live (students st) (student_count st) r
              (Z.to_nat (student_count st - 1 - r))) as (sa & Hsa & Hsalen & Hsalive);
    [lia..|].
  rewrite Hsa. simpl.
  eexists _, (Z.to_nat r). split; [done|].
  assert (Hflen : (length (filter (other_student id) (live (grades st) (grade_count st)))
                   <= Z.to_nat (grade_count st))%nat).
  { etrans; [apply length_filter|]. unfold live. rewrite length_take. lia. }
  split; [split; simpl; lia|].
  split; [lia|]. unfold live_students, live_grades. simpl.
  split; [|done]. rewrite Hsalive.
  replace (Z.to_nat (r + 1)) with (S (Z.to_nat r)) by lia.
  f_equal. unfold live. rewrite take_take. f_equal. lia.
Qed.

Lemma search_student_absent st id :
  bounds st -> id ∉ student_ids st ->
  search_student st id = Ok (st, "Student not found" +:+ nl).
Proof.
  intros Hb Hid. unfold search_student. rewrite find_student_bounds by done.
  apply (index_of_absent id _ 0) in Hid; [|lia]. rewrite Hid. done.
Qed.

Lemma search_student_present st id :
  bounds st -> id ∈ student_ids st ->
  exists s,
    live_students st !! Z.to_nat (index_of id (student_ids st) 0) = Some s /\
    s_id s = id /\
    search_student st id = Ok (st, student_line s).
Proof.
  intros Hb Hid. unfold search_student. rewrite find_student_bounds by done. simpl.
  destruct (Z.eqb_spec (index_of id (student_ids st) 0) (-1)) as [Hi|Hi].
  { apply index_of_absent in Hi; [done|lia]. }
  destruct (index_of_student st id _ Hb eq_refl Hi) as (Hr & s & Hs & Hsid & Hl).
  exists s. rewrite (rd_Ok _ _ s) by (done || lia). done.
Qed.

Lemma search_student_inv st id st' out :
  bounds st -> search_student st id = Ok (st', out) -> st' = st.
Proof.
  intros Hb. destruct (decide (id ∈ student_ids st)) as [Hid|Hid].
  - destruct (search_student_present st id Hb Hid) as (s & _ & _ & ->).
    by intros [= <- _].
  - rewrite search_student_absent by done. by intros [= <- _].
Qed.

Lemma search_grade_absent st e s :
  bounds st -> s ∉ student_ids st ->
  search_grade st e s = Ok (st, "Student not found" +:+ nl).
Proof.
  intros Hb Hid. unfold search_grade. rewrite find_student_bounds by done.
  apply (index_of_absent s _ 0) in Hid; [|lia]. rewrite Hid. done.
Qed.

(** What the loop of [search_grade] answers: when a grade matches, the
    answer depends on whether its exam is found. *)
Lemma search_grade_loop_eq st e s si fuel i :
  bounds st -> 0 <= i -> 0 <= si < student_count st ->
  (Z.to_nat (grade_count st - i) <= fuel)%nat ->
  search_grade_loop fuel st e s si i =
    match first_from (matches e s) (drop (Z.to_nat i) (live_grades st)) i with
    | Some (r, g) =>
        if index_of e (exam_ids st) 0 =? -1 then Ok (st, "Exam not found" +:+ nl)
        else
          sx ← rd (students st) si;
          ex ← rd (exams st) (index_of e (exam_ids st) 0);
          Ok (st, "Exam: " +:+ fmt_d e +:+ ", Student: " +:+ fmt_d s
                    +:+ ", Name: " +:+ s_name sx +:+ ", Grade: " +:+ fmt_d (g_grade g)
                    +:+ ", Type: " +:+ e_type ex +:+ ", Info: " +:+ e_info ex +:+ nl)
    | None => Ok (st, "Grade not found" +:+ nl)
    end.
Proof.
  intros Hb. revert i. induction fuel as [|fuel IH]; intros i Hi Hsi Hf;
    pose proof (b_grades_len _ Hb); pose proof (b_grade_count _ Hb);
    simpl; destruct (Z.ltb_spec i (grade_count st)) as [Hlt|Hge];
    try lia;
    try (unfold live_grades; rewrite drop_live_nil by lia; done).
  destruct (drop_live_cons (grades st) (grade_count st) i) as (g & Hg & Hd);
    [lia..|].
  unfold live_grades. rewrite Hd, (rd_Ok _ _ g) by done. simpl.
  rewrite matches_eqb. destruct (decide (matches e s g)) as [[He Hs]|Hm].
  - rewrite bool_decide_eq_true_2 by done.
    rewrite find_exam_bounds by done. done.
  - rewrite bool_decide_eq_false_2 by done. apply IH; lia.
Qed.

Lemma search_grade_inv st e s st' out :
  bounds st -> search_grade st e s = Ok (st', out) -> st' = st.
Proof.
  intros Hb. unfold search_grade. rewrite find_student_bounds by done. simpl.
  destruct (Z.eqb_spec (index_of s (student_ids st) 0) (-1)) as [Hi|Hi];
    [by intros [= <- _]|].
  destruct (index_of_student st s _ Hb eq_refl Hi) as (Hr & _).
  rewrite search_grade_loop_eq by (done || lia).
  destruct (first_from _ _ _) as [[r g]|]; [|by intros [= <- _]].
  destruct (_ =? _); [by intros [= <- _]|].
  destruct (rd (students st) _); [|done..]. simpl.
  destruct (rd (exams st) _); [|done..]. simpl. by intros [= <- _].
Qed.

Lemma list_all_students_loop_inv st fuel : forall i out st' out',
  list_all_students_loop fuel st i out = Ok (st', out') -> st' = st.
Proof.
  induction fuel as [|fuel IH]; intros i out st' out'; simpl;
    destruct (i <? student_count st); try done; try (by intros [= <- _]).
  destruct (rd _ _); [|done..]. simpl. apply IH.
Qed.

Lemma list_all_students_inv st st' out :
  list_all_students st = Ok (st', out) -> st' = st.
Proof. apply list_all_students_loop_inv. Qed.

(** ** The invariants of the data model *)

Lemma elem_of_insert_inv {A} (l : list A) i x y :
  x ∈ <[i:=y]> l -> x = y \/ x ∈ l.
Proof.
  revert i. induction l as [|z l IH]; intros [|i]; simpl; try (by right).
  - rewrite !elem_of_cons. tauto.
  - rewrite !elem_of_cons. intros [->|H]; [tauto|]. destruct (IH _ H); tauto.
Qed.

(** Removing the one cell that holds [k] from a duplicate-free list of keys
    removes [k] and nothing else. *)
Lemma elem_of_remove_NoDup (l : list Z) r k x :
  NoDup l -> l !! r = Some k ->
  x ∈ take r l ++ drop (S r) l <-> x ∈ l /\ x <> k.
Proof.
  intros Hnd Hr. rewrite <- (take_drop_middle l r k Hr) in Hnd at 1.
  rewrite <- (take_drop_middle l r k Hr) at 3.
  apply NoDup_app in Hnd as (_ & Hdis & Hnd).
  apply NoDup_cons in Hnd as [Hk _].
  rewrite !elem_of_app, elem_of_cons. split.
  - intros [Hx|Hx].
    + split; [by left|]. intros ->. apply (Hdis k Hx). by left.
    + split; [by right; right|]. by intros ->.
  - intros [[Hx|[->|Hx]] Hne]; [by left|done|by right].
Qed.

Lemma wf_init : wf init.
Proof.
  split.
  - apply bounds_init.
  - constructor.
  - constructor.
  - intros g Hg. by apply elem_of_nil in Hg.
  - intros g Hg. by apply elem_of_nil in Hg.
Qed.

Lemma wf_add_student st s :
  wf st -> s_id s ∉ student_ids st -> student_count st < MAX_STUDENTS ->
  wf (set_students st (<[Z.to_nat (student_count st) := s]> (students st))
        (student_count st + 1)).
Proof.
  intros [[Hsl Hel Hgl Hsc Hec Hgc] Hnd Hne Hgs Hge] Hid Hc.
  assert (Hids : student_ids (set_students st (<[Z.to_nat (student_count st) := s]> (students st))
                              (student_count st + 1)) = student_ids st ++ [s_id s]).
  { unfold student_ids, live_students. simpl. rewrite live_snoc by lia.
    by rewrite fmap_app. }
  split.
  - split; simpl; rewrite ?length_insert; lia.
  - rewrite Hids. apply NoDup_app. split; [done|]. split; [|apply NoDup_singleton].
    intros x Hx Hx'. apply list_elem_of_singleton in Hx' as ->. done.
  - done.
  - intros g Hg. rewrite Hids. apply elem_of_app. left. by apply Hgs.
  - done.
Qed.

Lemma wf_add_exam st e :
  wf st -> e_id e ∉ exam_ids st -> exam_count st < MAX_EXAMS ->
  wf (set_exams st (<[Z.to_nat (exam_count st) := e]> (exams st)) (exam_count st + 1)).
Proof.
  intros [[Hsl Hel Hgl Hsc Hec Hgc] Hnd Hne Hgs Hge] Hid Hc.
  assert (Hids : exam_ids (set_exams st (<[Z.to_nat (exam_count st) := e]> (exams st))
                           (exam_count st + 1)) = exam_ids st ++ [e_id e]).
  { unfold exam_ids, live_exams. simpl. rewrite live_snoc by lia.
    by rewrite fmap_app. }
  split.
  - split; simpl; rewrite ?length_insert; lia.
  - done.
  - rewrite Hids. apply NoDup_app. split; [done|]. split; [|apply NoDup_singleton].
    intros x Hx Hx'. apply list_elem_of_singleton in Hx' as ->. done.
  - done.
  - intros g Hg. rewrite Hids. apply elem_of_app. left. by apply Hge.
Qed.

Lemma wf_add_grade st g :
  wf st -> g_student_id g ∈ student_ids st -> g_exam_id g ∈ exam_ids st ->
  grade_count st < MAX_GRADES ->
  wf (set_grades st (<[Z.to_nat (grade_count st) := g]> (grades st)) (grade_count st + 1)).
Proof.
  intros [[Hsl Hel Hgl Hsc Hec Hgc] Hnd Hne Hgs Hge] Hs He Hc.
  assert (Hlive : live_grades (set_grades st (<[Z.to_nat (grade_count st) := g]> (grades st))
                           (grade_count st + 1)) = live_grades st ++ [g]).
  { unfold live_grades. simpl. by rewrite live_snoc by lia. }
  split.
  - split; simpl; rewrite ?length_insert; lia.
  - done.
  - done.
  - intros x. rewrite Hlive, elem_of_app, list_elem_of_singleton.
    intros [Hx| ->]; [by apply Hgs|done].
  - intros x. rewrite Hlive, elem_of_app, list_elem_of_singleton.
    intros [Hx| ->]; [by apply Hge|done].
Qed.

Lemma wf_update_exam st (r : Z) e e' :
  wf st -> 0 <= r < exam_count st -> exams st !! Z.to_nat r = Some e ->
  e_id e' = e_id e ->
  wf (set_exams st (<[Z.to_nat r := e']> (exams st)) (exam_count st)).
Proof.
  intros [[Hsl Hel Hgl Hsc Hec Hgc] Hnd Hne Hgs Hge] Hr He Hid.
  assert (Hids : exam_ids (set_exams st (<[Z.to_nat r := e']> (exams st)) (exam_count st))
                 = exam_ids st).
  { unfold exam_ids, live_exams. simpl. rewrite live_insert_lt by lia.
    rewrite list_fmap_insert. apply list_insert_id.
    rewrite list_lookup_fmap, live_lookup by lia. rewrite He. simpl. by rewrite Hid. }
  split.
  - split; simpl; rewrite ?length_insert; lia.
  - done.
  - by rewrite Hids.
  - done.
  - intros g Hg. rewrite Hids. by apply Hge.
Qed.

Lemma wf_update_grade st (r : Z) g g' :
  wf st -> 0 <= r < grade_count st -> live_grades st !! Z.to_nat r = Some g ->
  g_student_id g' = g_student_id g -> g_exam_id g' = g_exam_id g ->
  wf (set_grades st (<[Z.to_nat r := g']> (grades st)) (grade_count st)).
Proof.
  intros [[Hsl Hel Hgl Hsc Hec Hgc] Hnd Hne Hgs Hge] Hr Hg Hs He.
  assert (Hlive : live_grades (set_grades st (<[Z.to_nat r := g']> (grades st)) (grade_count st))
                 = <[Z.to_nat r := g']> (live_grades st)).
  { unfold live_grades. simpl. by rewrite live_insert_lt by lia. }
  assert (Hin : g ∈ live_grades st) by (apply list_elem_of_lookup; eauto).
  split.
  - split; simpl; rewrite ?length_insert; lia.
  - done.
  - done.
  - intros x. rewrite Hlive. intros Hx.
    apply elem_of_insert_inv in Hx as [->|Hx]; [rewrite Hs|]; by apply Hgs.
  - intros x. rewrite Hlive. intros Hx.
    apply elem_of_insert_inv in Hx as [->|Hx]; [rewrite He|]; by apply Hge.
Qed.

Lemma wf_delete_student st st' id (r : nat) :
  wf st -> id ∈ student_ids st -> bounds st' ->
  index_of id (student_ids st) 0 = Z.of_nat r ->
  live_students st' = take r (live_students st) ++ drop (S r) (live_students st) ->
  live_grades st' = filter (other_student id) (live_grades st) ->
  exams st' = exams st -> exam_count st' = exam_count st ->
  wf st'.
Proof.
  intros [Hb Hnd Hne Hgs Hge] Hid Hb' Hr Hs Hg He Hec.
  assert (Hk : student_ids st !! r = Some id).
  { destruct (index_of_found id (student_ids st) 0 (Z.of_nat r)) as (_ & Hl & _);
      [lia|done|lia|]. by rewrite Z.sub_0_r, Nat2Z.id in Hl. }
  assert (Hids : student_ids st' = take r (student_ids st) ++ drop (S r) (student_ids st)).
  { unfold student_ids. rewrite Hs, fmap_app, fmap_take, fmap_drop. done. }
  assert (Hex : exam_ids st' = exam_ids st).
  { unfold exam_ids, live_exams. by rewrite He, Hec. }
  split.
  - done.
  - rewrite Hids, <- delete_take_drop. eapply sublist_NoDup; [exact Hnd|apply sublist_delete].
  - by rewrite Hex.
  - intros g. rewrite Hg, list_elem_of_filter. intros [Ho Hin].
    rewrite Hids. apply (elem_of_remove_NoDup _ _ id); [done..|].
    split; [by apply Hgs|done].
  - intros g. rewrite Hg, list_elem_of_filter. intros [Ho Hin].
    rewrite Hex. by apply Hge.
Qed.

(** Every operation keeps the invariants. *)
Lemma exec_wf st o st' out :
  wf st -> exec st o = Ok (st', out) -> wf st'.
Proof.
  intros Hwf. pose proof (wf_bounds _ Hwf) as Hb.
  destruct o as [id name faculty|id type info|e s v|id t i|e s v|id|id|e s|];
    simpl; intros Hrun.
  - apply add_student_inv in Hrun; [|done].
    destruct Hrun as [->|(Hid & Hc & ->)]; [done|]. by apply wf_add_student.
  - apply add_exam_inv in Hrun; [|done].
    destruct Hrun as [->|(Hid & Hc & ->)]; [done|]. by apply wf_add_exam.
  - apply add_grade_inv in Hrun; [|done].
    destruct Hrun as [->|(Hv & Hs & He & Hc & ->)]; [done|]. by apply wf_add_grade.
  - apply update_exam_inv in Hrun; [|done].
    destruct Hrun as [->|(r & e & Hr & Hrange & He & Hid & Ht & Hi & -> & _)]; [done|].
    by apply (wf_update_exam _ _ e).
  - apply update_grade_inv in Hrun; [|done].
    destruct Hrun as [->|(r & g & Hr & Hg & [Hme Hms] & Hv & ->)]; [done|].
    by apply (wf_update_grade _ _ g).
  - destruct (decide (id ∈ student_ids st)) as [Hid|Hid].
    + destruct (delete_student_present st id Hb Hid)
        as (st1 & r & Hrun1 & Hb1 & Hr & Hs & Hg & He & Hec).
      rewrite Hrun1 in Hrun. injection Hrun as <- <-.
      by apply (wf_delete_student st st1 id r).
    + rewrite delete_student_absent in Hrun by done. by injection Hrun as <- <-.
  - by apply search_student_inv in Hrun as ->.
  - by apply search_grade_inv in Hrun as ->.
  - by apply list_all_students_inv in Hrun as ->.
Qed.

Lemma reachable_wf st : reachable st -> wf st.
Proof.
  induction 1 as [|st o st' out _ IH Hrun]; [apply wf_init|].
  by apply (exec_wf st o st' out).
Qed.

Lemma run_wf ops : forall st st' out,
  wf st -> run st ops = Ok (st', out) -> wf st'.
Proof.
  induction ops as [|o ops IH]; intros st st' out Hwf; simpl.
  - by intros [= <- _].
  - destruct (exec st o) as [[st1 out1]| |] eqn:Hex; [|done..]. simpl.
    destruct (run st1 ops) as [[st2 out2]| |] eqn:Hrun; [|done..]. simpl.
    intros [= <- _]. eapply IH; [|done]. by eapply exec_wf.
Qed.

Lemma run_reachable ops : forall st st' out,
  reachable st -> run st ops = Ok (st', out) -> reachable st'.
Proof.
  induction ops as [|o ops IH]; intros st st' out Hre; simpl.
  - by intros [= <- _].
  - destruct (exec st o) as [[st1 out1]| |] eqn:Hex; [|done..]. simpl.
    destruct (run st1 ops) as [[st2 out2]| |] eqn:Hrun; [|done..]. simpl.
    intros [= <- _]. eapply IH; [|done]. by eapply reach_step.
Qed.

(** ** The concrete stores *)

Lemma bounds_st_john : bounds st_john.
Proof. split; vm_compute; try done; split; congruence. Qed.

Lemma bounds_st_exam : bounds st_exam.
Proof. split; vm_compute; try done; split; congruence. Qed.

Lemma bounds_st_grade : bounds st_grade.
Proof. split; vm_compute; try done; split; congruence. Qed.

Lemma bounds_st_full : bounds st_full.
Proof. split; vm_compute; try done; split; congruence. Qed.

Lemma wf_st_john : wf st_john.
Proof.
  apply (exec_wf init (AddStudent 1 "John" "ComputerScience") _
           ("Student: 1 added" +:+ nl)); [apply wf_init|].
  vm_compute. done.
Qed.

Lemma wf_st_exam : wf st_exam.
Proof.
  apply (exec_wf st_john (AddExam 10 "WRITTEN" "Midterm") _
           ("Exam: 10 added" +:+ nl)); [apply wf_st_john|].
  vm_compute. done.
Qed.

Lemma wf_st_grade : wf st_grade.
Proof.
  apply (exec_wf st_exam (AddGrade 10 1 85) _
           ("Grade 85 added for the student: 1" +:+ nl)); [apply wf_st_exam|].
  vm_compute. done.
Qed.

(** ** Claims about the Record Store *)

(** C2. Adding a student whose id is already stored answers
    "Student: <id> already exists" and returns the store as it was, whatever
    the name and the faculty are. *)
Theorem add_student_duplicate st id name faculty :
  bounds st -> id ∈ student_ids st ->
  add_student st id name faculty =
    Ok (st, "Student: " +:+ fmt_d id +:+ " already exists" +:+ nl).
Proof.
  intros Hb Hid. unfold add_student. rewrite find_student_bounds by done. simpl.
  destruct (Z.eqb_spec (index_of id (student_ids st) 0) (-1)) as [Hi|Hi]; [|done].
  apply index_of_absent in Hi; [done|lia].
Qed.

Lemma add_student_duplicate_witness :
  add_student st_john 1 "J0hn" "Nowhere" =
    Ok (st_john, "Student: 1 already exists" +:+ nl).
Proof.
  apply (add_student_duplicate st_john 1 "J0hn" "Nowhere").
  - apply bounds_st_john.
  - vm_compute. apply list_elem_of_here.
Defined.

(** C5. A grade value outside [0,100] makes both [add_grade] and
    [update_grade] answer "Invalid grade" and return the store as it was, in
    every store: the range is tested before the student and the exam are
    looked up. *)
Theorem grade_out_of_range st exam_id student_id value :
  value < 0 \/ 100 < value ->
  add_grade st exam_id student_id value = Ok (st, "Invalid grade" +:+ nl) /\
  update_grade st exam_id student_id value = Ok (st, "Invalid grade" +:+ nl).
Proof.
  intros Hv. split; [by apply add_grade_invalid|by apply update_grade_invalid].
Qed.

Lemma grade_out_of_range_witness :
  add_grade init 10 1 101 = Ok (init, "Invalid grade" +:+ nl) /\
  update_grade init 10 1 101 = Ok (init, "Invalid grade" +:+ nl).
Proof. apply (grade_out_of_range init 10 1 101). right. lia. Defined.

Lemma update_exam_absent st id t i :
  bounds st -> id ∉ exam_ids st ->
  update_exam st id t i = Ok (st, "Exam not found" +:+ nl).
Proof.
  intros Hb Hid. unfold update_exam. rewrite find_exam_bounds by done.
  apply (index_of_absent id _ 0) in Hid; [|lia]. rewrite Hid. done.
Qed.

Lemma update_exam_bad_type st id t i :
  bounds st -> id ∈ exam_ids st -> t <> "WRITTEN" -> t <> "DIGITAL" ->
  update_exam st id t i = Ok (st, "Invalid exam type" +:+ nl).
Proof.
  intros Hb Hid Hw Hd. unfold update_exam. rewrite find_exam_bounds by done. simpl.
  destruct (Z.eqb_spec (index_of id (exam_ids st) 0) (-1)) as [Hi|Hi].
  { apply index_of_absent in Hi; [done|lia]. }
  unfold streq. rewrite !bool_decide_eq_false_2 by done. done.
Qed.

Lemma add_exam_fresh st id type info :
  bounds st -> id ∉ exam_ids st ->
  strlen type < MAX_TYPE_LENGTH -> strlen info < MAX_NAME_LENGTH ->
  add_exam st id type info =
    (a ← wr (exams st) (exam_count st) (mkExam id type info);
     Ok (set_exams st a (exam_count st + 1),
         "Exam: " +:+ fmt_d id +:+ " added" +:+ nl)).
Proof.
  intros Hb Hid Ht Hi. unfold add_exam.
  rewrite find_exam_bounds by done.
  apply (index_of_absent id _ 0) in Hid; [|lia]. rewrite Hid. simpl.
  destruct (Z.leb_spec MAX_TYPE_LENGTH (strlen type)); [lia|].
  destruct (Z.leb_spec MAX_NAME_LENGTH (strlen info)); [lia|].
  simpl. unfold strcpy.
  destruct (Z.ltb_spec (strlen type) MAX_TYPE_LENGTH); [|lia].
  destruct (Z.ltb_spec (strlen info) MAX_NAME_LENGTH); [|lia]. done.
Qed.

Lemma update_exam_good_type st id t i :
  bounds st -> id ∈ exam_ids st -> t = "WRITTEN" \/ t = "DIGITAL" ->
  exists r : nat,
    index_of id (exam_ids st) 0 = Z.of_nat r /\
    exam_ids st !! r = Some id /\
    update_exam st id t i =
      (i' ← strcpy MAX_NAME_LENGTH i;
       Ok (set_exams st (<[r := mkExam id t i']> (exams st)) (exam_count st),
           "Exam: " +:+ fmt_d id +:+ " updated" +:+ nl)).
Proof.
  intros Hb Hid Ht. unfold update_exam. rewrite find_exam_bounds by done. simpl.
  destruct (Z.eqb_spec (index_of id (exam_ids st) 0) (-1)) as [Hi|Hi].
  { apply index_of_absent in Hi; [done|lia]. }
  destruct (index_of_exam st id _ Hb eq_refl Hi) as (Hr & e & He & Heid & Hl).
  exists (Z.to_nat (index_of id (exam_ids st) 0)).
  split; [lia|]. split.
  { set (k := Z.to_nat (index_of id (exam_ids st) 0)) in *.
    unfold exam_ids. rewrite list_lookup_fmap, Hl. simpl. by rewrite Heid. }
  assert (Hty : negb (streq t "WRITTEN") && negb (streq t "DIGITAL") = false).
  { unfold streq. destruct Ht as [-> | ->]; done. }
  rewrite Hty, (rd_Ok _ _ e) by (done || lia). simpl. unfold strcpy.
  assert (Htl : (strlen t <? MAX_TYPE_LENGTH) = true) by (destruct Ht as [-> | ->]; done).
  rewrite Htl. simpl.
  destruct (strlen i <? MAX_NAME_LENGTH); [|done]. simpl.
  destruct Hb. rewrite wr_Ok by lia. simpl. by rewrite Heid.
Qed.

(** C6. [add_exam] with a new id and a type and an info that fit their
    buffers goes on to store the exam whatever the type is: it writes the
    exam at index [exam_count], and with a free cell there the exam is
    appended to the stored exams.  On a stored exam [update_exam] answers
    "Invalid exam type" for every type but WRITTEN and DIGITAL, and for
    these two copies type and info into the exam's own cell: with an info
    that fits its buffer, the cell then holds the new type and info. *)
Theorem exam_type_asymmetry st id type info :
  bounds st ->
  (id ∉ exam_ids st -> strlen type < MAX_TYPE_LENGTH -> strlen info < MAX_NAME_LENGTH ->
   add_exam st id type info =
     (a ← wr (exams st) (exam_count st) (mkExam id type info);
      Ok (set_exams st a (exam_count st + 1),
          "Exam: " +:+ fmt_d id +:+ " added" +:+ nl)) /\
   (exam_count st < MAX_EXAMS ->
    exists st',
      add_exam st id type info = Ok (st', "Exam: " +:+ fmt_d id +:+ " added" +:+ nl) /\
      live_exams st' = live_exams st ++ [mkExam id type info] /\
      live_students st' = live_students st /\ live_grades st' = live_grades st)) /\
  (id ∈ exam_ids st -> type <> "WRITTEN" -> type <> "DIGITAL" ->
   update_exam st id type info = Ok (st, "Invalid exam type" +:+ nl)) /\
  (id ∈ exam_ids st -> type = "WRITTEN" \/ type = "DIGITAL" ->
   exists r : nat,
     exam_ids st !! r = Some id /\
     update_exam st id type info =
       (info' ← strcpy MAX_NAME_LENGTH info;
        Ok (set_exams st (<[r := mkExam id type info']> (exams st)) (exam_count st),
            "Exam: " +:+ fmt_d id +:+ " updated" +:+ nl)) /\
     (strlen info < MAX_NAME_LENGTH ->
      exists st',
        update_exam st id type info =
          Ok (st', "Exam: " +:+ fmt_d id +:+ " updated" +:+ nl) /\
        live_exams st' = <[r := mkExam id type info]> (live_exams st) /\
        live_students st' = live_students st /\ live_grades st' = live_grades st)).
Proof.
  intros Hb. split; [|split].
  - intros Hid Ht Hi. split; [by apply add_exam_fresh|].
    intros Hc. eexists. split; [by apply add_exam_added|].
    split; [|done]. unfold live_exams. simpl. destruct Hb.
    rewrite live_snoc by lia. done.
  - by apply update_exam_bad_type.
  - intros Hid Ht.
    destruct (update_exam_good_type st id type info Hb Hid Ht) as (r & Hr & Hk & Hrun).
    exists r. split; [done|]. split; [done|]. intros Hi.
    eexists. split.
    + rewrite Hrun. unfold strcpy.
      destruct (Z.ltb_spec (strlen info) MAX_NAME_LENGTH); [|lia]. done.
    + split; [|done]. unfold live_exams. simpl. apply live_insert_lt.
      apply lookup_lt_Some in Hk. unfold exam_ids, live_exams in Hk.
      rewrite length_fmap in Hk. destruct Hb.
      pose proof (live_length (exams st) (exam_count st)). lia.
Qed.

Lemma exam_type_asymmetry_witness :
  (exists st',
     add_exam st_exam 11 "ORAL" "Retake" = Ok (st', "Exam: 11 added" +:+ nl) /\
     live_exams st' = live_exams st_exam ++ [mkExam 11 "ORAL" "Retake"] /\
     live_students st' = live_students st_exam /\
     live_grades st' = live_grades st_exam) /\
  update_exam st_exam 10 "ORAL" "Retake" = Ok (st_exam, "Invalid exam type" +:+ nl) /\
  (exists st',
     update_exam st_exam 10 "DIGITAL" "Retake" = Ok (st', "Exam: 10 updated" +:+ nl) /\
     live_exams st' = [mkExam 10 "DIGITAL" "Retake"]).
Proof.
  assert (H10 : 10 ∈ exam_ids st_exam) by (vm_compute; apply list_elem_of_here).
  assert (H11 : 11 ∉ exam_ids st_exam).
  { vm_compute. intros H. apply list_elem_of_singleton in H. done. }
  split; [|split].
  - apply (proj1 (exam_type_asymmetry st_exam 11 "ORAL" "Retake" bounds_st_exam));
      [done|vm_compute; done..].
  - apply (proj1 (proj2 (exam_type_asymmetry st_exam 10 "ORAL" "Retake" bounds_st_exam)));
      done.
  - destruct (proj2 (proj2 (exam_type_asymmetry st_exam 10 "DIGITAL" "Retake"
                              bounds_st_exam)) H10 ltac:(by right))
      as (r & Hr & _ & Hupd).
    destruct Hupd as (st' & Hrun & Hlive & _); [vm_compute; done|].
    exists st'. split; [exact Hrun|]. rewrite Hlive.
    destruct r as [|r]; [reflexivity|]. vm_compute in Hr. destruct r; discriminate Hr.
Defined.

(** C10. None of the three add operations tests its count against the size
    of its array.  With arguments that pass every test the operation does
    make, the write at index [student_count] / [exam_count] / [grade_count]
    is inside the array exactly when that count is below the capacity (100,
    100, 10000); at the capacity the write is past the end of the array. *)
Theorem add_without_capacity_check st :
  bounds st ->
  (forall id name faculty,
     id ∉ student_ids st -> strlen name < MAX_NAME_LENGTH ->
     valid_faculty faculty = true -> all_alpha name = true ->
     (student_count st < MAX_STUDENTS ->
        exists st', add_student st id name faculty
                    = Ok (st', "Student: " +:+ fmt_d id +:+ " added" +:+ nl)) /\
     (student_count st = MAX_STUDENTS ->
        wr (students st) (student_count st) (mkStudent id name faculty) = Undef /\
        add_student st id name faculty = Undef)) /\
  (forall id type info,
     id ∉ exam_ids st -> strlen type < MAX_TYPE_LENGTH -> strlen info < MAX_NAME_LENGTH ->
     (exam_count st < MAX_EXAMS ->
        exists st', add_exam st id type info
                    = Ok (st', "Exam: " +:+ fmt_d id +:+ " added" +:+ nl)) /\
     (exam_count st = MAX_EXAMS ->
        wr (exams st) (exam_count st) (mkExam id type info) = Undef /\
        add_exam st id type info = Undef)) /\
  (forall exam_id student_id value,
     0 <= value <= 100 -> student_id ∈ student_ids st -> exam_id ∈ exam_ids st ->
     (grade_count st < MAX_GRADES ->
        exists st', add_grade st exam_id student_id value
                    = Ok (st', "Grade " +:+ fmt_d value +:+ " added for the student: "
                                 +:+ fmt_d student_id +:+ nl)) /\
     (grade_count st = MAX_GRADES ->
        wr (grades st) (grade_count st) (mkGrade exam_id student_id value) = Undef /\
        add_grade st exam_id student_id value = Undef)).
Proof.
  intros Hb. pose proof Hb as [Hsl Hel Hgl Hsc Hec Hgc]. split; [|split].
  - intros id name faculty Hid Hn Hvf Hal.
    assert (Hfl : strlen faculty < MAX_FACULTY_LENGTH).
    { unfold valid_faculty, streq in Hvf.
      repeat (apply orb_prop in Hvf as [Hvf|Hvf]);
        apply bool_decide_eq_true in Hvf; subst faculty; done. }
    split.
    + intros Hc. eexists. by apply add_student_added.
    + intros Hc. assert (Hw : forall x, wr (students st) (student_count st) x = Undef)
        by (intros x; apply wr_Undef; lia).
      split; [apply Hw|]. unfold add_student. rewrite find_student_bounds by done.
      apply (index_of_absent id _ 0) in Hid; [|lia]. rewrite Hid. simpl.
      destruct (Z.leb_spec MAX_NAME_LENGTH (strlen name)); [lia|].
      destruct (Z.leb_spec MAX_FACULTY_LENGTH (strlen faculty)); [lia|].
      simpl. rewrite Hvf, Hal. simpl. unfold strcpy.
      destruct (Z.ltb_spec (strlen name) MAX_NAME_LENGTH); [|lia].
      destruct (Z.ltb_spec (strlen faculty) MAX_FACULTY_LENGTH); [|lia].
      simpl. by rewrite Hw.
  - intros id type info Hid Ht Hi. split.
    + intros Hc. eexists. by apply add_exam_added.
    + intros Hc. assert (Hw : forall x, wr (exams st) (exam_count st) x = Undef)
        by (intros x; apply wr_Undef; lia).
      split; [apply Hw|]. unfold add_exam. rewrite find_exam_bounds by done.
      apply (index_of_absent id _ 0) in Hid; [|lia]. rewrite Hid. simpl.
      destruct (Z.leb_spec MAX_TYPE_LENGTH (strlen type)); [lia|].
      destruct (Z.leb_spec MAX_NAME_LENGTH (strlen info)); [lia|].
      simpl. unfold strcpy.
      destruct (Z.ltb_spec (strlen type) MAX_TYPE_LENGTH); [|lia].
      destruct (Z.ltb_spec (strlen info) MAX_NAME_LENGTH); [|lia].
      simpl. by rewrite Hw.
  - intros e s v Hv Hs He.
    assert (Hpre : add_grade st e s v =
              (a ← wr (grades st) (grade_count st) (mkGrade e s v);
               Ok (set_grades st a (grade_count st + 1),
                   "Grade " +:+ fmt_d v +:+ " added for the student: " +:+ fmt_d s +:+ nl))).
    { unfold add_grade.
      destruct (Z.ltb_spec v 0); [lia|]. destruct (Z.ltb_spec 100 v); [lia|]. simpl.
      rewrite find_student_bounds, find_exam_bounds by done. simpl.
      destruct (Z.eqb_spec (index_of s (student_ids st) 0) (-1)) as [Hi|Hi].
      { apply index_of_absent in Hi; [done|lia]. }
      destruct (Z.eqb_spec (index_of e (exam_ids st) 0) (-1)) as [Hj|Hj].
      { apply index_of_absent in Hj; [done|lia]. }
      done. }
    rewrite Hpre. split.
    + intros Hc. rewrite wr_Ok by lia. simpl. by eexists.
    + intros Hc. rewrite wr_Undef by lia. done.
Qed.

Lemma add_without_capacity_check_witness :
  add_student st_full 100 "Zoe" "DataScience" = Undef /\
  add_exam st_full 100 "WRITTEN" "Final" = Undef /\
  add_grade st_full 0 0 50 = Undef /\
  exists st', add_student init 100 "Zoe" "DataScience"
              = Ok (st', "Student: 100 added" +:+ nl).
Proof.
  pose proof (add_without_capacity_check st_full bounds_st_full) as (Hs & He & Hg).
  pose proof (add_without_capacity_check init bounds_init) as (Hs0 & _).
  split; [|split; [|split]].
  - apply (Hs 100 "Zoe" "DataScience"); [|done..].
    apply (bool_decide_unpack _). vm_compute. exact I.
  - apply (He 100 "WRITTEN" "Final"); [|done..].
    apply (bool_decide_unpack _). vm_compute. exact I.
  - apply (Hg 0 0 50); [lia|vm_compute; apply list_elem_of_here..|done].
  - apply (Hs0 100 "Zoe" "DataScience"); [|done..].
    vm_compute. apply not_elem_of_nil.
Defined.

Lemma first_from_app {A} (P : A -> Prop) `{!forall x, Decision (P x)} l1 g l2 i :
  Forall (fun x => ~ P x) l1 -> P g ->
  first_from P (l1 ++ g :: l2) i = Some (i + Z.of_nat (length l1), g).
Proof.
  revert i. induction l1 as [|x l1 IH]; intros i Hl1 Hg; simpl.
  - rewrite decide_True by done. f_equal. f_equal. lia.
  - apply Forall_cons in Hl1 as [Hx Hl1]. rewrite decide_False by done.
    rewrite IH by done. f_equal. f_equal. lia.
Qed.

Lemma bounds_set_grades st (r : nat) g :
  bounds st -> bounds (set_grades st (<[r := g]> (grades st)) (grade_count st)).
Proof. intros []. split; simpl; rewrite ?length_insert; done. Qed.

(** C4. With a value in [0,100], [update_grade] overwrites the value of the
    first grade in storage order that has the given exam and student, and
    nothing else in the store; when no grade has them it answers
    "Student not found"; after an update a further update of the same pair
    succeeds and overwrites the grade in the same position. *)
Theorem update_grade_first_match st exam_id student_id value :
  bounds st -> 0 <= value <= 100 ->
  (Forall (fun g => ~ matches exam_id student_id g) (live_grades st) ->
   update_grade st exam_id student_id value = Ok (st, "Student not found" +:+ nl)) /\
  (forall before g after,
     live_grades st = before ++ g :: after ->
     Forall (fun g => ~ matches exam_id student_id g) before ->
     matches exam_id student_id g ->
     exists st',
       update_grade st exam_id student_id value =
         Ok (st', "Grade " +:+ fmt_d value +:+ " updated for the student: "
                    +:+ fmt_d student_id +:+ nl) /\
       live_grades st' = before ++ mkGrade exam_id student_id value :: after /\
       live_students st' = live_students st /\ live_exams st' = live_exams st /\
       update_grade st' exam_id student_id value =
         Ok (st', "Grade " +:+ fmt_d value +:+ " updated for the student: "
                    +:+ fmt_d student_id +:+ nl) /\
       forall value2, 0 <= value2 <= 100 ->
         exists st'',
           update_grade st' exam_id student_id value2 =
             Ok (st'', "Grade " +:+ fmt_d value2 +:+ " updated for the student: "
                         +:+ fmt_d student_id +:+ nl) /\
           live_grades st'' = before ++ mkGrade exam_id student_id value2 :: after).
Proof.
  intros Hb Hv. split.
  - intros Hnone. rewrite update_grade_eq by done.
    apply (first_from_None _ _ 0) in Hnone. by rewrite Hnone.
  - intros before g after Hlive Hbefore Hg.
    assert (Hlen : Z.of_nat (length before) < grade_count st).
    { pose proof (live_length (grades st) (grade_count st)) as Hl.
      destruct Hb. fold (live_grades st) in Hl. rewrite Hlive, length_app in Hl.
      simpl in Hl. lia. }
    assert (Hins : forall a x y, live a (grade_count st) = before ++ x :: after ->
              live (<[length before := y]> a) (grade_count st) = before ++ y :: after).
    { intros a x y Ha. rewrite live_insert_lt, Ha by lia.
      rewrite insert_app_r_alt by lia.
      by replace (length before - length before)%nat with 0%nat by lia. }
    eexists. split; [|split; [|split; [|split; [|split]]]].
    + rewrite update_grade_eq, Hlive, first_from_app by done.
      rewrite Z.add_0_l, Nat2Z.id. done.
    + unfold live_grades. simpl. by apply (Hins _ g).
    + done.
    + done.
    + rewrite update_grade_eq by (by try apply bounds_set_grades).
      unfold live_grades at 1. simpl. rewrite (Hins _ g) by done.
      rewrite first_from_app by done. rewrite Z.add_0_l, Nat2Z.id.
      unfold set_grades. simpl. by rewrite list_insert_insert_eq.
    + intros value2 Hv2. eexists. split.
      * rewrite update_grade_eq by (by try apply bounds_set_grades).
        unfold live_grades at 1. simpl. rewrite (Hins _ g) by done.
        rewrite first_from_app by done. rewrite Z.add_0_l, Nat2Z.id. done.
      * unfold live_grades. simpl. rewrite list_insert_insert_eq. by apply (Hins _ g).
Qed.

Lemma update_grade_first_match_witness :
  update_grade st_exam 10 1 90 = Ok (st_exam, "Student not found" +:+ nl) /\
  exists st',
    update_grade st_grade 10 1 90 =
      Ok (st', "Grade 90 updated for the student: 1" +:+ nl) /\
    live_grades st' = [mkGrade 10 1 90].
Proof.
  split.
  - apply (update_grade_first_match st_exam 10 1 90 bounds_st_exam); [lia|].
    vm_compute. constructor.
  - destruct (proj2 (update_grade_first_match st_grade 10 1 90 bounds_st_grade
                       ltac:(lia)) [] (mkGrade 10 1 85) [])
      as (st' & Hrun & Hlive & _); [by vm_compute|constructor|by vm_compute|].
    exists st'. split; [exact Hrun|exact Hlive].
Defined.

(** In a store with unique ids a stored student is the one a search for
    its id shows. *)
Lemma search_student_member st s :
  wf st -> s ∈ live_students st ->
  search_student st (s_id s) = Ok (st, student_line s).
Proof.
  intros Hwf Hs. pose proof (wf_bounds _ Hwf) as Hb.
  assert (Hid : s_id s ∈ student_ids st) by (by apply list_elem_of_fmap_2).
  destruct (search_student_present st (s_id s) Hb Hid) as (s' & Hs' & Hid' & ->).
  apply list_elem_of_lookup in Hs as [j Hj].
  set (k := Z.to_nat (index_of (s_id s) (student_ids st) 0)) in *.
  assert (Hjk : j = k).
  { apply (NoDup_lookup (student_ids st) _ _ (s_id s)); [by destruct Hwf|..];
      unfold student_ids; rewrite list_lookup_fmap.
    - by rewrite Hj.
    - rewrite Hs'. simpl. by rewrite Hid'. }
  subst j. rewrite Hj in Hs'. by injection Hs' as <-.
Qed.

Lemma elem_of_remove_other {A} (l : list A) (r : nat) x y :
  l !! r = Some y -> x ∈ l -> x <> y -> x ∈ take r l ++ drop (S r) l.
Proof.
  intros Hr Hx Hne. rewrite <- (take_drop_middle l r y Hr) in Hx.
  rewrite elem_of_app, elem_of_cons in Hx. rewrite elem_of_app.
  destruct Hx as [?|[?|?]]; [by left|done|by right].
Qed.

(** Only [delete_student] of its own id takes a student out of the store. *)
Lemma exec_keeps_student st o st' out s :
  wf st -> s ∈ live_students st -> o <> DeleteStudent (s_id s) ->
  exec st o = Ok (st', out) -> s ∈ live_students st'.
Proof.
  intros Hwf Hs Ho. pose proof (wf_bounds _ Hwf) as Hb.
  destruct o as [id name faculty|id type info|e x v|id t i|e x v|id|id|e x|];
    simpl; intros Hrun.
  - apply add_student_inv in Hrun; [|done].
    destruct Hrun as [->|(Hid & Hc & ->)]; [done|].
    unfold live_students. simpl. destruct Hb. rewrite live_snoc by lia.
    apply elem_of_app. by left.
  - apply add_exam_inv in Hrun; [|done]. by destruct Hrun as [->|(_ & _ & ->)].
  - apply add_grade_inv in Hrun; [|done].
    by destruct Hrun as [->|(_ & _ & _ & _ & ->)].
  - apply update_exam_inv in Hrun; [|done].
    by destruct Hrun as [->|(r & e & _ & _ & _ & _ & _ & _ & -> & _)].
  - apply update_grade_inv in Hrun; [|done].
    by destruct Hrun as [->|(r & g & _ & _ & _ & _ & ->)].
  - destruct (decide (id ∈ student_ids st)) as [Hid|Hid].
    + destruct (delete_student_present st id Hb Hid)
        as (st1 & r & Hrun1 & Hb1 & Hr & Hl & _).
      rewrite Hrun1 in Hrun. injection Hrun as <- <-. rewrite Hl.
      destruct (index_of_student st id _ Hb Hr ltac:(lia)) as (_ & y & _ & Hy & Hly).
      rewrite Nat2Z.id in Hly.
      apply (elem_of_remove_other _ _ _ y); [done..|]. intros ->. congruence.
    + rewrite delete_student_absent in Hrun by done. by injection Hrun as <- <-.
  - by apply search_student_inv in Hrun as ->.
  - by apply search_grade_inv in Hrun as ->.
  - by apply list_all_students_inv in Hrun as ->.
Qed.

Lemma run_keeps_student ops : forall st st' out s,
  wf st -> s ∈ live_students st -> Forall (fun o => o <> DeleteStudent (s_id s)) ops ->
  run st ops = Ok (st', out) -> s ∈ live_students st'.
Proof.
  induction ops as [|o ops IH]; intros st st' out s Hwf Hs Hops; simpl.
  - by intros [= <- _].
  - apply Forall_cons in Hops as [Ho Hops].
    destruct (exec st o) as [[st1 out1]| |] eqn:Hex; [|done..]. simpl.
    destruct (run st1 ops) as [[st2 out2]| |] eqn:Hrun; [|done..]. simpl.
    intros [= <- _]. apply (IH st1 st2 out2); [by eapply exec_wf| |done..].
    by eapply exec_keeps_student.
Qed.

(** C1. When [add_student id name faculty] succeeds (the id is new, name and
    faculty fit their buffers, the faculty is one of the six, the name is
    alphabetic, a cell is free), then after any further operations other
    than [delete_student id], [search_student id] shows exactly the id, the
    name and the faculty that were stored. *)
Theorem add_then_search st id name faculty :
  wf st ->
  id ∉ student_ids st ->
  strlen name < MAX_NAME_LENGTH -> strlen faculty < MAX_FACULTY_LENGTH ->
  valid_faculty faculty = true -> all_alpha name = true ->
  student_count st < MAX_STUDENTS ->
  exists st1,
    add_student st id name faculty =
      Ok (st1, "Student: " +:+ fmt_d id +:+ " added" +:+ nl) /\
    forall ops st2 out,
      Forall (fun o => o <> DeleteStudent id) ops ->
      run st1 ops = Ok (st2, out) ->
      search_student st2 id =
        Ok (st2, "ID: " +:+ fmt_d id +:+ ", Name: " +:+ name +:+ ", Faculty: "
                   +:+ faculty +:+ nl).
Proof.
  intros Hwf Hid Hn Hf Hvf Hal Hc. pose proof (wf_bounds _ Hwf) as Hb.
  eexists. split; [by apply add_student_added|].
  intros ops st2 out Hops Hrun.
  set (s := mkStudent id name faculty).
  assert (Hwf1 : wf (set_students st (<[Z.to_nat (student_count st) := s]> (students st))
                       (student_count st + 1))) by (by apply wf_add_student).
  assert (Hs1 : s ∈ live_students
                  (set_students st (<[Z.to_nat (student_count st) := s]> (students st))
                     (student_count st + 1))).
  { unfold live_students. simpl. destruct Hb. rewrite live_snoc by lia.
    apply elem_of_app. right. apply list_elem_of_here. }
  assert (Hs2 : s ∈ live_students st2) by (by eapply run_keeps_student).
  apply (search_student_member st2 s); [by eapply run_wf|done].
Qed.

Lemma add_then_search_witness :
  exists st1,
    add_student st_john 3 "Ann" "DataScience" = Ok (st1, "Student: 3 added" +:+ nl) /\
    forall ops st2 out,
      Forall (fun o => o <> DeleteStudent 3) ops ->
      run st1 ops = Ok (st2, out) ->
      search_student st2 3 =
        Ok (st2, "ID: 3, Name: Ann, Faculty: DataScience" +:+ nl).
Proof.
  apply (add_then_search st_john 3 "Ann" "DataScience" wf_st_john);
    [|vm_compute; done..].
  vm_compute. intros H. apply list_elem_of_singleton in H. done.
Defined.

(** C3. When student [id] is stored, [delete_student id] takes that student
    out of the students and every grade of that student out of the grades,
    the others staying in their order; the exams stay.  Afterwards
    [search_student id], and [search_grade] for [id] and any exam, answer
    "Student not found". *)
Theorem delete_student_cascade st id :
  wf st -> id ∈ student_ids st ->
  exists st',
    delete_student st id = Ok (st', "Student: " +:+ fmt_d id +:+ " deleted" +:+ nl) /\
    (exists before s after,
       live_students st = before ++ s :: after /\ s_id s = id /\
       live_students st' = before ++ after) /\
    live_grades st' = filter (fun g => g_student_id g <> id) (live_grades st) /\
    live_exams st' = live_exams st /\
    search_student st' id = Ok (st', "Student not found" +:+ nl) /\
    forall exam_id, search_grade st' exam_id id = Ok (st', "Student not found" +:+ nl).
Proof.
  intros Hwf Hid. pose proof (wf_bounds _ Hwf) as Hb.
  destruct (delete_student_present st id Hb Hid)
    as (st' & r & Hrun & Hb' & Hr & Hs & Hg & He & Hec).
  destruct (index_of_student st id _ Hb Hr ltac:(lia)) as (_ & s & _ & Hsid & Hls).
  rewrite Nat2Z.id in Hls.
  assert (Hgone : id ∉ student_ids st').
  { unfold student_ids at 1. rewrite Hs, fmap_app, fmap_take, fmap_drop.
    fold (student_ids st). intros Hin.
    apply (elem_of_remove_NoDup _ _ id) in Hin as [_ Hne]; [done|by destruct Hwf|].
    unfold student_ids. rewrite list_lookup_fmap, Hls. simpl. by rewrite Hsid. }
  exists st'. split; [done|]. split; [|split; [|split; [|split]]].
  - exists (take r (live_students st)), s, (drop (S r) (live_students st)).
    split; [by rewrite take_drop_middle|done].
  - done.
  - unfold live_exams. by rewrite He, Hec.
  - by apply search_student_absent.
  - intros e. by apply search_grade_absent.
Qed.

Lemma delete_student_cascade_witness :
  exists st',
    delete_student st_grade 1 = Ok (st', "Student: 1 deleted" +:+ nl) /\
    (exists before s after,
       live_students st_grade = before ++ s :: after /\ s_id s = 1 /\
       live_students st' = before ++ after) /\
    live_grades st' = filter (fun g => g_student_id g <> 1) (live_grades st_grade) /\
    live_exams st' = live_exams st_grade /\
    search_student st' 1 = Ok (st', "Student not found" +:+ nl) /\
    forall exam_id, search_grade st' exam_id 1 = Ok (st', "Student not found" +:+ nl).
Proof.
  apply (delete_student_cascade st_grade 1 wf_st_grade).
  vm_compute. apply list_elem_of_here.
Defined.

(** C9. In every store reached from the empty one by the operations, each
    grade names a stored student and a stored exam: [find_student] and
    [find_exam] find them; so [search_grade] never gives the answer
    "Exam not found" of the test it makes after a grade has matched. *)
Theorem grades_reference_stored st :
  reachable st ->
  (forall g, g ∈ live_grades st ->
     g_student_id g ∈ student_ids st /\ g_exam_id g ∈ exam_ids st /\
     (exists i, find_student st (g_student_id g) = Ok i /\ i <> -1) /\
     (exists j, find_exam st (g_exam_id g) = Ok j /\ j <> -1)) /\
  (forall exam_id student_id,
     exists out, search_grade st exam_id student_id = Ok (st, out) /\
                 out <> "Exam not found" +:+ nl).
Proof.
  intros Hre. pose proof (reachable_wf _ Hre) as Hwf.
  pose proof (wf_bounds _ Hwf) as Hb. split.
  - intros g Hg.
    pose proof (wf_grade_student _ Hwf g Hg) as Hs.
    pose proof (wf_grade_exam _ Hwf g Hg) as He.
    split; [done|]. split; [done|]. split.
    + eexists. split; [by apply find_student_bounds|].
      intros Hi. apply index_of_absent in Hi; [done|lia].
    + eexists. split; [by apply find_exam_bounds|].
      intros Hi. apply index_of_absent in Hi; [done|lia].
  - intros e s. unfold search_grade. rewrite find_student_bounds by done. simpl.
    destruct (Z.eqb_spec (index_of s (student_ids st) 0) (-1)) as [Hi|Hi].
    { eexists. split; [done|]. simpl. discriminate. }
    destruct (index_of_student st s _ Hb eq_refl Hi) as (Hr & sx & Hsx & _).
    rewrite search_grade_loop_eq by (done || lia).
    destruct (first_from _ _ _) as [[r g]|] eqn:Hf.
    2:{ eexists. split; [done|]. simpl. discriminate. }
    apply first_from_Some in Hf as (_ & Hg & [Hge _] & _); [|lia].
    rewrite drop_0 in Hg.
    assert (He : e ∈ exam_ids st).
    { rewrite <- Hge. apply (wf_grade_exam _ Hwf). apply list_elem_of_lookup. eauto. }
    destruct (Z.eqb_spec (index_of e (exam_ids st) 0) (-1)) as [Hj|Hj].
    { apply index_of_absent in Hj; [done|lia]. }
    destruct (index_of_exam st e _ Hb eq_refl Hj) as (Hre' & ex & Hex & _).
    rewrite (rd_Ok _ _ sx), (rd_Ok _ _ ex) by (done || lia). simpl.
    eexists. split; [done|]. discriminate.
Qed.

Lemma reachable_st_grade : reachable st_grade.
Proof.
  apply (run_reachable [AddStudent 1 "John" "ComputerScience";
                        AddExam 10 "WRITTEN" "Midterm"; AddGrade 10 1 85]
           init st_grade
           ("Student: 1 added" +:+ nl +:+ "Exam: 10 added" +:+ nl
              +:+ "Grade 85 added for the student: 1" +:+ nl));
    [apply reach_init|].
  vm_compute. done.
Qed.

Lemma grades_reference_stored_witness :
  (forall g, g ∈ live_grades st_grade ->
     g_student_id g ∈ student_ids st_grade /\ g_exam_id g ∈ exam_ids st_grade /\
     (exists i, find_student st_grade (g_student_id g) = Ok i /\ i <> -1) /\
     (exists j, find_exam st_grade (g_exam_id g) = Ok j /\ j <> -1)) /\
  (forall exam_id student_id,
     exists out, search_grade st_grade exam_id student_id = Ok (st_grade, out) /\
                 out <> "Exam not found" +:+ nl).
Proof. apply (grades_reference_stored st_grade reachable_st_grade). Defined.

(** ** Claims about the Command Interpreter *)

Lemma fgets_chars_length n input command rest :
  fgets_chars n input = (command, rest) ->
  (String.length input = String.length command + String.length rest)%nat.
Proof.
  revert input command rest. induction n as [|n IH]; intros [|c input] command rest;
    simpl; try (by intros [= <- <-]).
  destruct (Ascii.eqb c _); [by intros [= <- <-]|].
  destruct (fgets_chars n input) as [l r] eqn:Hf. intros [= <- <-].
  simpl. by rewrite (IH _ _ _ Hf).
Qed.

Lemma fgets_chars_progress n c input command rest :
  fgets_chars (S n) (String c input) = (command, rest) ->
  (String.length rest <= String.length input)%nat.
Proof.
  intros Hf. pose proof (fgets_chars_length _ _ _ _ Hf) as Hlen.
  cbn [fgets_chars] in Hf. destruct (Ascii.eqb c _).
  - injection Hf as <- <-. simpl in Hlen. lia.
  - destruct (fgets_chars n input) as [l r]. injection Hf as <- <-.
    simpl in Hlen. lia.
Qed.

Lemma fgets_shorter input command rest :
  fgets MAX_COMMAND_LENGTH input = Some (command, rest) ->
  (String.length rest < String.length input)%nat.
Proof.
  unfold fgets. destruct input as [|c input]; [done|]. intros H.
  assert (Hf : fgets_chars (Z.to_nat (MAX_COMMAND_LENGTH - 1)) (String c input)
               = (command, rest)) by congruence.
  change (Z.to_nat (MAX_COMMAND_LENGTH - 1)) with (S 254) in Hf.
  apply fgets_chars_progress in Hf. simpl. lia.
Qed.

(** The loop of [main] runs the lines that [fgets] delivers. *)
Lemma main_loop_run_lines fuel : forall st out input,
  (String.length input <= fuel)%nat ->
  main_loop fuel st out input = run_lines st out (read_lines fuel input).
Proof.
  induction fuel as [|fuel IH]; intros st out input Hlen.
  - destruct input; [done|simpl in Hlen; lia].
  - cbn [main_loop read_lines].
    destruct (fgets MAX_COMMAND_LENGTH input) as [[command rest]|] eqn:Hf; [|done].
    cbn [run_lines]. destruct (process_line st (c_str command)) as [[st' o|]| |]; try done.
    simpl. apply IH. apply fgets_shorter in Hf. lia.
Qed.

Lemma main_run_lines input :
  main input = run_lines init "" (input_lines input).
Proof. unfold main, input_lines. by apply main_loop_run_lines. Qed.

#[local] Arguments sscanf : simpl never.

Lemma continue_not_Break r : continue r <> Ok Break.
Proof. by destruct r as [[st out]| |]. Qed.

Lemma process_line_Break st command :
  process_line st command = Ok Break <-> command_word command = Ok "END".
Proof.
  unfold process_line, command_word.
  destruct (sscanf fmt_cmd command) as [vs| |]; simpl; [|done..].
  destruct vs as [|[z|cmd] [|v vs]]; try done.
  unfold streq. split.
  - repeat case_bool_decide; try (subst cmd; done);
      intros Hbrk; exfalso; revert Hbrk; try done; try apply continue_not_Break;
      match goal with
      | |- context [sscanf ?f command] => destruct (sscanf f command) as [ws| |]
      end; simpl; try done;
      repeat case_match; try done; apply continue_not_Break.
  - intros [= ->]. done.
Qed.

Lemma run_lines_stop st out before e after :
  command_word (c_str e) = Ok "END" ->
  run_lines st out (before ++ e :: after) = run_lines st out before.
Proof.
  intros He. revert st out. induction before as [|l before IH]; intros st out; simpl.
  - apply (process_line_Break st) in He. by rewrite He.
  - destruct (process_line st (c_str l)) as [[st' o|]| |]; try done. simpl. apply IH.
Qed.

Lemma append_nil_r (s : string) : s +:+ "" = s.
Proof.
  induction s as [|c s IH]; [done|].
  change (String c (s +:+ "") = String c s). by rewrite IH.
Qed.

Lemma append_assoc (s1 s2 s3 : string) : (s1 +:+ s2) +:+ s3 = s1 +:+ (s2 +:+ s3).
Proof.
  induction s1 as [|c s1 IH]; [done|].
  change (String c ((s1 +:+ s2) +:+ s3) = String c (s1 +:+ (s2 +:+ s3))).
  by rewrite IH.
Qed.

Lemma responds_run_lines st ls st' outs :
  responds st ls st' outs ->
  forall out, run_lines st out ls = Ok (st', out +:+ concat_strings outs).
Proof.
  induction 1 as [st|st l st1 o ls st2 os Hl _ IH]; intros out; simpl.
  - by rewrite append_nil_r.
  - rewrite Hl. simpl. rewrite IH. by rewrite append_assoc.
Qed.

(** C7. The loop of [main] stops at the first line, as read by [fgets],
    whose first word is END: the lines before it are answered in order, none
    of them stops the loop, nothing after it is read, and what is written to
    [output] is the answers to the lines before it, one after the other. *)
Theorem end_stops_processing input before e after :
  input_lines input = before ++ e :: after ->
  Forall (fun l => command_word (c_str l) <> Ok "END") before ->
  command_word (c_str e) = Ok "END" ->
  main input = run_lines init "" before /\
  Forall (fun l => forall st, process_line st (c_str l) <> Ok Break) before /\
  forall st' outs,
    responds init before st' outs -> main input = Ok (st', concat_strings outs).
Proof.
  intros Hin Hbefore He.
  assert (Hmain : main input = run_lines init "" before).
  { rewrite main_run_lines, Hin. by apply run_lines_stop. }
  split; [done|]. split.
  - eapply Forall_impl; [exact Hbefore|]. intros l Hl st Hb.
    by apply process_line_Break in Hb.
  - intros st' outs Hr. rewrite Hmain. by rewrite (responds_run_lines _ _ _ _ Hr).
Qed.

Lemma end_stops_processing_witness :
  main (lines ["ADD_STUDENT 1 John ComputerScience"; "SEARCH_STUDENT 1"; "END";
               "LIST_ALL_STUDENTS"])
  = Ok (st_john, "Student: 1 added" +:+ nl
                   +:+ "ID: 1, Name: John, Faculty: ComputerScience" +:+ nl).
Proof.
  refine (proj2 (proj2 (end_stops_processing
            (lines ["ADD_STUDENT 1 John ComputerScience"; "SEARCH_STUDENT 1"; "END";
                    "LIST_ALL_STUDENTS"])
            ["ADD_STUDENT 1 John ComputerScience" +:+ nl; "SEARCH_STUDENT 1" +:+ nl]
            ("END" +:+ nl) ["LIST_ALL_STUDENTS" +:+ nl] _ _ _)) st_john
            ["Student: 1 added" +:+ nl;
             "ID: 1, Name: John, Faculty: ComputerScience" +:+ nl] _).
  - vm_compute. reflexivity.
  - repeat constructor; vm_compute; discriminate.
  - vm_compute. reflexivity.
  - eapply responds_cons; [vm_compute; reflexivity|].
    eapply responds_cons; [vm_compute; reflexivity|]. apply responds_nil.
Defined.

Lemma fgets_chars_line body : forall n rest,
  has_newline body = false -> (String.length body < n)%nat ->
  fgets_chars n (body +:+ nl +:+ rest) = (body +:+ nl, rest).
Proof.
  induction body as [|c body IH]; intros n rest Hnl Hn.
  - destruct n; [lia|]. done.
  - destruct n; [simpl in Hn; lia|]. simpl in Hnl, Hn.
    apply orb_false_iff in Hnl as [Hc Hnl].
    change (fgets_chars (S n) (String c (body +:+ nl +:+ rest))
            = (String c (body +:+ nl), rest)).
    cbn [fgets_chars]. rewrite Hc, IH by (done || lia). done.
Qed.

Lemma append_length (s1 s2 : string) :
  String.length (s1 +:+ s2) = (String.length s1 + String.length s2)%nat.
Proof.
  induction s1 as [|c s1 IH]; [done|].
  change (S (String.length (s1 +:+ s2)) = S (String.length s1 + String.length s2)).
  by rewrite IH.
Qed.

(** When every line of the file fits the buffer, [fgets] delivers the lines
    of the file. *)
Lemma read_lines_fit ls : forall fuel,
  Forall fits_buffer ls -> (String.length (concat_strings ls) <= fuel)%nat ->
  read_lines fuel (concat_strings ls) = ls.
Proof.
  induction ls as [|l ls IH]; intros fuel Hfit Hfuel.
  - by destruct fuel.
  - apply Forall_cons in Hfit as [(body & -> & Hnl & Hlen) Hfit].
    change (concat_strings ((body +:+ nl) :: ls))
      with ((body +:+ nl) +:+ concat_strings ls) in *.
    rewrite append_assoc in *. unfold strlen in Hlen.
    rewrite !append_length in Hfuel. rewrite append_length in Hlen.
    change (String.length nl) with 1%nat in *.
    assert (Hf : fgets MAX_COMMAND_LENGTH (body +:+ nl +:+ concat_strings ls)
                 = Some (body +:+ nl, concat_strings ls)).
    { unfold fgets. rewrite fgets_chars_line by (done || (unfold MAX_COMMAND_LENGTH in *; lia)).
      by destruct body. }
    destruct fuel as [|fuel]; [lia|].
    cbn [read_lines]. rewrite Hf. f_equal. apply IH; [done|lia].
Qed.

Lemma input_lines_fit ls :
  Forall fits_buffer ls -> input_lines (concat_strings ls) = ls.
Proof. intros Hfit. by apply read_lines_fit. Qed.

Lemma read_lines_fit_app ls tail : forall fuel,
  Forall fits_buffer ls ->
  (String.length (concat_strings ls +:+ tail) <= fuel)%nat ->
  exists fuel', (String.length tail <= fuel')%nat /\
    read_lines fuel (concat_strings ls +:+ tail) = ls ++ read_lines fuel' tail.
Proof.
  induction ls as [|l ls IH]; intros fuel Hfit Hfuel.
  - exists fuel. done.
  - apply Forall_cons in Hfit as [(body & -> & Hnl & Hlen) Hfit].
    change (concat_strings ((body +:+ nl) :: ls))
      with ((body +:+ nl) +:+ concat_strings ls) in *.
    rewrite !append_assoc in *. unfold strlen in Hlen.
    rewrite !append_length in Hfuel. rewrite append_length in Hlen.
    change (String.length nl) with 1%nat in *.
    assert (Hf : fgets MAX_COMMAND_LENGTH (body +:+ nl +:+ concat_strings ls +:+ tail)
                 = Some (body +:+ nl, concat_strings ls +:+ tail)).
    { unfold fgets. rewrite fgets_chars_line by (done || (unfold MAX_COMMAND_LENGTH in *; lia)).
      by destruct body. }
    destruct fuel as [|fuel]; [lia|].
    destruct (IH fuel Hfit) as (fuel' & Hfuel' & Hread).
    { rewrite append_length. lia. }
    exists fuel'. split; [done|].
    cbn [read_lines]. rewrite Hf, Hread. done.
Qed.

(** The same for a file given by its lines: the loop stops at a line END
    whatever follows it, when the lines up to it fit the buffer. *)
Lemma main_stops_at_END before e tail :
  Forall fits_buffer before -> fits_buffer e ->
  command_word (c_str e) = Ok "END" ->
  main (concat_strings (before ++ [e]) +:+ tail) = run_lines init "" before.
Proof.
  intros Hbefore He Hend. rewrite main_run_lines. unfold input_lines.
  destruct (read_lines_fit_app (before ++ [e]) tail
              (String.length (concat_strings (before ++ [e]) +:+ tail)))
    as (fuel' & _ & ->); [|done|].
  { apply Forall_app. split; [done|]. by apply Forall_singleton. }
  rewrite <- app_assoc. simpl. by apply run_lines_stop.
Qed.

(** C8 as the specification words it fails on a line with two tokens after
    ADD_STUDENT: [%d] reads the 7 of 7John, the first [%s] the rest of that
    token, the second [%s] the faculty, and the student is added. *)
Lemma format_error_counterexample :
  ~ spec_format_error init ("ADD_STUDENT 7John ComputerScience" +:+ nl).
Proof.
  intros H.
  specialize (H "ADD_STUDENT" ["7John"; "ComputerScience"] [TInt; TToken; TToken]).
  assert (Hrun : process_line init ("ADD_STUDENT 7John ComputerScience" +:+ nl)
                 = Ok (Continue
                         (set_students init
                            (<[0%nat := mkStudent 7 "John" "ComputerScience"]> (students init)) 1)
                         ("Student: 7 added" +:+ nl))) by (vm_compute; reflexivity).
  rewrite Hrun in H.
  assert (Hbad : Ok (Continue
                       (set_students init
                          (<[0%nat := mkStudent 7 "John" "ComputerScience"]> (students init)) 1)
                       ("Student: 7 added" +:+ nl))
                 = Ok (Continue init ("Invalid " +:+ "ADD_STUDENT" +:+ " command format" +:+ nl))).
  { apply H; [vm_compute; reflexivity|apply list_elem_of_here|vm_compute; reflexivity]. }
  injection Hbad as _ Hout. discriminate Hout.
Qed.

Lemma command_word_inv command cmd :
  command_word command = Ok cmd -> sscanf fmt_cmd command = Ok [VStr cmd].
Proof.
  unfold command_word. destruct (sscanf fmt_cmd command) as [vs| |]; simpl; [|done..].
  destruct vs as [|[z|w] [|v vs]]; try done. by intros [= ->].
Qed.

Ltac streq_decide :=
  unfold streq;
  repeat first [ rewrite bool_decide_eq_true_2 by reflexivity
               | rewrite bool_decide_eq_false_2 by discriminate ].

(** C8 (amended). For each of the eight verbs that take arguments, a line on
    which [sscanf] with the verb's format converts fewer values than the
    verb requires is answered with the one line
    "Invalid <COMMAND> command format" and the store stays as it was; a line
    whose first word is none of the ten verbs is answered with
    "Unknown command: <word>" and the store stays as it was. *)
Theorem format_errors st command cmd :
  command_word command = Ok cmd ->
  (forall fmt n vs,
     (cmd, (fmt, n)) ∈ formats -> sscanf fmt command = Ok vs -> length vs <> n ->
     process_line st command =
       Ok (Continue st ("Invalid " +:+ cmd +:+ " command format" +:+ nl))) /\
  (cmd ∉ verbs ->
   process_line st command = Ok (Continue st ("Unknown command: " +:+ cmd +:+ nl))).
Proof.
  intros Hcmd. apply command_word_inv in Hcmd. split.
  - intros fmt n vs Hin Hss Hlen. unfold formats in Hin.
    repeat (apply elem_of_cons in Hin as [Hin|Hin]; [injection Hin as -> -> ->|]);
      [..|by apply elem_of_nil in Hin];
      unfold process_line; rewrite Hcmd; simpl; streq_decide; rewrite Hss; simpl;
      destruct vs as [|[] [|[] [|[] [|[] ?]]]]; simpl in Hlen; done.
  - intros Hnot. unfold verbs in Hnot.
    repeat (apply not_elem_of_cons in Hnot as [? Hnot]).
    unfold process_line. rewrite Hcmd. simpl. unfold streq.
    rewrite !bool_decide_eq_false_2 by done. done.
Qed.

Lemma format_errors_witness :
  process_line st_john ("ADD_GRADE 10 x 5" +:+ nl) =
    Ok (Continue st_john ("Invalid ADD_GRADE command format" +:+ nl)) /\
  process_line st_john ("REMOVE_STUDENT 1" +:+ nl) =
    Ok (Continue st_john ("Unknown command: REMOVE_STUDENT" +:+ nl)).
Proof.
  split.
  - apply (proj1 (format_errors st_john ("ADD_GRADE 10 x 5" +:+ nl) "ADD_GRADE"
                    ltac:(vm_compute; reflexivity)) fmt_int3 3%nat [VInt 10]).
    + unfold formats. do 2 apply list_elem_of_further. apply list_elem_of_here.
    + vm_compute. reflexivity.
    + simpl. lia.
  - apply (proj2 (format_errors st_john ("REMOVE_STUDENT 1" +:+ nl) "REMOVE_STUDENT"
                    ltac:(vm_compute; reflexivity))).
    apply (bool_decide_unpack _). vm_compute. exact I.
Defined.

(** ** The loop bounds suffice *)

(** No function of the program runs out of the iterations it is given: an
    outcome is a result or undefined behaviour. *)

Lemma bind_fuel {A B} (m : outcome A) (k : A -> outcome B) :
  m <> OutOfFuel -> (forall a, k a <> OutOfFuel) -> m ≫= k <> OutOfFuel.
Proof. intros Hm Hk. destruct m; simpl; [apply Hk|done..]. Qed.

Lemma rd_fuel {A} (a : list A) i : rd a i <> OutOfFuel.
Proof. unfold rd. destruct (0 <=? i); [|done]. by destruct (a !! Z.to_nat i). Qed.

Lemma wr_fuel {A} (a : list A) i x : wr a i x <> OutOfFuel.
Proof. unfold wr. by destruct (_ && _). Qed.

Lemma strcpy_fuel cap s : strcpy cap s <> OutOfFuel.
Proof. unfold strcpy. by destruct (_ <? _). Qed.

Create HintDb fuel.
#[local] Hint Resolve rd_fuel wr_fuel strcpy_fuel : fuel.

Ltac fuel_step :=
  repeat first
    [ apply bind_fuel; [auto with fuel; fail|intros ?]
    | match goal with
      | |- (if ?b then _ else _) <> OutOfFuel => destruct b
      | |- (let '(_, _) := ?p in _) <> OutOfFuel => destruct p
      end
    | done ].

Lemma find_student_loop_fuel st id fuel : forall i,
  (Z.to_nat (student_count st - i) <= fuel)%nat ->
  find_student_loop fuel st id i <> OutOfFuel.
Proof.
  induction fuel as [|fuel IH]; intros i Hf; simpl;
    destruct (Z.ltb_spec i (student_count st)); try done; try lia.
  apply bind_fuel; [auto with fuel|]. intros s.
  destruct (s_id s =? id); [done|]. apply IH. lia.
Qed.

Lemma find_student_fuel st id : find_student st id <> OutOfFuel.
Proof. apply find_student_loop_fuel. lia. Qed.

Lemma find_exam_loop_fuel st id fuel : forall i,
  (Z.to_nat (exam_count st - i) <= fuel)%nat ->
  find_exam_loop fuel st id i <> OutOfFuel.
Proof.
  induction fuel as [|fuel IH]; intros i Hf; simpl;
    destruct (Z.ltb_spec i (exam_count st)); try done; try lia.
  apply bind_fuel; [auto with fuel|]. intros e.
  destruct (e_id e =? id); [done|]. apply IH. lia.
Qed.

Lemma find_exam_fuel st id : find_exam st id <> OutOfFuel.
Proof. apply find_exam_loop_fuel. lia. Qed.

#[local] Hint Resolve find_student_fuel find_exam_fuel : fuel.

Lemma update_grade_loop_fuel st e s v fuel : forall i,
  (Z.to_nat (grade_count st - i) <= fuel)%nat ->
  update_grade_loop fuel st e s v i <> OutOfFuel.
Proof.
  induction fuel as [|fuel IH]; intros i Hf; simpl;
    destruct (Z.ltb_spec i (grade_count st)); try done; try lia.
  apply bind_fuel; [auto with fuel|]. intros g.
  destruct (_ && _); [fuel_step|]. apply IH. lia.
Qed.

Lemma shift_left_fuel {A} fuel : forall (a : list A) n j,
  (Z.to_nat (n - 1 - j) <= fuel)%nat -> shift_left fuel a n j <> OutOfFuel.
Proof.
  induction fuel as [|fuel IH]; intros a n j Hf; simpl;
    destruct (Z.ltb_spec j (n - 1)); try done; try lia.
  apply bind_fuel; [auto with fuel|]. intros x.
  apply bind_fuel; [auto with fuel|]. intros a'. apply IH. lia.
Qed.

Lemma delete_grades_loop_fuel id fuel : forall a n i,
  (Z.to_nat (n - i) <= fuel)%nat -> delete_grades_loop fuel a n id i <> OutOfFuel.
Proof.
  induction fuel as [|fuel IH]; intros a n i Hf; simpl;
    destruct (Z.ltb_spec i n); try done; try lia.
  apply bind_fuel; [auto with fuel|]. intros g.
  destruct (g_student_id g =? id).
  - apply bind_fuel; [apply shift_left_fuel; lia|]. intros a'. apply IH. lia.
  - apply IH. lia.
Qed.

Lemma search_grade_loop_fuel st e s si fuel : forall i,
  (Z.to_nat (grade_count st - i) <= fuel)%nat ->
  search_grade_loop fuel st e s si i <> OutOfFuel.
Proof.
  induction fuel as [|fuel IH]; intros i Hf; simpl;
    destruct (Z.ltb_spec i (grade_count st)); try done; try lia.
  apply bind_fuel; [auto with fuel|]. intros g.
  destruct (_ && _); [fuel_step|]. apply IH. lia.
Qed.

Lemma list_all_students_loop_fuel st fuel : forall i out,
  (Z.to_nat (student_count st - i) <= fuel)%nat ->
  list_all_students_loop fuel st i out <> OutOfFuel.
Proof.
  induction fuel as [|fuel IH]; intros i out Hf; simpl;
    destruct (Z.ltb_spec i (student_count st)); try done; try lia.
  apply bind_fuel; [auto with fuel|]. intros s. apply IH. lia.
Qed.

Lemma exec_fuel st o : exec st o <> OutOfFuel.
Proof.
  destruct o; simpl.
  - unfold add_student. fuel_step.
  - unfold add_exam. fuel_step.
  - unfold add_grade. fuel_step.
  - unfold update_exam. fuel_step.
  - unfold update_grade. destruct (_ || _); [done|].
    apply update_grade_loop_fuel. lia.
  - unfold delete_student. apply bind_fuel; [auto with fuel|]. intros index.
    destruct (index =? -1); [done|].
    apply bind_fuel; [apply delete_grades_loop_fuel; lia|]. intros [ga gn].
    apply bind_fuel; [apply shift_left_fuel; lia|]. done.
  - unfold search_student. fuel_step.
  - unfold search_grade. apply bind_fuel; [auto with fuel|]. intros si.
    destruct (si =? -1); [done|]. apply search_grade_loop_fuel. lia.
  - apply list_all_students_loop_fuel. lia.
Qed.

Lemma sscanf_fuel fmt : forall s, sscanf fmt s <> OutOfFuel.
Proof.
  induction fmt as [|d fmt IH]; intros s; [done|].
  destruct d; unfold sscanf; fold sscanf.
  - destruct (scan_word _) as [[|c w] rest]; [done|apply IH].
  - apply IH.
  - destruct (scan_int _) as [[z rest]|]; [|done].
    destruct (_ && _); [|done]. apply bind_fuel; [apply IH|done].
  - destruct (scan_word _) as [[|c w] rest]; [done|].
    destruct (_ <? _); [|done]. apply bind_fuel; [apply IH|done].
Qed.

Lemma continue_fuel r : r <> OutOfFuel -> continue r <> OutOfFuel.
Proof. by destruct r as [[]| |]. Qed.

Lemma process_line_fuel st command : process_line st command <> OutOfFuel.
Proof.
  unfold process_line. apply bind_fuel; [apply sscanf_fuel|]. intros vs.
  destruct vs as [|[z|cmd] [|v vs]]; try done.
  repeat match goal with
         | |- (if ?b then _ else _) <> OutOfFuel => destruct b
         end; try done;
    try (apply continue_fuel; apply (exec_fuel st ListAllStudents));
    (apply bind_fuel; [apply sscanf_fuel|]); intros ws;
    repeat case_match; try done; apply continue_fuel.
  - apply (exec_fuel st (AddStudent _ _ _)).
  - apply (exec_fuel st (AddExam _ _ _)).
  - apply (exec_fuel st (AddGrade _ _ _)).
  - apply (exec_fuel st (UpdateExam _ _ _)).
  - apply (exec_fuel st (UpdateGrade _ _ _)).
  - apply (exec_fuel st (DeleteStudent _)).
  - apply (exec_fuel st (SearchStudent _)).
  - apply (exec_fuel st (SearchGrade _ _)).
Qed.

Lemma run_lines_fuel ls : forall st out, run_lines st out ls <> OutOfFuel.
Proof.
  induction ls as [|l ls IH]; intros st out; simpl; [done|].
  apply bind_fuel; [apply process_line_fuel|]. intros [st' o|]; [apply IH|done].
Qed.

(** [main] returns for every input: the globals and the output, or
    undefined behaviour. *)
Lemma main_fuel input : main input <> OutOfFuel.
Proof. rewrite main_run_lines. apply run_lines_fuel. Qed.

(** ** The scenarios of the specification *)

Example scenario_add_student :
  output_of (main (lines ["ADD_STUDENT 1 John ComputerScience"]))
  = Ok (lines ["Student: 1 added"]).
Proof. vm_compute. reflexivity. Qed.

Example scenario_add_twice :
  output_of (main (lines ["ADD_STUDENT 1 John ComputerScience";
                          "ADD_STUDENT 1 John ComputerScience"]))
  = Ok (lines ["Student: 1 added"; "Student: 1 already exists"]).
Proof. vm_compute. reflexivity. Qed.

Example scenario_grade :
  output_of (main (lines ["ADD_STUDENT 1 John ComputerScience";
                          "ADD_EXAM 10 WRITTEN Midterm"; "ADD_GRADE 10 1 85";
                          "SEARCH_GRADE 10 1"]))
  = Ok (lines ["Student: 1 added"; "Exam: 10 added";
               "Grade 85 added for the student: 1";
               "Exam: 10, Student: 1, Name: John, Grade: 85, Type: WRITTEN, Info: Midterm"]).
Proof. vm_compute. reflexivity. Qed.

Example scenario_delete :
  output_of (main (lines ["ADD_STUDENT 1 John ComputerScience"; "DELETE_STUDENT 1";
                          "SEARCH_STUDENT 1"]))
  = Ok (lines ["Student: 1 added"; "Student: 1 deleted"; "Student not found"]).
Proof. vm_compute. reflexivity. Qed.

Example scenario_bad_name :
  output_of (main (lines ["ADD_STUDENT 2 J0hn ComputerScience"]))
  = Ok (lines ["Invalid name"]).
Proof. vm_compute. reflexivity. Qed.

(** Deleting a student in the middle keeps the order of the others and of
    their grades. *)
Example scenario_compaction :
  output_of (main (lines ["ADD_STUDENT 1 Ann DataScience"; "ADD_STUDENT 2 Bob DataScience";
                          "ADD_STUDENT 3 Cid DataScience"; "ADD_EXAM 7 DIGITAL Quiz";
                          "ADD_GRADE 7 2 10"; "ADD_GRADE 7 1 20"; "ADD_GRADE 7 2 30";
                          "ADD_GRADE 7 3 40"; "DELETE_STUDENT 2"; "LIST_ALL_STUDENTS";
                          "SEARCH_GRADE 7 1"; "SEARCH_GRADE 7 3"; "SEARCH_GRADE 7 2"]))
  = Ok (lines ["Student: 1 added"; "Student: 2 added"; "Student: 3 added";
               "Exam: 7 added"; "Grade 10 added for the student: 2";
               "Grade 20 added for the student: 1"; "Grade 30 added for the student: 2";
               "Grade 40 added for the student: 3"; "Student: 2 deleted";
               "ID: 1, Name: Ann, Faculty: DataScience";
               "ID: 3, Name: Cid, Faculty: DataScience";
               "Exam: 7, Student: 1, Name: Ann, Grade: 20, Type: DIGITAL, Info: Quiz";
               "Exam: 7, Student: 3, Name: Cid, Grade: 40, Type: DIGITAL, Info: Quiz";
               "Student not found"]).
Proof. vm_compute. reflexivity. Qed.

(** * Further properties of the program *)

(** ** Looking up by id *)

(** X1. [find_student] and [find_exam] answer [-1] exactly when no cell in
    use holds the id; otherwise they answer the index of the first cell in
    use that holds it. *)
Theorem find_first_index st id :
  bounds st ->
  (exists r, find_student st id = Ok r /\
     (r = -1 <-> id ∉ student_ids st) /\
     (r <> -1 ->
      0 <= r < student_count st /\
      (exists s, students st !! Z.to_nat r = Some s /\ s_id s = id) /\
      forall (j : nat) s, Z.of_nat j < r -> students st !! j = Some s -> s_id s <> id)) /\
  (exists r, find_exam st id = Ok r /\
     (r = -1 <-> id ∉ exam_ids st) /\
     (r <> -1 ->
      0 <= r < exam_count st /\
      (exists e, exams st !! Z.to_nat r = Some e /\ e_id e = id) /\
      forall (j : nat) e, Z.of_nat j < r -> exams st !! j = Some e -> e_id e <> id)).
Proof.
  intros Hb. split.
  - exists (index_of id (student_ids st) 0).
    split; [by apply find_student_bounds|]. split; [apply index_of_absent; lia|].
    intros Hr.
    destruct (index_of_student st id _ Hb eq_refl Hr) as (Hrange & s & Hs & Hid & _).
    split; [done|]. split; [by exists s|].
    intros j s' Hj Hs' Hid'.
    destruct (index_of_found id (student_ids st) 0 _ (Z.le_refl 0) eq_refl Hr)
      as (_ & _ & Hbefore).
    apply (Hbefore j); [lia|].
    unfold student_ids, live_students.
    rewrite list_lookup_fmap, live_lookup by lia. rewrite Hs'. simpl. by rewrite Hid'.
  - exists (index_of id (exam_ids st) 0).
    split; [by apply find_exam_bounds|]. split; [apply index_of_absent; lia|].
    intros Hr.
    destruct (index_of_exam st id _ Hb eq_refl Hr) as (Hrange & e & He & Hid & _).
    split; [done|]. split; [by exists e|].
    intros j e' Hj He' Hid'.
    destruct (index_of_found id (exam_ids st) 0 _ (Z.le_refl 0) eq_refl Hr)
      as (_ & _ & Hbefore).
    apply (Hbefore j); [lia|].
    unfold exam_ids, live_exams.
    rewrite list_lookup_fmap, live_lookup by lia. rewrite He'. simpl. by rewrite Hid'.
Qed.

Lemma find_first_index_witness :
  (exists r, find_student st_grade 1 = Ok r /\ r <> -1) /\
  (exists r, find_exam st_grade 11 = Ok r /\ r = -1).
Proof.
  destruct (find_first_index st_grade 1 bounds_st_grade) as [(r & Hr & Hiff & _) _].
  destruct (find_first_index st_grade 11 bounds_st_grade) as [_ (r' & Hr' & Hiff' & _)].
  split.
  - exists r. split; [exact Hr|]. intros Hneg. apply Hiff in Hneg. apply Hneg.
    vm_compute. apply list_elem_of_here.
  - exists r'. split; [exact Hr'|]. apply Hiff'.
    vm_compute. intros H. apply list_elem_of_singleton in H. discriminate H.
Defined.

(** ** The answers of the add operations *)

Lemma valid_faculty_length faculty :
  valid_faculty faculty = true -> strlen faculty < MAX_FACULTY_LENGTH.
Proof.
  unfold valid_faculty, streq. intros Hvf.
  repeat (apply orb_prop in Hvf as [Hvf|Hvf]);
    apply bool_decide_eq_true in Hvf; subst faculty; done.
Qed.

(** X2. For an id that is not stored, [add_student] tests in this order:
    a name or faculty too long for its buffer gives
    "Invalid name or faculty length"; then a faculty outside the six gives
    "Invalid faculty", whatever the name; then a name with a character that
    is not a letter gives "Invalid name"; each leaves the store as it was.
    Otherwise, with a free cell, the student is appended after the stored
    students, and exams and grades are not touched. *)
Theorem add_student_outcomes st id name faculty :
  bounds st -> id ∉ student_ids st ->
  (MAX_NAME_LENGTH <= strlen name \/ MAX_FACULTY_LENGTH <= strlen faculty ->
   add_student st id name faculty = Ok (st, "Invalid name or faculty length" +:+ nl)) /\
  (strlen name < MAX_NAME_LENGTH -> strlen faculty < MAX_FACULTY_LENGTH ->
   valid_faculty faculty = false ->
   add_student st id name faculty = Ok (st, "Invalid faculty" +:+ nl)) /\
  (strlen name < MAX_NAME_LENGTH -> valid_faculty faculty = true ->
   all_alpha name = false ->
   add_student st id name faculty = Ok (st, "Invalid name" +:+ nl)) /\
  (strlen name < MAX_NAME_LENGTH -> valid_faculty faculty = true ->
   all_alpha name = true -> student_count st < MAX_STUDENTS ->
   exists st',
     add_student st id name faculty =
       Ok (st', "Student: " +:+ fmt_d id +:+ " added" +:+ nl) /\
     live_students st' = live_students st ++ [mkStudent id name faculty] /\
     live_exams st' = live_exams st /\ live_grades st' = live_grades st).
Proof.
  intros Hb Hid.
  assert (Hfind : find_student st id = Ok (-1)).
  { rewrite find_student_bounds by done. f_equal. apply index_of_absent; [lia|done]. }
  split; [|split; [|split]].
  - intros Hlen. unfold add_student. rewrite Hfind. simpl.
    destruct (Z.leb_spec MAX_NAME_LENGTH (strlen name)); [done|].
    destruct (Z.leb_spec MAX_FACULTY_LENGTH (strlen faculty)); [done|lia].
  - intros Hn Hf Hvf. unfold add_student. rewrite Hfind. simpl.
    destruct (Z.leb_spec MAX_NAME_LENGTH (strlen name)); [lia|].
    destruct (Z.leb_spec MAX_FACULTY_LENGTH (strlen faculty)); [lia|].
    simpl. by rewrite Hvf.
  - intros Hn Hvf Hal. pose proof (valid_faculty_length _ Hvf) as Hf.
    unfold add_student. rewrite Hfind. simpl.
    destruct (Z.leb_spec MAX_NAME_LENGTH (strlen name)); [lia|].
    destruct (Z.leb_spec MAX_FACULTY_LENGTH (strlen faculty)); [lia|].
    simpl. by rewrite Hvf, Hal.
  - intros Hn Hvf Hal Hc. pose proof (valid_faculty_length _ Hvf) as Hf.
    eexists. split; [by apply add_student_added|]. split; [|done].
    unfold live_students. simpl. destruct Hb. by rewrite live_snoc by lia.
Qed.

Lemma add_student_outcomes_witness :
  add_student init 2 "J0hn" "Physics" = Ok (init, "Invalid faculty" +:+ nl) /\
  add_student init 2 "J0hn" "ComputerScience" = Ok (init, "Invalid name" +:+ nl) /\
  exists st',
    add_student st_john 2 "Ann" "DataScience" = Ok (st', "Student: 2 added" +:+ nl) /\
    live_students st' = live_students st_john ++ [mkStudent 2 "Ann" "DataScience"].
Proof.
  assert (H0 : 2 ∉ student_ids init) by (vm_compute; apply not_elem_of_nil).
  assert (H1 : 2 ∉ student_ids st_john).
  { vm_compute. intros H. apply list_elem_of_singleton in H. discriminate H. }
  split; [|split].
  - apply (proj1 (proj2 (add_student_outcomes init 2 "J0hn" "Physics" bounds_init H0)));
      vm_compute; reflexivity.
  - apply (proj1 (proj2 (proj2
             (add_student_outcomes init 2 "J0hn" "ComputerScience" bounds_init H0))));
      vm_compute; reflexivity.
  - destruct (proj2 (proj2 (proj2
               (add_student_outcomes st_john 2 "Ann" "DataScience" bounds_st_john H1))))
      as (st' & Hrun & Hlive & _); [vm_compute; reflexivity..|].
    exists st'. split; [exact Hrun|exact Hlive].
Defined.

(** X3. [add_exam] answers "Exam: <id> already exists" for a stored id
    whatever the type and the info are, and "Invalid type or info length"
    for a new id whose type or info does not fit its buffer; both leave the
    store as it was. *)
Theorem add_exam_rejections st id type info :
  bounds st ->
  (id ∈ exam_ids st ->
   add_exam st id type info =
     Ok (st, "Exam: " +:+ fmt_d id +:+ " already exists" +:+ nl)) /\
  (id ∉ exam_ids st ->
   MAX_TYPE_LENGTH <= strlen type \/ MAX_NAME_LENGTH <= strlen info ->
   add_exam st id type info = Ok (st, "Invalid type or info length" +:+ nl)).
Proof.
  intros Hb. split.
  - intros Hid. unfold add_exam. rewrite find_exam_bounds by done. simpl.
    destruct (Z.eqb_spec (index_of id (exam_ids st) 0) (-1)) as [Hi|Hi]; [|done].
    apply index_of_absent in Hi; [done|lia].
  - intros Hid Hlen. unfold add_exam. rewrite find_exam_bounds by done.
    apply (index_of_absent id _ 0) in Hid; [|lia]. rewrite Hid. simpl.
    destruct (Z.leb_spec MAX_TYPE_LENGTH (strlen type)); [done|].
    destruct (Z.leb_spec MAX_NAME_LENGTH (strlen info)); [done|lia].
Qed.

Lemma add_exam_rejections_witness :
  add_exam st_exam 10 "ORAL" "x" = Ok (st_exam, "Exam: 10 already exists" +:+ nl) /\
  add_exam st_exam 11 "A_TYPE_OF_TWENTY_CHRS" "x" =
    Ok (st_exam, "Invalid type or info length" +:+ nl).
Proof.
  split.
  - apply (proj1 (add_exam_rejections st_exam 10 "ORAL" "x" bounds_st_exam)).
    vm_compute. apply list_elem_of_here.
  - apply (proj2 (add_exam_rejections st_exam 11 "A_TYPE_OF_TWENTY_CHRS" "x"
                    bounds_st_exam)).
    + vm_compute. intros H. apply list_elem_of_singleton in H. discriminate H.
    + left. vm_compute. discriminate.
Defined.

(** X4. With a value in [0,100], [add_grade] answers "Student not found"
    when the student is not stored, whether or not the exam is; "Exam not
    found" when the student is stored and the exam is not; and otherwise,
    with a free cell, appends the grade after the stored grades without
    looking for a grade the pair already has. *)
Theorem add_grade_outcomes st exam_id student_id value :
  bounds st -> 0 <= value <= 100 ->
  (student_id ∉ student_ids st ->
   add_grade st exam_id student_id value = Ok (st, "Student not found" +:+ nl)) /\
  (student_id ∈ student_ids st -> exam_id ∉ exam_ids st ->
   add_grade st exam_id student_id value = Ok (st, "Exam not found" +:+ nl)) /\
  (student_id ∈ student_ids st -> exam_id ∈ exam_ids st ->
   grade_count st < MAX_GRADES ->
   exists st',
     add_grade st exam_id student_id value =
       Ok (st', "Grade " +:+ fmt_d value +:+ " added for the student: "
                  +:+ fmt_d student_id +:+ nl) /\
     live_grades st' = live_grades st ++ [mkGrade exam_id student_id value] /\
     live_students st' = live_students st /\ live_exams st' = live_exams st).
Proof.
  intros Hb Hv.
  assert (Hpre : add_grade st exam_id student_id value =
            (si ← find_student st student_id;
             if si =? -1 then Ok (st, "Student not found" +:+ nl)
             else ei ← find_exam st exam_id;
                  if ei =? -1 then Ok (st, "Exam not found" +:+ nl)
                  else a ← wr (grades st) (grade_count st)
                             (mkGrade exam_id student_id value);
                       Ok (set_grades st a (grade_count st + 1),
                           "Grade " +:+ fmt_d value +:+ " added for the student: "
                             +:+ fmt_d student_id +:+ nl))).
  { unfold add_grade. destruct (Z.ltb_spec value 0); [lia|].
    destruct (Z.ltb_spec 100 value); [lia|]. done. }
  rewrite Hpre, find_student_bounds, find_exam_bounds by done. simpl.
  split; [|split].
  - intros Hs. apply (index_of_absent _ _ 0) in Hs; [|lia]. by rewrite Hs.
  - intros Hs He.
    destruct (Z.eqb_spec (index_of student_id (student_ids st) 0) (-1)) as [Hi|Hi].
    { apply index_of_absent in Hi; [done|lia]. }
    apply (index_of_absent _ _ 0) in He; [|lia]. by rewrite He.
  - intros Hs He Hc.
    destruct (Z.eqb_spec (index_of student_id (student_ids st) 0) (-1)) as [Hi|Hi].
    { apply index_of_absent in Hi; [done|lia]. }
    destruct (Z.eqb_spec (index_of exam_id (exam_ids st) 0) (-1)) as [Hj|Hj].
    { apply index_of_absent in Hj; [done|lia]. }
    destruct Hb. rewrite wr_Ok by lia. simpl. eexists. split; [done|].
    split; [|done]. unfold live_grades. simpl. by rewrite live_snoc by lia.
Qed.

Lemma add_grade_outcomes_witness :
  add_grade st_exam 11 2 50 = Ok (st_exam, "Student not found" +:+ nl) /\
  add_grade st_exam 11 1 50 = Ok (st_exam, "Exam not found" +:+ nl) /\
  exists st',
    add_grade st_grade 10 1 50 = Ok (st', "Grade 50 added for the student: 1" +:+ nl) /\
    live_grades st' = [mkGrade 10 1 85; mkGrade 10 1 50].
Proof.
  assert (Hs : 1 ∈ student_ids st_exam) by (vm_compute; apply list_elem_of_here).
  split; [|split].
  - apply (proj1 (add_grade_outcomes st_exam 11 2 50 bounds_st_exam ltac:(lia))).
    vm_compute. intros H. apply list_elem_of_singleton in H. discriminate H.
  - apply (proj1 (proj2 (add_grade_outcomes st_exam 11 1 50 bounds_st_exam ltac:(lia))));
      [exact Hs|].
    vm_compute. intros H. apply list_elem_of_singleton in H. discriminate H.
  - destruct (proj2 (proj2 (add_grade_outcomes st_grade 10 1 50 bounds_st_grade
                              ltac:(lia))))
      as (st' & Hrun & Hlive & _);
      [vm_compute; apply list_elem_of_here..|vm_compute; reflexivity|].
    exists st'. split; [exact Hrun|exact Hlive].
Defined.

(** ** Searching for a grade *)

Lemma member_index_student st s :
  wf st -> s ∈ live_students st ->
  exists j : nat,
    index_of (s_id s) (student_ids st) 0 = Z.of_nat j /\
    Z.of_nat j < student_count st /\ students st !! j = Some s.
Proof.
  intros Hwf Hs. pose proof (wf_bounds _ Hwf) as Hb.
  assert (Hid : s_id s ∈ student_ids st) by (by apply list_elem_of_fmap_2).
  assert (Hi : index_of (s_id s) (student_ids st) 0 <> -1).
  { intros Hi. apply index_of_absent in Hi; [done|lia]. }
  destruct (index_of_student st (s_id s) _ Hb eq_refl Hi) as (Hr & s' & Hs' & Hid' & Hl').
  apply list_elem_of_lookup in Hs as [j Hj].
  set (k := Z.to_nat (index_of (s_id s) (student_ids st) 0)) in *.
  assert (Hjk : j = k).
  { apply (NoDup_lookup (student_ids st) _ _ (s_id s)); [by destruct Hwf|..];
      unfold student_ids; rewrite list_lookup_fmap.
    - by rewrite Hj.
    - rewrite Hl'. simpl. by rewrite Hid'. }
  subst j. rewrite Hj in Hl'. injection Hl' as <-.
  exists k. split; [unfold k; lia|]. split; [unfold k; lia|done].
Qed.

Lemma member_index_exam st e :
  wf st -> e ∈ live_exams st ->
  exists j : nat,
    index_of (e_id e) (exam_ids st) 0 = Z.of_nat j /\
    Z.of_nat j < exam_count st /\ exams st !! j = Some e.
Proof.
  intros Hwf He. pose proof (wf_bounds _ Hwf) as Hb.
  assert (Hid : e_id e ∈ exam_ids st) by (by apply list_elem_of_fmap_2).
  assert (Hi : index_of (e_id e) (exam_ids st) 0 <> -1).
  { intros Hi. apply index_of_absent in Hi; [done|lia]. }
  destruct (index_of_exam st (e_id e) _ Hb eq_refl Hi) as (Hr & e' & He' & Hid' & Hl').
  apply list_elem_of_lookup in He as [j Hj].
  set (k := Z.to_nat (index_of (e_id e) (exam_ids st) 0)) in *.
  assert (Hjk : j = k).
  { apply (NoDup_lookup (exam_ids st) _ _ (e_id e)); [by destruct Hwf|..];
      unfold exam_ids; rewrite list_lookup_fmap.
    - by rewrite Hj.
    - rewrite Hl'. simpl. by rewrite Hid'. }
  subst j. rewrite Hj in Hl'. injection Hl' as <-.
  exists k. split; [unfold k; lia|]. split; [unfold k; lia|done].
Qed.

Lemma search_grade_found st s e before g after :
  wf st -> s ∈ live_students st -> e ∈ live_exams st ->
  live_grades st = before ++ g :: after ->
  Forall (fun g => ~ matches (e_id e) (s_id s) g) before ->
  matches (e_id e) (s_id s) g ->
  search_grade st (e_id e) (s_id s) = Ok (st, grade_line (e_id e) (s_id s) s g e).
Proof.
  intros Hwf Hs He Hlive Hbefore Hg. pose proof (wf_bounds _ Hwf) as Hb.
  destruct (member_index_student st s Hwf Hs) as (j & Hj & Hjc & Hjs).
  destruct (member_index_exam st e Hwf He) as (k & Hk & Hkc & Hke).
  unfold search_grade. rewrite find_student_bounds, Hj by done. simpl.
  destruct (Z.eqb_spec (Z.of_nat j) (-1)); [lia|].
  rewrite search_grade_loop_eq by (done || lia).
  rewrite drop_0, Hlive, first_from_app, Hk by done.
  destruct (Z.eqb_spec (Z.of_nat k) (-1)); [lia|].
  rewrite (rd_Ok _ _ s), (rd_Ok _ _ e) by (lia || by rewrite Nat2Z.id). done.
Qed.

(** X5. [search_grade] answers "Student not found" when the student is not
    stored; "Grade not found" when the student is stored and no grade has
    the pair, whether or not the exam is stored; and otherwise prints the
    value of the first grade of the pair in storage order with the
    student's name and the exam's type and info.  The store is returned as
    it was. *)
Theorem search_grade_outcomes st exam_id student_id :
  wf st ->
  (student_id ∉ student_ids st ->
   search_grade st exam_id student_id = Ok (st, "Student not found" +:+ nl)) /\
  (student_id ∈ student_ids st ->
   Forall (fun g => ~ matches exam_id student_id g) (live_grades st) ->
   search_grade st exam_id student_id = Ok (st, "Grade not found" +:+ nl)) /\
  (forall s e before g after,
     s ∈ live_students st -> s_id s = student_id ->
     e ∈ live_exams st -> e_id e = exam_id ->
     live_grades st = before ++ g :: after ->
     Forall (fun g => ~ matches exam_id student_id g) before ->
     matches exam_id student_id g ->
     search_grade st exam_id student_id =
       Ok (st, "Exam: " +:+ fmt_d exam_id +:+ ", Student: " +:+ fmt_d student_id
                 +:+ ", Name: " +:+ s_name s +:+ ", Grade: " +:+ fmt_d (g_grade g)
                 +:+ ", Type: " +:+ e_type e +:+ ", Info: " +:+ e_info e +:+ nl)).
Proof.
  intros Hwf. pose proof (wf_bounds _ Hwf) as Hb. split; [|split].
  - by apply search_grade_absent.
  - intros Hs Hnone. unfold search_grade. rewrite find_student_bounds by done. simpl.
    destruct (Z.eqb_spec (index_of student_id (student_ids st) 0) (-1)) as [Hi|Hi].
    { apply index_of_absent in Hi; [done|lia]. }
    destruct (index_of_student st student_id _ Hb eq_refl Hi) as (Hr & _).
    rewrite search_grade_loop_eq by (done || lia). rewrite drop_0.
    apply (first_from_None _ _ 0) in Hnone. by rewrite Hnone.
  - intros s e before g after Hs <- He <- Hlive Hbefore Hg.
    by apply (search_grade_found st s e before g after).
Qed.

Lemma search_grade_outcomes_witness :
  search_grade st_grade 10 2 = Ok (st_grade, "Student not found" +:+ nl) /\
  search_grade st_grade 11 1 = Ok (st_grade, "Grade not found" +:+ nl) /\
  search_grade st_grade 10 1 =
    Ok (st_grade,
        "Exam: 10, Student: 1, Name: John, Grade: 85, Type: WRITTEN, Info: Midterm"
          +:+ nl).
Proof.
  split; [|split].
  - apply (proj1 (search_grade_outcomes st_grade 10 2 wf_st_grade)).
    vm_compute. intros H. apply list_elem_of_singleton in H. discriminate H.
  - apply (proj1 (proj2 (search_grade_outcomes st_grade 11 1 wf_st_grade))).
    + vm_compute. apply list_elem_of_here.
    + vm_compute. repeat constructor. intros [H _]. discriminate H.
  - apply (proj2 (proj2 (search_grade_outcomes st_grade 10 1 wf_st_grade))
             (mkStudent 1 "John" "ComputerScience") (mkExam 10 "WRITTEN" "Midterm")
             [] (mkGrade 10 1 85) []);
      try (vm_compute; reflexivity); try (vm_compute; apply list_elem_of_here).
    + constructor.
    + split; reflexivity.
Defined.

(** X6. After [update_grade] has changed a grade, [search_grade] for the
    same exam and student prints the new value; after [update_exam] has
    changed an exam, [search_grade] for that exam prints the new type and
    info with the grade it printed before. *)
Theorem update_then_search st s e before g after :
  wf st -> s ∈ live_students st -> e ∈ live_exams st ->
  live_grades st = before ++ g :: after ->
  Forall (fun g => ~ matches (e_id e) (s_id s) g) before ->
  matches (e_id e) (s_id s) g ->
  (forall value, 0 <= value <= 100 ->
   exists st' out,
     update_grade st (e_id e) (s_id s) value = Ok (st', out) /\
     search_grade st' (e_id e) (s_id s) =
       Ok (st', grade_line (e_id e) (s_id s) s (mkGrade (e_id e) (s_id s) value) e)) /\
  (forall new_type new_info,
   new_type = "WRITTEN" \/ new_type = "DIGITAL" -> strlen new_info < MAX_NAME_LENGTH ->
   exists st' out,
     update_exam st (e_id e) new_type new_info = Ok (st', out) /\
     search_grade st' (e_id e) (s_id s) =
       Ok (st', grade_line (e_id e) (s_id s) s g (mkExam (e_id e) new_type new_info))).
Proof.
  intros Hwf Hs He Hlive Hbefore Hg. pose proof (wf_bounds _ Hwf) as Hb.
  assert (Hlen : Z.of_nat (length before) < grade_count st).
  { pose proof (live_length (grades st) (grade_count st)) as Hl.
    destruct Hb. fold (live_grades st) in Hl. rewrite Hlive, length_app in Hl.
    simpl in Hl. lia. }
  split.
  - intros value Hv. eexists _, _. split.
    { rewrite update_grade_eq, Hlive, first_from_app by done.
      rewrite Z.add_0_l, Nat2Z.id. done. }
    apply (search_grade_found _ s e before _ after); try done.
    + apply (exec_wf st (UpdateGrade (e_id e) (s_id s) value) _
               ("Grade " +:+ fmt_d value +:+ " updated for the student: "
                  +:+ fmt_d (s_id s) +:+ nl)); [done|].
      simpl. rewrite update_grade_eq, Hlive, first_from_app by done.
      rewrite Z.add_0_l, Nat2Z.id. done.
    + unfold live_grades. simpl. rewrite live_insert_lt by lia.
      fold (live_grades st). rewrite Hlive, insert_app_r_alt by lia.
      by replace (length before - length before)%nat with 0%nat by lia.
  - intros new_type new_info Ht Hi.
    assert (Hid : e_id e ∈ exam_ids st) by (by apply list_elem_of_fmap_2).
    destruct (update_exam_good_type st (e_id e) new_type new_info Hb Hid Ht)
      as (r & Hr & Hk & Hrun).
    assert (Hrun' : update_exam st (e_id e) new_type new_info =
              Ok (set_exams st (<[r := mkExam (e_id e) new_type new_info]> (exams st))
                    (exam_count st),
                  "Exam: " +:+ fmt_d (e_id e) +:+ " updated" +:+ nl)).
    { rewrite Hrun. unfold strcpy.
      destruct (Z.ltb_spec (strlen new_info) MAX_NAME_LENGTH); [done|lia]. }
    eexists _, _. split; [exact Hrun'|].
    assert (Hrc : Z.of_nat r < exam_count st).
    { apply lookup_lt_Some in Hk. unfold exam_ids, live_exams in Hk.
      rewrite length_fmap in Hk. destruct Hb.
      pose proof (live_length (exams st) (exam_count st)). lia. }
    apply (search_grade_found _ s (mkExam (e_id e) new_type new_info) before g after);
      try done.
    + by apply (exec_wf st (UpdateExam (e_id e) new_type new_info) _ _ Hwf Hrun').
    + unfold live_exams. simpl. rewrite live_insert_lt by lia.
      apply list_elem_of_insert. unfold live. rewrite length_take. destruct Hb. lia.
Qed.

Lemma update_then_search_witness :
  (exists st' out,
     update_grade st_grade 10 1 90 = Ok (st', out) /\
     search_grade st' 10 1 =
       Ok (st', "Exam: 10, Student: 1, Name: John, Grade: 90, Type: WRITTEN, Info: Midterm"
                  +:+ nl)) /\
  (exists st' out,
     update_exam st_grade 10 "DIGITAL" "Final" = Ok (st', out) /\
     search_grade st' 10 1 =
       Ok (st', "Exam: 10, Student: 1, Name: John, Grade: 85, Type: DIGITAL, Info: Final"
                  +:+ nl)).
Proof.
  destruct (update_then_search st_grade (mkStudent 1 "John" "ComputerScience")
              (mkExam 10 "WRITTEN" "Midterm") [] (mkGrade 10 1 85) [] wf_st_grade)
    as [Hg He].
  - vm_compute. apply list_elem_of_here.
  - vm_compute. apply list_elem_of_here.
  - vm_compute. reflexivity.
  - constructor.
  - split; reflexivity.
  - split.
    + apply (Hg 90). lia.
    + apply (He "DIGITAL" "Final"); [by right|vm_compute; reflexivity].
Defined.

(** ** Missing keys, deleting and listing *)

(** X7. On an id that is not stored, [update_exam] answers "Exam not found"
    even when the new type is not a valid one, and [delete_student] and
    [search_student] answer "Student not found"; the store is returned as it
    was. *)
Theorem missing_key_answers st id :
  bounds st ->
  (id ∉ exam_ids st ->
   forall new_type new_info,
     update_exam st id new_type new_info = Ok (st, "Exam not found" +:+ nl)) /\
  (id ∉ student_ids st ->
   delete_student st id = Ok (st, "Student not found" +:+ nl) /\
   search_student st id = Ok (st, "Student not found" +:+ nl)).
Proof.
  intros Hb. split.
  - intros Hid t i. unfold update_exam. rewrite find_exam_bounds by done.
    apply (index_of_absent id _ 0) in Hid; [|lia]. by rewrite Hid.
  - intros Hid. split; [by apply delete_student_absent|by apply search_student_absent].
Qed.

Lemma missing_key_answers_witness :
  update_exam st_grade 11 "ORAL" "x" = Ok (st_grade, "Exam not found" +:+ nl) /\
  delete_student st_grade 2 = Ok (st_grade, "Student not found" +:+ nl).
Proof.
  destruct (missing_key_answers st_grade 11 bounds_st_grade) as [He _].
  destruct (missing_key_answers st_grade 2 bounds_st_grade) as [_ Hs].
  split.
  - apply He. vm_compute. intros H. apply list_elem_of_singleton in H. discriminate H.
  - apply Hs. vm_compute. intros H. apply list_elem_of_singleton in H. discriminate H.
Defined.

(** What [delete_student] leaves, for a stored id. *)
Lemma delete_student_gone st id :
  wf st -> id ∈ student_ids st ->
  exists st',
    delete_student st id = Ok (st', "Student: " +:+ fmt_d id +:+ " deleted" +:+ nl) /\
    wf st' /\ (id ∉ student_ids st') /\
    student_count st' = student_count st - 1 /\
    (exists before s after,
       live_students st = before ++ s :: after /\ s_id s = id /\
       live_students st' = before ++ after).
Proof.
  intros Hwf Hid. pose proof (wf_bounds _ Hwf) as Hb.
  destruct (delete_student_present st id Hb Hid)
    as (st' & r & Hrun & Hb' & Hr & Hs & Hg & He & Hec).
  destruct (index_of_student st id _ Hb Hr ltac:(lia)) as (Hrange & s & _ & Hsid & Hls).
  rewrite Nat2Z.id in Hls.
  exists st'. split; [done|].
  split; [by apply (wf_delete_student st st' id r)|]. split; [|split].
  - unfold student_ids at 1. rewrite Hs, fmap_app, fmap_take, fmap_drop.
    fold (student_ids st). intros Hin.
    apply (elem_of_remove_NoDup _ _ id) in Hin as [_ Hne]; [done|by destruct Hwf|].
    unfold student_ids. rewrite list_lookup_fmap, Hls. simpl. by rewrite Hsid.
  - pose proof (live_length (students st') (student_count st')) as Hl'.
    pose proof (live_length (students st) (student_count st)) as Hl.
    fold (live_students st') in Hl'. fold (live_students st) in Hl.
    rewrite Hs, length_app, length_take, length_drop in Hl'.
    destruct Hb, Hb'. lia.
  - exists (take r (live_students st)), s, (drop (S r) (live_students st)).
    split; [by rewrite take_drop_middle|done].
Qed.

(** X8. Deleting a stored student twice: the first [delete_student] takes
    the student out and lowers [student_count] by one; the second answers
    "Student not found" and changes nothing. *)
Theorem delete_student_twice st id :
  wf st -> id ∈ student_ids st ->
  exists st',
    delete_student st id = Ok (st', "Student: " +:+ fmt_d id +:+ " deleted" +:+ nl) /\
    student_count st' = student_count st - 1 /\
    delete_student st' id = Ok (st', "Student not found" +:+ nl).
Proof.
  intros Hwf Hid.
  destruct (delete_student_gone st id Hwf Hid) as (st' & Hrun & Hwf' & Hgone & Hc & _).
  exists st'. split; [done|]. split; [done|].
  apply delete_student_absent; [by apply wf_bounds|done].
Qed.

Lemma delete_student_twice_witness :
  exists st',
    delete_student st_grade 1 = Ok (st', "Student: 1 deleted" +:+ nl) /\
    student_count st' = student_count st_grade - 1 /\
    delete_student st' 1 = Ok (st', "Student not found" +:+ nl).
Proof.
  apply (delete_student_twice st_grade 1 wf_st_grade).
  vm_compute. apply list_elem_of_here.
Defined.

(** X9. [delete_student] frees a cell: after it has deleted a student, an
    [add_student] whose arguments pass the tests succeeds, for the deleted id
    as for any other id that is not stored, and puts the new student after
    the remaining ones. *)
Theorem delete_then_add st id :
  wf st -> id ∈ student_ids st ->
  exists st',
    delete_student st id = Ok (st', "Student: " +:+ fmt_d id +:+ " deleted" +:+ nl) /\
    (id ∉ student_ids st') /\
    forall id' name faculty,
      id' ∉ student_ids st' -> strlen name < MAX_NAME_LENGTH ->
      valid_faculty faculty = true -> all_alpha name = true ->
      exists st'',
        add_student st' id' name faculty =
          Ok (st'', "Student: " +:+ fmt_d id' +:+ " added" +:+ nl) /\
        live_students st'' = live_students st' ++ [mkStudent id' name faculty].
Proof.
  intros Hwf Hid. pose proof (wf_bounds _ Hwf) as Hb.
  destruct (delete_student_gone st id Hwf Hid) as (st' & Hrun & Hwf' & Hgone & Hc & _).
  exists st'. split; [done|]. split; [done|].
  intros id' name faculty Hid' Hn Hvf Hal.
  pose proof (wf_bounds _ Hwf') as Hb'.
  assert (Hfree : student_count st' < MAX_STUDENTS) by (destruct Hb; lia).
  eexists. split.
  - apply add_student_added; try done. by apply valid_faculty_length.
  - unfold live_students. simpl. destruct Hb'. by rewrite live_snoc by lia.
Qed.

Lemma delete_then_add_witness :
  exists st',
    delete_student st_john 1 = Ok (st', "Student: 1 deleted" +:+ nl) /\
    exists st'',
      add_student st' 1 "Jane" "CyberSecurity" = Ok (st'', "Student: 1 added" +:+ nl) /\
      live_students st'' = live_students st' ++ [mkStudent 1 "Jane" "CyberSecurity"].
Proof.
  destruct (delete_then_add st_john 1 wf_st_john) as (st' & Hdel & Hgone & Hadd).
  - vm_compute. apply list_elem_of_here.
  - exists st'. split; [exact Hdel|].
    apply (Hadd 1 "Jane" "CyberSecurity" Hgone); vm_compute; reflexivity.
Defined.

Lemma list_all_students_loop_eq st fuel : forall i out,
  0 <= i -> student_count st <= Z.of_nat (length (students st)) ->
  (Z.to_nat (student_count st - i) <= fuel)%nat ->
  list_all_students_loop fuel st i out =
    Ok (st, out +:+ concat_strings
                      (student_line <$> drop (Z.to_nat i) (live_students st))).
Proof.
  induction fuel as [|fuel IH]; intros i out Hi Hn Hf;
    simpl; destruct (Z.ltb_spec i (student_count st)) as [Hlt|Hge];
    try lia;
    try (unfold live_students; rewrite drop_live_nil by lia; simpl;
         by rewrite append_nil_r).
  destruct (drop_live_cons (students st) (student_count st) i) as (s & Hs & Hd);
    [lia..|].
  unfold live_students in *. rewrite Hd, (rd_Ok _ _ s) by done. simpl.
  rewrite IH by lia. by rewrite append_assoc.
Qed.

(** X10. [list_all_students] prints one line per stored student, in storage
    order, and nothing for cells not in use; the store is returned as it
    was. *)
Theorem list_all_students_lines st :
  bounds st ->
  list_all_students st =
    Ok (st, concat_strings (student_line <$> live_students st)).
Proof.
  intros Hb. unfold list_all_students. destruct Hb.
  rewrite list_all_students_loop_eq by lia. done.
Qed.

Lemma list_all_students_lines_witness :
  list_all_students st_john =
    Ok (st_john, "ID: 1, Name: John, Faculty: ComputerScience" +:+ nl).
Proof. apply (list_all_students_lines st_john bounds_st_john). Defined.

(** ** What every reachable store holds *)

Lemma add_student_checked st id name faculty st' out :
  bounds st -> add_student st id name faculty = Ok (st', out) ->
  st' = st \/
  (student_ok (mkStudent id name faculty) /\
   student_count st < MAX_STUDENTS /\
   st' = set_students st
           (<[Z.to_nat (student_count st) := mkStudent id name faculty]> (students st))
           (student_count st + 1)).
Proof.
  intros Hb. unfold add_student. rewrite find_student_bounds by done. simpl.
  destruct (Z.eqb_spec (index_of id (student_ids st) 0) (-1)) as [Hi|Hi]; simpl;
    [|intros [= <- _]; by left].
  destruct (Z.leb_spec MAX_NAME_LENGTH (strlen name)); simpl;
    [intros [= <- _]; by left|].
  destruct (Z.leb_spec MAX_FACULTY_LENGTH (strlen faculty)); simpl;
    [intros [= <- _]; by left|].
  destruct (valid_faculty faculty) eqn:Hvf; simpl; [|intros [= <- _]; by left].
  destruct (all_alpha name) eqn:Hal; simpl; [|intros [= <- _]; by left].
  unfold strcpy. destruct (strlen name <? _); [|done].
  destruct (strlen faculty <? _); [|done]. simpl.
  destruct (wr _ _ _) as [a| |] eqn:Hw; [|done..]. simpl.
  apply wr_inv in Hw as [Hr ->]. intros [= <- _]. right.
  destruct Hb. split; [done|]. split; [lia|done].
Qed.

Lemma add_exam_checked st id type info st' out :
  bounds st -> add_exam st id type info = Ok (st', out) ->
  st' = st \/
  (exam_ok (mkExam id type info) /\ exam_count st < MAX_EXAMS /\
   st' = set_exams st
           (<[Z.to_nat (exam_count st) := mkExam id type info]> (exams st))
           (exam_count st + 1)).
Proof.
  intros Hb. unfold add_exam. rewrite find_exam_bounds by done. simpl.
  destruct (Z.eqb_spec (index_of id (exam_ids st) 0) (-1)) as [Hi|Hi]; simpl;
    [|intros [= <- _]; by left].
  destruct (Z.leb_spec MAX_TYPE_LENGTH (strlen type)); simpl;
    [intros [= <- _]; by left|].
  destruct (Z.leb_spec MAX_NAME_LENGTH (strlen info)); simpl;
    [intros [= <- _]; by left|].
  unfold strcpy. destruct (strlen type <? _); [|done].
  destruct (strlen info <? _); [|done]. simpl.
  destruct (wr _ _ _) as [a| |] eqn:Hw; [|done..]. simpl.
  apply wr_inv in Hw as [Hr ->]. intros [= <- _]. right.
  destruct Hb. split; [done|]. split; [lia|done].
Qed.

Lemma content_ok_init : content_ok init.
Proof. split; constructor. Qed.

(** Every operation keeps the stored records within what the tests allow. *)
Lemma exec_content_ok st o st' out :
  wf st -> content_ok st -> exec st o = Ok (st', out) -> content_ok st'.
Proof.
  intros Hwf [Hcs Hce Hcg]. pose proof (wf_bounds _ Hwf) as Hb.
  destruct o as [id name faculty|id type info|e s v|id t i|e s v|id|id|e s|];
    simpl; intros Hrun.
  - apply add_student_checked in Hrun; [|done].
    destruct Hrun as [->|(Hok & Hc & ->)]; [done|].
    split; [|done..]. unfold live_students. simpl. destruct Hb.
    rewrite live_snoc by lia. apply Forall_app. split; [done|]. by apply Forall_singleton.
  - apply add_exam_checked in Hrun; [|done].
    destruct Hrun as [->|(Hok & Hc & ->)]; [done|].
    split; [done| |done]. unfold live_exams. simpl. destruct Hb.
    rewrite live_snoc by lia. apply Forall_app. split; [done|]. by apply Forall_singleton.
  - apply add_grade_inv in Hrun; [|done].
    destruct Hrun as [->|(Hv & Hs & He & Hc & ->)]; [done|].
    split; [done..|]. unfold live_grades. simpl. destruct Hb.
    rewrite live_snoc by lia. apply Forall_app. split; [done|]. by apply Forall_singleton.
  - apply update_exam_inv in Hrun; [|done].
    destruct Hrun as [->|(r & e & Hr & Hrange & He & Hid & Ht & Hi & -> & _)]; [done|].
    split; [done| |done]. unfold live_exams. simpl.
    rewrite live_insert_lt by lia. apply Forall_insert; [done|].
    split; [|done]. simpl. by destruct Ht as [-> | ->].
  - apply update_grade_inv in Hrun; [|done].
    destruct Hrun as [->|(r & g & Hr & Hg & Hm & Hv & ->)]; [done|].
    split; [done..|]. unfold live_grades. simpl.
    rewrite live_insert_lt by lia. by apply Forall_insert.
  - destruct (decide (id ∈ student_ids st)) as [Hid|Hid].
    + destruct (delete_student_present st id Hb Hid)
        as (st1 & r & Hrun1 & Hb1 & Hr & Hs & Hg & He & Hec).
      rewrite Hrun1 in Hrun. injection Hrun as <- <-. split.
      * rewrite Hs. apply Forall_app. split; [by apply Forall_take|by apply Forall_drop].
      * unfold live_exams. by rewrite He, Hec.
      * rewrite Hg. apply Forall_forall. intros x Hx.
        apply list_elem_of_filter in Hx as [_ Hx].
        rewrite Forall_forall in Hcg. by apply Hcg.
    + rewrite delete_student_absent in Hrun by done. by injection Hrun as <- <-.
  - by apply search_student_inv in Hrun as ->.
  - by apply search_grade_inv in Hrun as ->.
  - by apply list_all_students_inv in Hrun as ->.
Qed.

Lemma reachable_content_ok st : reachable st -> content_ok st.
Proof.
  induction 1 as [|st o st' out Hre IH Hrun]; [apply content_ok_init|].
  apply (exec_content_ok st o st' out); [by apply reachable_wf|done..].
Qed.

(** X11. In every store reached from the empty one by the operations, each
    stored grade has a value in [0,100], each stored student has a name of
    letters only that fits its buffer and one of the six faculties, and
    each stored exam has a type and an info that fit their buffers. *)
Theorem reachable_contents st :
  reachable st ->
  (forall g, g ∈ live_grades st -> 0 <= g_grade g <= 100) /\
  (forall s, s ∈ live_students st ->
     strlen (s_name s) < MAX_NAME_LENGTH /\ all_alpha (s_name s) = true /\
     valid_faculty (s_faculty s) = true /\ strlen (s_faculty s) < MAX_FACULTY_LENGTH) /\
  (forall e, e ∈ live_exams st ->
     strlen (e_type e) < MAX_TYPE_LENGTH /\ strlen (e_info e) < MAX_NAME_LENGTH).
Proof.
  intros Hre. destruct (reachable_content_ok st Hre) as [Hcs Hce Hcg].
  rewrite Forall_forall in Hcs. rewrite Forall_forall in Hce.
  rewrite Forall_forall in Hcg.
  split; [|split].
  - intros g Hg. by apply Hcg.
  - intros s Hs. destruct (Hcs s Hs) as (Hn & Hal & Hvf).
    split; [done|]. split; [done|]. split; [done|]. by apply valid_faculty_length.
  - intros e He. by apply Hce.
Qed.

Lemma reachable_contents_witness :
  (forall g, g ∈ live_grades st_grade -> 0 <= g_grade g <= 100) /\
  (forall s, s ∈ live_students st_grade -> all_alpha (s_name s) = true).
Proof.
  destruct (reachable_contents st_grade reachable_st_grade) as (Hg & Hs & _).
  split; [exact Hg|]. intros s Hin. apply (Hs s Hin).
Defined.

(** X12. In every store reached from the empty one by the operations, no
    two stored students have the same id, no two stored exams have the same
    id, and the three counts lie between zero and the sizes of their
    arrays. *)
Theorem reachable_unique_ids st :
  reachable st ->
  NoDup (s_id <$> live_students st) /\ NoDup (e_id <$> live_exams st) /\
  0 <= student_count st <= MAX_STUDENTS /\ 0 <= exam_count st <= MAX_EXAMS /\
  0 <= grade_count st <= MAX_GRADES.
Proof.
  intros Hre. destruct (reachable_wf st Hre) as [Hb Hs He _ _].
  destruct Hb. split; [exact Hs|]. split; [exact He|]. split; [done|]. split; done.
Qed.

Lemma reachable_unique_ids_witness :
  NoDup (s_id <$> live_students st_grade) /\ NoDup (e_id <$> live_exams st_grade) /\
  0 <= student_count st_grade <= MAX_STUDENTS /\ 0 <= exam_count st_grade <= MAX_EXAMS /\
  0 <= grade_count st_grade <= MAX_GRADES.
Proof. apply (reachable_unique_ids st_grade reachable_st_grade). Defined.

(** ** Runs of [main] *)

Lemma continue_inv r st' o :
  continue r = Ok (Continue st' o) -> r = Ok (st', o).
Proof. destruct r as [[st out]| |]; simpl; [|done..]. by intros [= -> ->]. Qed.

(** A line that does not stop the loop leaves the store alone or runs one
    operation of the Record Store on it. *)
Lemma process_line_step st command st' o :
  process_line st command = Ok (Continue st' o) ->
  st' = st \/ exists op, exec st op = Ok (st', o).
Proof.
  unfold process_line.
  destruct (sscanf fmt_cmd command) as [vs| |]; simpl; [|done..].
  destruct vs as [|[z|cmd] [|v vs]]; try done.
  unfold streq. repeat case_bool_decide; try done;
    try (intros [= <- _]; by left);
    try (intros Hc; apply continue_inv in Hc; right; by exists ListAllStudents);
    match goal with
    | |- context [sscanf ?f command] => destruct (sscanf f command) as [ws| |]
    end; simpl; try done;
    repeat case_match; try done; try (intros [= <- _]; by left);
    intros Hc; apply continue_inv in Hc; right.
  - by eexists (AddStudent _ _ _).
  - by eexists (AddExam _ _ _).
  - by eexists (AddGrade _ _ _).
  - by eexists (UpdateExam _ _ _).
  - by eexists (UpdateGrade _ _ _).
  - by eexists (DeleteStudent _).
  - by eexists (SearchStudent _).
  - by eexists (SearchGrade _ _).
Qed.

Lemma run_lines_reachable ls : forall st out st' out',
  reachable st -> run_lines st out ls = Ok (st', out') -> reachable st'.
Proof.
  induction ls as [|l ls IH]; intros st out st' out' Hre; simpl.
  - by intros [= <- _].
  - destruct (process_line st (c_str l)) as [[st1 o|]| |] eqn:Hl; simpl; try done.
    + apply IH. apply process_line_step in Hl as [->|[op Hop]]; [done|].
      by apply (reach_step st op st1 o).
    + by intros [= <- _].
Qed.

(** X13. Whatever the input, the globals [main] ends with are a store
    reached from the empty one by operations of the Record Store: the
    interpreter changes the store in no other way, so a run keeps the
    invariants of the data model. *)
Theorem main_reachable input st out :
  main input = Ok (st, out) -> reachable st /\ wf st /\ content_ok st.
Proof.
  intros Hmain. rewrite main_run_lines in Hmain.
  assert (Hre : reachable st)
    by (by apply (run_lines_reachable (input_lines input) init "" st out reach_init)).
  split; [done|]. split; [by apply reachable_wf|by apply reachable_content_ok].
Qed.

Lemma main_reachable_witness :
  reachable st_john /\ wf st_john /\ content_ok st_john.
Proof.
  apply (main_reachable (lines ["ADD_STUDENT 1 John ComputerScience"; "FOO"; "END"])
           st_john ("Student: 1 added" +:+ nl +:+ "Unknown command: FOO" +:+ nl)).
  vm_compute. reflexivity.
Defined.

(** X14. When the input has no END line and every line is answered, the
    loop of [main] ends at the end of the input: every line has been run in
    order and [output] holds all the answers, one after the other. *)
Theorem all_lines_answered input st' outs :
  responds init (input_lines input) st' outs ->
  main input = Ok (st', concat_strings outs).
Proof.
  intros Hr. rewrite main_run_lines.
  by rewrite (responds_run_lines _ _ _ _ Hr).
Qed.

Lemma all_lines_answered_witness :
  main (lines ["ADD_STUDENT 1 John ComputerScience"] +:+ "LIST_ALL_STUDENTS")
  = Ok (st_john, "Student: 1 added" +:+ nl
                   +:+ "ID: 1, Name: John, Faculty: ComputerScience" +:+ nl).
Proof.
  apply (all_lines_answered
           (lines ["ADD_STUDENT 1 John ComputerScience"] +:+ "LIST_ALL_STUDENTS")
           st_john
           ["Student: 1 added" +:+ nl;
            "ID: 1, Name: John, Faculty: ComputerScience" +:+ nl]).
  change (input_lines (lines ["ADD_STUDENT 1 John ComputerScience"] +:+ "LIST_ALL_STUDENTS"))
    with ["ADD_STUDENT 1 John ComputerScience" +:+ nl; "LIST_ALL_STUDENTS"].
  eapply responds_cons; [vm_compute; reflexivity|].
  eapply responds_cons; [vm_compute; reflexivity|]. apply responds_nil.
Defined.

Lemma fgets_chars_split n : forall input command rest,
  fgets_chars n input = (command, rest) ->
  input = command +:+ rest /\ (String.length command <= n)%nat /\
  forall a b, command = a +:+ nl +:+ b -> b = "".
Proof.
  induction n as [|n IH]; intros input command rest.
  - simpl. intros [= <- <-]. split; [done|]. split; [done|].
    intros [|c a] b Hab; discriminate Hab.
  - destruct input as [|c input]; cbn [fgets_chars].
    { intros [= <- <-]. split; [done|]. split; [simpl; lia|].
      intros [|c a] b Hab; discriminate Hab. }
    destruct (Ascii.eqb_spec c (ascii_of_nat 10)) as [->|Hc].
    + intros [= <- <-]. split; [done|]. split; [simpl; lia|].
      intros [|c a] b Hab.
      * change ("" +:+ nl +:+ b) with (String (ascii_of_nat 10) b) in Hab.
        by injection Hab as <-.
      * change (String c a +:+ nl +:+ b) with (String c (a +:+ nl +:+ b)) in Hab.
        injection Hab as _ Hab. destruct a; discriminate Hab.
    + destruct (fgets_chars n input) as [l r] eqn:Hf. intros [= <- <-].
      destruct (IH _ _ _ Hf) as (Hin & Hlen & Hnl).
      split; [by rewrite Hin|]. split; [simpl; lia|].
      intros [|c' a] b Hab.
      * change ("" +:+ nl +:+ b) with (String (ascii_of_nat 10) b) in Hab.
        injection Hab as Hc' _. done.
      * change (String c' a +:+ nl +:+ b) with (String c' (a +:+ nl +:+ b)) in Hab.
        injection Hab as _ Hab. by apply (Hnl a b).
Qed.

Lemma read_lines_split fuel : forall input,
  (String.length input <= fuel)%nat ->
  concat_strings (read_lines fuel input) = input /\
  Forall (fun l => l <> "" /\ strlen l < MAX_COMMAND_LENGTH /\
                   forall a b, l = a +:+ nl +:+ b -> b = "")
         (read_lines fuel input).
Proof.
  induction fuel as [|fuel IH]; intros input Hlen.
  - destruct input; [|simpl in Hlen; lia]. split; [done|constructor].
  - cbn [read_lines].
    destruct (fgets MAX_COMMAND_LENGTH input) as [[command rest]|] eqn:Hf.
    + pose proof (fgets_shorter _ _ _ Hf) as Hshort.
      unfold fgets in Hf. destruct input as [|c input]; [done|].
      assert (Hf' : fgets_chars (Z.to_nat (MAX_COMMAND_LENGTH - 1)) (String c input)
                    = (command, rest)) by congruence.
      pose proof (fgets_chars_split _ _ _ _ Hf') as (Hin & Hn & Hnl).
      destruct (IH rest ltac:(lia)) as (Hcat & Hall).
      split.
      * change (concat_strings (command :: read_lines fuel rest))
          with (command +:+ concat_strings (read_lines fuel rest)).
        by rewrite Hcat.
      * constructor; [|done]. split; [|split; [|done]].
        -- intros ->. change ("" +:+ rest) with rest in Hin.
           rewrite <- Hin in Hshort. lia.
        -- unfold strlen. change (Z.to_nat (MAX_COMMAND_LENGTH - 1)) with 255%nat in Hn.
           unfold MAX_COMMAND_LENGTH. lia.
    + unfold fgets in Hf. destruct input; [|done]. split; [done|constructor].
Qed.

(** X15. The lines [main] reads with [fgets] cut the input into pieces and
    lose nothing: put together again they are the input; none is empty,
    none has more than 255 characters, and a newline is nowhere in a line
    but at its end. *)
Theorem input_lines_partition input :
  concat_strings (input_lines input) = input /\
  Forall (fun l => l <> "" /\ strlen l < MAX_COMMAND_LENGTH /\
                   forall a b, l = a +:+ nl +:+ b -> b = "")
         (input_lines input).
Proof. apply read_lines_split. lia. Qed.

(** ** Reading command lines *)

Lemma append_cons c (s r : string) : String c s +:+ r = String c (s +:+ r).
Proof. reflexivity. Qed.

Lemma isspace_not_digit c : isspace c = true -> digit_of c = None.
Proof.
  unfold isspace, digit_of. intros Hsp.
  destruct (Z.leb_spec 48 (Z.of_nat (nat_of_ascii c))); [|done].
  destruct (Z.leb_spec (Z.of_nat (nat_of_ascii c)) 57); [|done].
  apply orb_prop in Hsp as [Hsp|Hsp]; [apply Z.eqb_eq in Hsp; lia|].
  apply andb_prop in Hsp as [_ Hsp]. apply Z.leb_le in Hsp. lia.
Qed.

Lemma scan_digits_end rest acc :
  ends_arg rest -> scan_digits rest acc true = Some (acc, rest).
Proof.
  destruct rest as [|c rest]; [done|]. simpl. intros Hc.
  by rewrite (isspace_not_digit _ Hc).
Qed.

(** [scan_digits] reads back the digits of a decimal number. *)
Lemma scan_digits_uint d : forall rest acc seen,
  ends_arg rest -> d <> Decimal.Nil \/ seen = true ->
  scan_digits (NilEmpty.string_of_uint d +:+ rest) acc seen = Some (uint_val d acc, rest).
Proof.
  induction d as [|d IH|d IH|d IH|d IH|d IH|d IH|d IH|d IH|d IH|d IH];
    intros rest acc seen Hrest Hd.
  { destruct Hd as [Hd|Hd]; [done|]. subst seen. by apply scan_digits_end. }
  all: cbn [NilEmpty.string_of_uint uint_val]; rewrite append_cons; cbn [scan_digits];
    match goal with
    | |- context [digit_of ?c] =>
        let v := eval vm_compute in (digit_of c) in change (digit_of c) with v
    end; cbn iota; apply IH; auto.
Qed.

Lemma uint_val_pos d : forall acc : positive,
  uint_val d (Z.pos acc) = Z.pos (Pos.of_uint_acc d acc).
Proof.
  induction d as [|d IH|d IH|d IH|d IH|d IH|d IH|d IH|d IH|d IH|d IH];
    intros acc; cbn [uint_val Pos.of_uint_acc]; [done|..];
    rewrite <- IH; f_equal; lia.
Qed.

Lemma uint_val_0 d : uint_val d 0 = Z.of_N (Pos.of_uint d).
Proof.
  induction d as [|d IH|d IH|d IH|d IH|d IH|d IH|d IH|d IH|d IH|d IH];
    cbn [uint_val Pos.of_uint Z.of_N]; [done|exact IH|..];
    rewrite <- uint_val_pos; f_equal.
Qed.

Lemma uint_val_to_uint p : uint_val (Pos.to_uint p) 0 = Z.pos p.
Proof. by rewrite uint_val_0, DecimalPos.Unsigned.of_to. Qed.

Lemma string_of_to_uint p :
  NilZero.string_of_uint (Pos.to_uint p) = NilEmpty.string_of_uint (Pos.to_uint p).
Proof.
  pose proof (DecimalPos.Unsigned.to_uint_nonnil p).
  by destruct (Pos.to_uint p).
Qed.

(** The first character of a number written with [%d] is a digit or the
    minus sign. *)
Lemma fmt_d_head z :
  exists c s, fmt_d z = String c s /\ isspace c = false /\
              (c = "-"%char \/ exists v, digit_of c = Some v) /\
              (z < 0 -> c = "-"%char) /\ (0 <= z -> c <> "-"%char /\ c <> "+"%char).
Proof.
  unfold fmt_d. destruct z as [|p|p]; cbn [Z.to_int NilZero.string_of_int].
  - exists "0"%char, "". repeat split; try done; try lia. right. by eexists.
  - rewrite string_of_to_uint. pose proof (DecimalPos.Unsigned.to_uint_nonnil p).
    destruct (Pos.to_uint p); [done|..]; cbn [NilEmpty.string_of_uint];
      eexists _, _; (split; [reflexivity|]); (split; [reflexivity|]);
      (split; [right; by eexists|]); (split; [lia|]); done.
  - exists "-"%char, (NilZero.string_of_uint (Pos.to_uint p)).
    repeat split; try done; try lia. by left.
Qed.

(** [%d] of [sscanf] reads back what [%d] of [fprintf] writes. *)
Lemma scan_int_fmt_d z rest :
  ends_arg rest -> scan_int (fmt_d z +:+ rest) = Some (z, rest).
Proof.
  intros Hrest. unfold fmt_d. destruct z as [|p|p]; cbn [Z.to_int NilZero.string_of_int].
  - change (NilZero.string_of_uint (Decimal.D0 Decimal.Nil) +:+ rest)
      with (String "0" rest).
    unfold scan_int. cbn [scan_digits].
    change (digit_of "0") with (Some 0). cbn iota. by rewrite scan_digits_end.
  - rewrite string_of_to_uint. pose proof (DecimalPos.Unsigned.to_uint_nonnil p) as Hnn.
    pose proof (uint_val_to_uint p) as Hval.
    assert (Hscan : scan_digits (NilEmpty.string_of_uint (Pos.to_uint p) +:+ rest) 0 false
                    = Some (Z.pos p, rest)).
    { rewrite scan_digits_uint by auto. by rewrite Hval. }
    destruct (Pos.to_uint p); [done|..];
      cbn [NilEmpty.string_of_uint] in *; rewrite append_cons in *;
      unfold scan_int; exact Hscan.
  - rewrite append_cons, string_of_to_uint. unfold scan_int.
    rewrite scan_digits_uint
      by (auto || (left; apply DecimalPos.Unsigned.to_uint_nonnil)).
    by rewrite uint_val_to_uint.
Qed.

Lemma skip_space_fmt_d z rest : skip_space (fmt_d z +:+ rest) = fmt_d z +:+ rest.
Proof.
  destruct (fmt_d_head z) as (c & s & -> & Hc & _).
  rewrite append_cons. simpl. by rewrite Hc.
Qed.

Lemma skip_space_word w rest : is_word w -> skip_space (w +:+ rest) = w +:+ rest.
Proof.
  intros [Hne Hns]. destruct w as [|c w]; [done|]. simpl in Hns.
  apply andb_prop in Hns as [Hc _]. apply negb_true_iff in Hc.
  rewrite append_cons. simpl. by rewrite Hc.
Qed.

Lemma scan_word_end rest : ends_arg rest -> scan_word rest = ("", rest).
Proof. destruct rest as [|c rest]; [done|]. simpl. by intros ->. Qed.

Lemma scan_word_no_space w : forall rest,
  no_space w = true -> ends_arg rest -> scan_word (w +:+ rest) = (w, rest).
Proof.
  induction w as [|c w IH]; intros rest Hns Hrest.
  - by apply scan_word_end.
  - simpl in Hns. apply andb_prop in Hns as [Hc Hns]. apply negb_true_iff in Hc.
    rewrite append_cons. cbn [scan_word]. rewrite Hc, IH by done. done.
Qed.

Lemma ends_arg_space rest : ends_arg (" " +:+ rest).
Proof. reflexivity. Qed.

(** The verb of a line, read by [%s] and skipped by [%*s]. *)
Lemma sscanf_verb verb rest fmt :
  is_word verb -> ends_arg rest ->
  sscanf (FSkip :: fmt) (verb +:+ rest) = sscanf fmt rest.
Proof.
  intros Hw Hrest. unfold sscanf; fold sscanf.
  rewrite skip_space_word, scan_word_no_space by (done || apply Hw).
  destruct Hw as [Hne _]. by destruct verb.
Qed.

Lemma command_word_verb verb rest :
  is_word verb -> strlen verb < 30 -> ends_arg rest ->
  command_word (verb +:+ rest) = Ok verb.
Proof.
  intros Hw Hlen Hrest. unfold command_word, fmt_cmd. unfold sscanf.
  rewrite skip_space_word, scan_word_no_space by (done || apply Hw).
  destruct Hw as [Hne _]. destruct verb as [|c verb]; [done|].
  destruct (Z.ltb_spec (strlen (String c verb)) 30); [done|lia].
Qed.

(** An integer argument, after one space. *)
Lemma sscanf_int_arg z rest fmt :
  is_int z -> ends_arg rest ->
  sscanf (FSpace :: FInt :: fmt) (" " +:+ fmt_d z +:+ rest) =
    (vs ← sscanf fmt rest; Ok (VInt z :: vs)).
Proof.
  intros [Hlo Hhi] Hrest. unfold sscanf; fold sscanf.
  change (skip_space (" " +:+ fmt_d z +:+ rest)) with (skip_space (fmt_d z +:+ rest)).
  rewrite !skip_space_fmt_d, scan_int_fmt_d by done.
  destruct (Z.leb_spec INT_MIN z); [|lia]. destruct (Z.leb_spec z INT_MAX); [|lia]. done.
Qed.

(** A word argument, after one space. *)
Lemma sscanf_word_arg w cap rest fmt :
  is_word w -> strlen w < cap -> ends_arg rest ->
  sscanf (FSpace :: FStr cap :: fmt) (" " +:+ w +:+ rest) =
    (vs ← sscanf fmt rest; Ok (VStr w :: vs)).
Proof.
  intros Hw Hlen Hrest. unfold sscanf; fold sscanf.
  change (skip_space (" " +:+ w +:+ rest)) with (skip_space (w +:+ rest)).
  rewrite !skip_space_word, scan_word_no_space by (done || apply Hw).
  destruct Hw as [Hne _]. destruct w as [|c w]; [done|].
  destruct (Z.ltb_spec (strlen (String c w)) cap); [done|lia].
Qed.

Lemma sscanf_cmd_verb verb rest :
  is_word verb -> strlen verb < 30 -> ends_arg rest ->
  sscanf fmt_cmd (verb +:+ rest) = Ok [VStr verb].
Proof.
  intros Hw Hlen Hrest. unfold fmt_cmd, sscanf.
  rewrite skip_space_word, scan_word_no_space by (done || apply Hw).
  destruct Hw as [Hne _]. destruct verb as [|c verb]; [done|].
  destruct (Z.ltb_spec (strlen (String c verb)) 30); [done|lia].
Qed.

Ltac scan_args :=
  repeat first
    [ rewrite sscanf_verb by (done || apply ends_arg_space)
    | rewrite sscanf_int_arg by (done || apply ends_arg_space)
    | rewrite sscanf_word_arg by (done || apply ends_arg_space) ];
  unfold sscanf; simpl.

(** X16. A line made of ADD_GRADE, UPDATE_GRADE, SEARCH_GRADE,
    DELETE_STUDENT or SEARCH_STUDENT and, after single spaces, as many
    [int] numbers in decimal as the command takes runs the operation on
    these numbers; what follows the last number after white space, the
    newline included, is ignored. *)
Theorem int_commands_dispatch st (a b c : Z) rest :
  is_int a -> is_int b -> is_int c -> ends_arg rest ->
  process_line st ("ADD_GRADE " +:+ fmt_d a +:+ " " +:+ fmt_d b +:+ " " +:+ fmt_d c +:+ rest)
    = continue (add_grade st a b c) /\
  process_line st ("UPDATE_GRADE " +:+ fmt_d a +:+ " " +:+ fmt_d b +:+ " " +:+ fmt_d c
                     +:+ rest)
    = continue (update_grade st a b c) /\
  process_line st ("SEARCH_GRADE " +:+ fmt_d a +:+ " " +:+ fmt_d b +:+ rest)
    = continue (search_grade st a b) /\
  process_line st ("DELETE_STUDENT " +:+ fmt_d a +:+ rest)
    = continue (delete_student st a) /\
  process_line st ("SEARCH_STUDENT " +:+ fmt_d a +:+ rest)
    = continue (search_student st a).
Proof.
  intros Ha Hb Hc Hrest.
  repeat split; unfold process_line.
  - change ("ADD_GRADE " +:+ fmt_d a +:+ " " +:+ fmt_d b +:+ " " +:+ fmt_d c +:+ rest)
      with ("ADD_GRADE" +:+ " " +:+ fmt_d a +:+ " " +:+ fmt_d b +:+ " " +:+ fmt_d c +:+ rest).
    rewrite sscanf_cmd_verb by (done || apply ends_arg_space). simpl. streq_decide.
    unfold fmt_int3. scan_args. done.
  - change ("UPDATE_GRADE " +:+ fmt_d a +:+ " " +:+ fmt_d b +:+ " " +:+ fmt_d c +:+ rest)
      with ("UPDATE_GRADE" +:+ " " +:+ fmt_d a +:+ " " +:+ fmt_d b +:+ " " +:+ fmt_d c
              +:+ rest).
    rewrite sscanf_cmd_verb by (done || apply ends_arg_space). simpl. streq_decide.
    unfold fmt_int3. scan_args. done.
  - change ("SEARCH_GRADE " +:+ fmt_d a +:+ " " +:+ fmt_d b +:+ rest)
      with ("SEARCH_GRADE" +:+ " " +:+ fmt_d a +:+ " " +:+ fmt_d b +:+ rest).
    rewrite sscanf_cmd_verb by (done || apply ends_arg_space). simpl. streq_decide.
    unfold fmt_int2. scan_args. done.
  - change ("DELETE_STUDENT " +:+ fmt_d a +:+ rest)
      with ("DELETE_STUDENT" +:+ " " +:+ fmt_d a +:+ rest).
    rewrite sscanf_cmd_verb by (done || apply ends_arg_space). simpl. streq_decide.
    unfold fmt_int1. scan_args. done.
  - change ("SEARCH_STUDENT " +:+ fmt_d a +:+ rest)
      with ("SEARCH_STUDENT" +:+ " " +:+ fmt_d a +:+ rest).
    rewrite sscanf_cmd_verb by (done || apply ends_arg_space). simpl. streq_decide.
    unfold fmt_int1. scan_args. done.
Qed.

Lemma int_commands_dispatch_witness :
  process_line st_exam ("ADD_GRADE 10 1 85" +:+ nl)
    = continue (add_grade st_exam 10 1 85) /\
  process_line st_exam ("DELETE_STUDENT 10 and the rest")
    = continue (delete_student st_exam 10).
Proof.
  assert (Hi : forall z, -100 <= z <= 100 -> is_int z).
  { intros z Hz. unfold is_int, INT_MIN, INT_MAX. lia. }
  split.
  - apply (int_commands_dispatch st_exam 10 1 85 nl); try (apply Hi; lia). reflexivity.
  - apply (int_commands_dispatch st_exam 10 1 85 " and the rest");
      try (apply Hi; lia). reflexivity.
Defined.

(** X17. A line made of ADD_STUDENT, ADD_EXAM or UPDATE_EXAM and, after
    single spaces, an [int] number in decimal and two words that fit their
    buffers runs the operation on the number and the two words; what
    follows the second word after white space is ignored. *)
Theorem word_commands_dispatch st (id : Z) (w1 w2 : string) rest :
  is_int id -> is_word w1 -> is_word w2 -> ends_arg rest ->
  (strlen w1 < MAX_NAME_LENGTH -> strlen w2 < MAX_FACULTY_LENGTH ->
   process_line st ("ADD_STUDENT " +:+ fmt_d id +:+ " " +:+ w1 +:+ " " +:+ w2 +:+ rest)
     = continue (add_student st id w1 w2)) /\
  (strlen w1 < MAX_TYPE_LENGTH -> strlen w2 < MAX_NAME_LENGTH ->
   process_line st ("ADD_EXAM " +:+ fmt_d id +:+ " " +:+ w1 +:+ " " +:+ w2 +:+ rest)
     = continue (add_exam st id w1 w2) /\
   process_line st ("UPDATE_EXAM " +:+ fmt_d id +:+ " " +:+ w1 +:+ " " +:+ w2 +:+ rest)
     = continue (update_exam st id w1 w2)).
Proof.
  intros Hid Hw1 Hw2 Hrest.
  split; [intros Hl1 Hl2|intros Hl1 Hl2; split]; unfold process_line.
  - change ("ADD_STUDENT " +:+ fmt_d id +:+ " " +:+ w1 +:+ " " +:+ w2 +:+ rest)
      with ("ADD_STUDENT" +:+ " " +:+ fmt_d id +:+ " " +:+ w1 +:+ " " +:+ w2 +:+ rest).
    rewrite sscanf_cmd_verb by (done || apply ends_arg_space). simpl. streq_decide.
    unfold fmt_student. scan_args. done.
  - change ("ADD_EXAM " +:+ fmt_d id +:+ " " +:+ w1 +:+ " " +:+ w2 +:+ rest)
      with ("ADD_EXAM" +:+ " " +:+ fmt_d id +:+ " " +:+ w1 +:+ " " +:+ w2 +:+ rest).
    rewrite sscanf_cmd_verb by (done || apply ends_arg_space). simpl. streq_decide.
    unfold fmt_exam. scan_args. done.
  - change ("UPDATE_EXAM " +:+ fmt_d id +:+ " " +:+ w1 +:+ " " +:+ w2 +:+ rest)
      with ("UPDATE_EXAM" +:+ " " +:+ fmt_d id +:+ " " +:+ w1 +:+ " " +:+ w2 +:+ rest).
    rewrite sscanf_cmd_verb by (done || apply ends_arg_space). simpl. streq_decide.
    unfold fmt_exam. scan_args. done.
Qed.

Lemma word_commands_dispatch_witness :
  process_line init ("ADD_STUDENT 1 John ComputerScience" +:+ nl)
    = continue (add_student init 1 "John" "ComputerScience") /\
  process_line init ("ADD_EXAM -3 ORAL Retake" +:+ nl)
    = continue (add_exam init (-3) "ORAL" "Retake").
Proof.
  assert (Hi : forall z, -100 <= z <= 100 -> is_int z).
  { intros z Hz. unfold is_int, INT_MIN, INT_MAX. lia. }
  split.
  - apply (proj1 (word_commands_dispatch init 1 "John" "ComputerScience" nl
                    (Hi 1 ltac:(lia)) ltac:(by split) ltac:(by split) eq_refl));
      vm_compute; reflexivity.
  - apply (proj2 (word_commands_dispatch init (-3) "ORAL" "Retake" nl
                    (Hi (-3) ltac:(lia)) ltac:(by split) ltac:(by split) eq_refl));
      vm_compute; reflexivity.
Defined.

Lemma skip_space_all ws : forall s,
  all_space ws = true -> skip_space (ws +:+ s) = skip_space s.
Proof.
  induction ws as [|c ws IH]; intros s Hws; [done|].
  simpl in Hws. apply andb_prop in Hws as [Hc Hws].
  rewrite append_cons. cbn [skip_space]. rewrite Hc. by apply IH.
Qed.

Lemma sscanf_cmd_indented ws verb rest :
  all_space ws = true -> is_word verb -> strlen verb < 30 -> ends_arg rest ->
  sscanf fmt_cmd (ws +:+ verb +:+ rest) = Ok [VStr verb].
Proof.
  intros Hws Hw Hlen Hrest.
  pose proof (sscanf_cmd_verb verb rest Hw Hlen Hrest) as Hv.
  unfold fmt_cmd, sscanf in *. by rewrite skip_space_all.
Qed.

(** X18. White space before the first word of a line is skipped, and for
    the two commands without arguments the rest of the line is not looked
    at: a line whose first word is END stops the loop and a line whose first
    word is LIST_ALL_STUDENTS lists the students, whatever follows the word
    after white space. *)
Theorem bare_commands_dispatch st ws rest :
  all_space ws = true -> ends_arg rest ->
  process_line st (ws +:+ "END" +:+ rest) = Ok Break /\
  process_line st (ws +:+ "LIST_ALL_STUDENTS" +:+ rest) = continue (list_all_students st).
Proof.
  intros Hws Hrest. split; unfold process_line;
    rewrite sscanf_cmd_indented by done; simpl; streq_decide; done.
Qed.

Lemma bare_commands_dispatch_witness :
  process_line st_john ("  END of the commands" +:+ nl) = Ok Break /\
  process_line st_john ("  LIST_ALL_STUDENTS now" +:+ nl)
    = continue (list_all_students st_john).
Proof.
  split.
  - apply (bare_commands_dispatch st_john "  " (" of the commands" +:+ nl)
             eq_refl eq_refl).
  - apply (bare_commands_dispatch st_john "  " (" now" +:+ nl) eq_refl eq_refl).
Defined.




(** ** Grades of other students and second grades *)

Lemma add_grade_added st e s v :
  bounds st -> 0 <= v <= 100 -> s ∈ student_ids st -> e ∈ exam_ids st ->
  grade_count st < MAX_GRADES ->
  add_grade st e s v =
    Ok (set_grades st (<[Z.to_nat (grade_count st) := mkGrade e s v]> (grades st))
          (grade_count st + 1),
        "Grade " +:+ fmt_d v +:+ " added for the student: " +:+ fmt_d s +:+ nl).
Proof.
  intros Hb Hv Hs He Hc. unfold add_grade.
  destruct (Z.ltb_spec v 0); [lia|]. destruct (Z.ltb_spec 100 v); [lia|]. simpl.
  rewrite find_student_bounds, find_exam_bounds by done. simpl.
  destruct (Z.eqb_spec (index_of s (student_ids st) 0) (-1)) as [Hi|Hi].
  { apply index_of_absent in Hi; [done|lia]. }
  destruct (Z.eqb_spec (index_of e (exam_ids st) 0) (-1)) as [Hj|Hj].
  { apply index_of_absent in Hj; [done|lia]. }
  destruct Hb. by rewrite wr_Ok by lia.
Qed.

(** X20. Deleting a student does not disturb what the searches answer for
    another student: after [delete_student id], [search_student] and
    [search_grade] for a student with another id print what they printed
    before. *)
Theorem delete_keeps_other_answers st id s e before g after :
  wf st -> id ∈ student_ids st ->
  s ∈ live_students st -> s_id s <> id -> e ∈ live_exams st ->
  live_grades st = before ++ g :: after ->
  Forall (fun g => ~ matches (e_id e) (s_id s) g) before ->
  matches (e_id e) (s_id s) g ->
  search_grade st (e_id e) (s_id s) = Ok (st, grade_line (e_id e) (s_id s) s g e) /\
  exists st',
    delete_student st id = Ok (st', "Student: " +:+ fmt_d id +:+ " deleted" +:+ nl) /\
    search_student st' (s_id s) = Ok (st', student_line s) /\
    search_grade st' (e_id e) (s_id s) = Ok (st', grade_line (e_id e) (s_id s) s g e).
Proof.
  intros Hwf Hid Hs Hne He Hlive Hbefore Hg. pose proof (wf_bounds _ Hwf) as Hb.
  split; [by apply (search_grade_found st s e before g after)|].
  destruct (delete_student_present st id Hb Hid)
    as (st' & r & Hrun & Hb' & Hr & Hls & Hlg & Hex & Hec).
  assert (Hwf' : wf st') by (by apply (wf_delete_student st st' id r)).
  assert (Hs' : s ∈ live_students st').
  { rewrite Hls.
    destruct (index_of_student st id _ Hb Hr ltac:(lia)) as (_ & y & _ & Hy & Hly).
    rewrite Nat2Z.id in Hly.
    apply (elem_of_remove_other _ _ _ y); [done..|]. intros ->. congruence. }
  exists st'. split; [done|]. split; [by apply search_student_member|].
  apply (search_grade_found st' s e (filter (other_student id) before) g
           (filter (other_student id) after)); try done.
  - unfold live_exams. by rewrite Hex, Hec.
  - rewrite Hlg, Hlive, filter_app, filter_cons_True; [done|].
    unfold other_student. destruct Hg as [_ ->]. done.
  - apply Forall_forall. intros x Hx. apply list_elem_of_filter in Hx as [_ Hx].
    rewrite Forall_forall in Hbefore. by apply Hbefore.
Qed.

Lemma wf_st_two : wf st_two.
Proof.
  apply (exec_wf st_grade (AddStudent 2 "Ann" "DataScience") _
           ("Student: 2 added" +:+ nl)); [apply wf_st_grade|].
  vm_compute. done.
Qed.

Lemma delete_keeps_other_answers_witness :
  exists st',
    delete_student st_two 2 = Ok (st', "Student: 2 deleted" +:+ nl) /\
    search_student st' 1 =
      Ok (st', "ID: 1, Name: John, Faculty: ComputerScience" +:+ nl) /\
    search_grade st' 10 1 =
      Ok (st', "Exam: 10, Student: 1, Name: John, Grade: 85, Type: WRITTEN, Info: Midterm"
                 +:+ nl).
Proof.
  apply (delete_keeps_other_answers st_two 2 (mkStudent 1 "John" "ComputerScience")
           (mkExam 10 "WRITTEN" "Midterm") [] (mkGrade 10 1 85) [] wf_st_two);
    try (vm_compute; reflexivity); try (vm_compute; apply list_elem_of_here).
  - vm_compute. apply list_elem_of_further, list_elem_of_here.
  - discriminate.
  - constructor.
  - split; reflexivity.
Defined.

(** X21. A second grade for a pair that has one is stored and never shown:
    after [add_grade] has added it, [search_grade] for the pair still prints
    the first grade. *)
Theorem second_grade_is_hidden st s e before g after value :
  wf st -> s ∈ live_students st -> e ∈ live_exams st ->
  live_grades st = before ++ g :: after ->
  Forall (fun g => ~ matches (e_id e) (s_id s) g) before ->
  matches (e_id e) (s_id s) g ->
  0 <= value <= 100 -> grade_count st < MAX_GRADES ->
  exists st',
    add_grade st (e_id e) (s_id s) value =
      Ok (st', "Grade " +:+ fmt_d value +:+ " added for the student: "
                 +:+ fmt_d (s_id s) +:+ nl) /\
    live_grades st' = before ++ g :: after ++ [mkGrade (e_id e) (s_id s) value] /\
    search_grade st' (e_id e) (s_id s) = Ok (st', grade_line (e_id e) (s_id s) s g e).
Proof.
  intros Hwf Hs He Hlive Hbefore Hg Hv Hc. pose proof (wf_bounds _ Hwf) as Hb.
  assert (Hsid : s_id s ∈ student_ids st) by (by apply list_elem_of_fmap_2).
  assert (Heid : e_id e ∈ exam_ids st) by (by apply list_elem_of_fmap_2).
  pose proof (add_grade_added st (e_id e) (s_id s) value Hb Hv Hsid Heid Hc) as Hrun.
  eexists. split; [exact Hrun|].
  assert (Hlive' : live_grades
                     (set_grades st
                        (<[Z.to_nat (grade_count st) := mkGrade (e_id e) (s_id s) value]>
                           (grades st)) (grade_count st + 1))
                   = before ++ g :: after ++ [mkGrade (e_id e) (s_id s) value]).
  { unfold live_grades. simpl. destruct Hb. rewrite live_snoc by lia.
    fold (live_grades st). rewrite Hlive, <- app_assoc. done. }
  split; [done|].
  apply (search_grade_found _ s e before g
           (after ++ [mkGrade (e_id e) (s_id s) value])); try done.
  by apply (exec_wf st (AddGrade (e_id e) (s_id s) value) _ _ Hwf Hrun).
Qed.

Lemma second_grade_is_hidden_witness :
  exists st',
    add_grade st_grade 10 1 50 =
      Ok (st', "Grade 50 added for the student: 1" +:+ nl) /\
    live_grades st' = [mkGrade 10 1 85; mkGrade 10 1 50] /\
    search_grade st' 10 1 =
      Ok (st', "Exam: 10, Student: 1, Name: John, Grade: 85, Type: WRITTEN, Info: Midterm"
                 +:+ nl).
Proof.
  apply (second_grade_is_hidden st_grade (mkStudent 1 "John" "ComputerScience")
           (mkExam 10 "WRITTEN" "Midterm") [] (mkGrade 10 1 85) [] 50 wf_st_grade);
    try (vm_compute; reflexivity); try (vm_compute; apply list_elem_of_here).
  - constructor.
  - split; reflexivity.
  - lia.
Defined.

(** ** Lines [main] cannot read *)

Lemma skip_space_blank ws : all_space ws = true -> skip_space ws = "".
Proof.
  induction ws as [|c ws IH]; [done|]. simpl. intros Hws.
  apply andb_prop in Hws as [-> Hws]. by apply IH.
Qed.

(** X22. Two kinds of line make the behaviour of [main] undefined: a line
    of white space only, after which [cmd] is compared without having been
    written, and a line whose first word has 30 characters or more, which
    [sscanf] writes past the end of [cmd]. *)
Theorem unreadable_lines st :
  (forall ws, all_space ws = true -> process_line st ws = Undef) /\
  (forall w rest, is_word w -> 30 <= strlen w -> ends_arg rest ->
                  process_line st (w +:+ rest) = Undef).
Proof.
  split.
  - intros ws Hws. unfold process_line, fmt_cmd, sscanf.
    by rewrite skip_space_blank.
  - intros w rest Hw Hlen Hrest. unfold process_line, fmt_cmd, sscanf.
    rewrite skip_space_word, scan_word_no_space by (done || apply Hw).
    destruct Hw as [Hne _]. destruct w as [|c w]; [done|].
    destruct (Z.ltb_spec (strlen (String c w)) 30); [lia|done].
Qed.

Lemma unreadable_lines_witness :
  process_line init nl = Undef /\
  process_line init ("ABCDEFGHIJKLMNOPQRSTUVWXYZABCD" +:+ nl) = Undef.
Proof.
  destruct (unreadable_lines init) as [Hblank Hlong]. split.
  - apply (Hblank nl). reflexivity.
  - apply (Hlong "ABCDEFGHIJKLMNOPQRSTUVWXYZABCD" nl); [by split| |reflexivity].
    vm_compute. discriminate.
Defined.
